(** * 101rescataditos data manager: reconciliation of Instagram posts
      against the spreadsheet store, and the expenses filter.

    Shallow embedding of
      - [src/services/sheet_service.py]  (SheetService: get_headers,
        get_oldest_date, find_row_by_id, get_oldest_id,
        insert_sheet_from_dict, get_id, buscar_valor_en_fila, get_estado),
      - [src/main.py]  (AnimalRescueManager: filtrarPostNuevos,
        process_instagram_posts, getmediaurl, getchildrenid and the armar_*
        row builders),
      - [src/api/instagram.py]  (InstagramAPI.get_recent_posts),
      - [src/services/image_analysis.py]  (analyze_caption_post,
        analyze_animal_image, _clean_json_response),
      - [src/src/services/transaction_service.py]  (DataCombiner._process_expenses).

    Strings are byte strings ([String.string]); the Python string methods
    are given on ASCII, bytes above 127 are left as they are.  The
    spreadsheet, the language model, the JSON parser, [strptime] and the
    media download are collaborators: the worksheet is modelled by the grid
    [get_all_values] returns, the others are fields of [Collaborators]. *)

From Stdlib Require Import ZArith List Bool Ascii String DecimalString DecimalPos Lia.
From stdpp Require Import base option list sorting strings gmap.

Local Open Scope string_scope.
Local Open Scope list_scope.
Local Open Scope Z_scope.

(* ===================================================================== *)
(** ** Python string methods used by the source *)
(* ===================================================================== *)

Module PyStr.

Definition code (c : ascii) : N := N_of_ascii c.

(** [str.isspace] on one ASCII character: tab, LF, VT, FF, CR,
    FS, GS, RS, US and space. *)
Definition isspace (c : ascii) : bool :=
  let n := code c in
  ((9 <=? n) && (n <=? 13) || (28 <=? n) && (n <=? 32))%N.

Definition is_upper (c : ascii) : bool :=
  let n := code c in ((65 <=? n) && (n <=? 90))%N.

Definition is_lower (c : ascii) : bool :=
  let n := code c in ((97 <=? n) && (n <=? 122))%N.

Definition is_digit (c : ascii) : bool :=
  let n := code c in ((48 <=? n) && (n <=? 57))%N.

Definition lower_char (c : ascii) : ascii :=
  if is_upper c then ascii_of_N (code c + 32) else c.

Definition upper_char (c : ascii) : ascii :=
  if is_lower c then ascii_of_N (code c - 32) else c.

Fixpoint map_chars (f : ascii -> ascii) (s : string) : string :=
  match s with
  | EmptyString => EmptyString
  | String c s' => String (f c) (map_chars f s')
  end.

(** [s.lower()] and [s.upper()] *)
Definition lower : string -> string := map_chars lower_char.
Definition upper : string -> string := map_chars upper_char.

(** [s.lstrip()], [s.rstrip()], [s.strip()] *)
Fixpoint lstrip (s : string) : string :=
  match s with
  | EmptyString => EmptyString
  | String c s' => if isspace c then lstrip s' else s
  end.

Fixpoint rstrip (s : string) : string :=
  match s with
  | EmptyString => EmptyString
  | String c s' =>
      match rstrip s' with
      | EmptyString => if isspace c then EmptyString else String c EmptyString
      | r => String c r
      end
  end.

Definition strip (s : string) : string := rstrip (lstrip s).

(** [s.split(sep)] for a one-character separator: never the empty list. *)
Fixpoint split (sep : ascii) (s : string) : list string :=
  match s with
  | EmptyString => [EmptyString]
  | String c s' =>
      if Ascii.eqb c sep then EmptyString :: split sep s'
      else match split sep s' with
           | w :: ws => String c w :: ws
           | [] => [String c EmptyString]
           end
  end.

Fixpoint all_chars (p : ascii -> bool) (s : string) : bool :=
  match s with
  | EmptyString => true
  | String c s' => p c && all_chars p s'
  end.

(** [s.isdigit()]: non-empty and only digits. *)
Definition isdigit (s : string) : bool :=
  match s with
  | EmptyString => false
  | _ => all_chars is_digit s
  end.

(** [int(s)] on the strings that pass [isdigit] after [strip]; [None] is
    the ValueError. *)
Definition int (s : string) : option Z :=
  match NilZero.uint_of_string (strip s) with
  | Some u => Some (Z.of_N (N.of_uint u))
  | None => None
  end.

(** [str(n)] of an integer, also the text a sheet shows for it. *)
Definition str_of_Z (z : Z) : string := NilZero.string_of_int (Z.to_int z).

(** the characters of a string, as [for ch in s] yields them *)
Fixpoint chars (s : string) : list string :=
  match s with
  | EmptyString => []
  | String c s' => String c EmptyString :: chars s'
  end.

(** [needle in s] *)
Fixpoint contains (needle s : string) : bool :=
  String.prefix needle s ||
  match s with
  | EmptyString => false
  | String _ s' => contains needle s'
  end.

(** a word character of the regular expression class [\w] *)
Definition is_word (c : ascii) : bool :=
  is_upper c || is_lower c || is_digit c || Ascii.eqb c "_"%char.

Definition starts_with_word (s : string) : bool :=
  match s with
  | EmptyString => false
  | String c _ => is_word c
  end.

(** [re.search(r'\bW\b', s)] for a literal word [W] that starts and ends
    with a word character: [W] occurs in [s] with no word character just
    before it and none just after it.  [prev] tells whether the character
    before the current position is a word character. *)
Fixpoint search_word_from (prev : bool) (w s : string) : bool :=
  (negb prev && String.prefix w s
     && negb (starts_with_word (String.substring (String.length w)
                                  (String.length s - String.length w) s)))
  || match s with
     | EmptyString => false
     | String c s' => search_word_from (is_word c) w s'
     end.

Definition search_word (w s : string) : bool := search_word_from false w s.

End PyStr.

(* ===================================================================== *)
(** ** Python values: what [json.loads] returns and what a cell is given *)
(* ===================================================================== *)

(** JSON numbers with a fraction are left out: no path of the embedded
    code tells them apart from integers. *)
#[warnings="-register-all"]
Inductive value : Type :=
| VNone
| VBool (b : bool)
| VInt (n : Z)
| VStr (s : string)
| VList (l : list value)
| VDict (d : list (string * value)).

Module Py.

(** truth value of an object, as [or] and [if] take it *)
Definition truthy (v : value) : bool :=
  match v with
  | VNone => false
  | VBool b => b
  | VInt n => negb (Z.eqb n 0)
  | VStr s => negb (String.eqb s "")
  | VList l => match l with [] => false | _ => true end
  | VDict d => match d with [] => false | _ => true end
  end.

(** [a or b] *)
Definition or (a b : value) : value := if truthy a then a else b.

(** [v[i]] for a literal index [i >= 0]; [None] is the IndexError,
    KeyError (a dict from JSON has string keys only) or TypeError. *)
Definition getitem (v : value) (i : nat) : option value :=
  match v with
  | VList l => l !! i
  | VStr s => VStr <$> (PyStr.chars s !! i)
  | _ => None
  end.

(** the items [for x in v] visits; [None] is the TypeError *)
Definition iter (v : value) : option (list value) :=
  match v with
  | VList l => Some l
  | VStr s => Some (VStr <$> PyStr.chars s)
  | VDict d => Some ((fun kv => VStr kv.1) <$> d)
  | _ => None
  end.

(** [v.split(",")]: only a string has the method *)
Definition split_comma (v : value) : option (list string) :=
  match v with
  | VStr s => Some (PyStr.split ","%char s)
  | _ => None
  end.

Definition of_option (o : option string) : value :=
  match o with Some s => VStr s | None => VNone end.

End Py.

(* ===================================================================== *)
(** ** The worksheet (gspread) *)
(* ===================================================================== *)

(** A worksheet is the grid [get_all_values()] returns: the header row
    first, every cell a string. *)
Definition worksheet : Type := list (list string).

Module Worksheet.

(** [worksheet.row_values(1)] *)
Definition row_values_1 (ws : worksheet) : list string := hd [] ws.

(** [worksheet.col_values(c + 1)]: column [c] (counted from 0), a row
    without that cell gives the empty string. *)
Definition col_values (ws : worksheet) (c : nat) : list string :=
  (fun row => nth c row "") <$> ws.

(** the text a cell shows for a written value; [None]: the API refuses a
    nested value and [append_row] raises. *)
Definition cell_text (v : value) : option string :=
  match v with
  | VNone => Some ""
  | VBool true => Some "TRUE"
  | VBool false => Some "FALSE"
  | VInt n => Some (PyStr.str_of_Z n)
  | VStr s => Some s
  | VList _ | VDict _ => None
  end.

(** [worksheet.append_row(new_row)] *)
Definition append_row (ws : worksheet) (new_row : list value) : option worksheet :=
  cells ← mapM cell_text new_row; Some (ws ++ [cells]).

(** [worksheet.get_all_records()]: one dict per data row, keyed by the
    header row; a header row with a repeated name raises.  Cells are read
    back as their text: the conversion of numeric cells to numbers is left
    out, a permalink is no number. *)
Definition get_all_records (ws : worksheet) : option (list (gmap string string)) :=
  match ws with
  | [] => Some []
  | keys :: rows =>
      if decide (NoDup keys)
      then Some ((fun row => list_to_map (zip keys row)) <$> rows)
      else None
  end.

End Worksheet.

(* ===================================================================== *)
(** ** SheetService  (src/services/sheet_service.py) *)
(* ===================================================================== *)

(** [for idx, x in enumerate(xs): if p(x): ... break]: first index. *)
Fixpoint first_index {A} (p : A -> bool) (xs : list A) : option nat :=
  match xs with
  | [] => None
  | x :: xs' => if p x then Some 0%nat else S <$> first_index p xs'
  end.

(** [max(xs)] of a non-empty list *)
Definition list_max_Z (x : Z) (xs : list Z) : Z := fold_left Z.max xs x.

Definition get_headers (ws : worksheet) : list string := Worksheet.row_values_1 ws.

(** [id_numbers] of [get_oldest_id]; [None] is an exception of [int].  On
    ASCII cells [isdigit] accepts only what [int] converts; no property
    below relies on [int] never raising. *)
Definition id_numbers (id_values : list string) : option (list Z) :=
  mapM PyStr.int (filter (fun val => PyStr.isdigit (PyStr.strip val) = true) id_values).

Definition get_oldest_id (ws : worksheet) : Z :=
  let headers := get_headers ws in
  match first_index (fun header => String.eqb (PyStr.lower header) "id") headers with
  | None => 1
  | Some idx =>
      let id_values := tail (Worksheet.col_values ws idx) in
      match id_numbers id_values with
      | Some (n :: ns) => list_max_Z n ns
      | Some [] => 1
      | None => 1
      end
  end.

(** The dict branch of [insert_sheet_from_dict]; the result is the
    returned flag and the worksheet after the call. *)
Definition insert_sheet_from_dict (data : gmap string value) (ws : worksheet)
  : bool * worksheet :=
  let headers := get_headers ws in
  let new_row := (fun header => default (VStr "") (data !! header)) <$> headers in
  match Worksheet.append_row ws new_row with
  | Some ws' => (true, ws')
  | None => (false, ws)
  end.

(** the loop over [values[1:]] of [get_id] *)
Fixpoint get_id_rows (name : string) (name_col id_col : nat) (rows : list (list string))
  : option string :=
  match rows with
  | [] => None
  | row :: rows' =>
      match row !! name_col with
      | Some cell =>
          if String.eqb (PyStr.lower (PyStr.strip cell)) (PyStr.lower (PyStr.strip name))
          then match row !! id_col with
               | Some idc =>
                   if negb (String.eqb (PyStr.strip idc) "")
                   then Some (PyStr.strip idc)
                   else get_id_rows name name_col id_col rows'
               | None => get_id_rows name name_col id_col rows'
               end
          else get_id_rows name name_col id_col rows'
      | None => get_id_rows name name_col id_col rows'
      end
  end.

Definition get_id (name : string) (ws : worksheet) : option string :=
  match ws with
  | [] => None
  | values0 :: rows =>
      let headers := (fun h => PyStr.strip (PyStr.lower h)) <$> values0 in
      match first_index (String.eqb "nombre") headers,
            first_index (String.eqb "id") headers with
      | Some name_col, Some id_col => get_id_rows name name_col id_col rows
      | _, _ => None
      end
  end.

(* ===================================================================== *)
(** ** Dates *)
(* ===================================================================== *)

(** A [datetime] with its UTC offset in seconds, as [strptime] with [%z]
    builds it. *)
Record datetime : Type := mkDatetime {
  year : Z; month : Z; day : Z;
  hour : Z; minute : Z; second : Z;
  utcoffset : Z
}.

Module Calendar.

(** days from 1970-01-01 to the given civil date (proleptic Gregorian) *)
Definition days_from_civil (y m d : Z) : Z :=
  let y' := if m <=? 2 then y - 1 else y in
  let era := y' / 400 in
  let yoe := y' - era * 400 in
  let mp := (m + 9) mod 12 in
  let doy := (153 * mp + 2) / 5 + d - 1 in
  let doe := yoe * 365 + yoe / 4 - yoe / 100 + doy in
  era * 146097 + doe - 719468.

(** [date.weekday()]: Monday is 0, Sunday is 6 *)
Definition weekday (dt : datetime) : Z :=
  (days_from_civil (year dt) (month dt) (day dt) + 3) mod 7.

(** the instant two aware datetimes are compared by, in seconds *)
Definition instant (dt : datetime) : Z :=
  days_from_civil (year dt) (month dt) (day dt) * 86400
  + hour dt * 3600 + minute dt * 60 + second dt - utcoffset dt.

(** a field printed on at least [width] digits *)
Definition zero_pad (width : nat) (n : Z) : string :=
  let s := PyStr.str_of_Z n in
  String.concat "" (repeat "0" (width - String.length s)) +:+ s.

(** [dt.strftime("%d/%m/%Y %H:%M:%S")] *)
Definition strftime (dt : datetime) : string :=
  zero_pad 2 (day dt) +:+ "/" +:+ zero_pad 2 (month dt) +:+ "/" +:+ zero_pad 4 (year dt)
  +:+ " " +:+ zero_pad 2 (hour dt) +:+ ":" +:+ zero_pad 2 (minute dt)
  +:+ ":" +:+ zero_pad 2 (second dt).

End Calendar.

(* ===================================================================== *)
(** ** Posts, extraction results and the collaborators *)
(* ===================================================================== *)

(** one item of [post["children"]["data"]]; [None] is an absent key *)
Record Child : Type := mkChild {
  c_id : option string;
  c_media_url : option string;
  c_thumbnail_url : option string
}.

(** a post as the Graph API returns it; [p_children] is
    [post["children"]["data"]] when the key [children] is present *)
Record Post : Type := mkPost {
  p_id : option string;
  p_caption : option string;
  p_timestamp : string;
  p_permalink : option string;
  p_media_url : option string;
  p_thumbnail_url : option string;
  p_children : option (list Child)
}.

(** the variable [image_bytes]: the list that starts empty and is appended
    to, or the single download assigned to it *)
Inductive images : Type :=
| ImgList (l : list (option string))
| ImgOne (b : option string).

(** one record of the list [analyze_animal_image] returns *)
Record animal_result : Type := mkAnimalResult {
  r_Nombre : value;
  r_Fecha : value;
  r_Tipo_Animal : value;
  r_Ubicacion : value;
  r_Color_de_pelo : value;
  r_Edad : value;
  r_Condicion_de_Salud_Inicial : value
}.

(** What the code calls and does not define.  A [None] result is a raised
    exception, except for [download_media], which returns [None] itself. *)
Class Collaborators : Type := {
  (** [json.loads] *)
  json_loads : string -> option value;
  (** [datetime.strptime(s, "%Y-%m-%dT%H:%M:%S%z")] *)
  strptime : string -> option datetime;
  (** the chat completion of [analyze_caption_post], from the caption and
      the publication date appended to the prompt *)
  caption_model : string -> string -> option string;
  (** [InstagramAPI.download_media] *)
  download_media : option string -> option string;
  (** [ImageAnalyzer.analyze_animal_image(image_bytes, date_time, caption,
      names)]: it catches every exception and returns a list *)
  analyze_animal_image : images -> string -> string -> string -> list animal_result
}.

(* ===================================================================== *)
(** ** The store and the monad of one run *)
(* ===================================================================== *)

Record Store : Type := mkStore {
  worksheet_animal : worksheet;
  worksheet_eventos : worksheet;
  worksheet_interaccion : worksheet
}.

Inductive sheet_name : Type := ANIMAL | EVENTO | INTERACCION.

Definition get_sheet (sh : sheet_name) (s : Store) : worksheet :=
  match sh with
  | ANIMAL => worksheet_animal s
  | EVENTO => worksheet_eventos s
  | INTERACCION => worksheet_interaccion s
  end.

Definition set_sheet (sh : sheet_name) (ws : worksheet) (s : Store) : Store :=
  match sh with
  | ANIMAL => mkStore ws (worksheet_eventos s) (worksheet_interaccion s)
  | EVENTO => mkStore (worksheet_animal s) ws (worksheet_interaccion s)
  | INTERACCION => mkStore (worksheet_animal s) (worksheet_eventos s) ws
  end.

Inductive log_entry : Type :=
| LogPostOk (post_id : option string)
| LogPostError (post_id : option string)
| LogSheetError
| LogBatchError.

(** the store, the local counter [oldest_id] of [process_instagram_posts]
    and the log lines written so far *)
Record State : Type := mkState {
  store : Store;
  oldest_id : Z;
  log : list log_entry
}.

Definition add_log (e : log_entry) (st : State) : State :=
  mkState (store st) (oldest_id st) (log st ++ [e]).

(** A computation that may raise: [None] is the exception, the state
    reached when it was raised is kept. *)
Definition M (A : Type) : Type := State -> option A * State.

Definition ret {A} (a : A) : M A := fun st => (Some a, st).

Definition bind {A B} (m : M A) (k : A -> M B) : M B :=
  fun st => match m st with
            | (Some a, st') => k a st'
            | (None, st') => (None, st')
            end.

(** an operation that raises when it has no result *)
Definition lift {A} (o : option A) : M A := fun st => (o, st).

Definition get_state : M State := fun st => (Some st, st).

Notation "'do' x <- m ; k" := (bind m (fun x => k))
  (at level 10, x name, m at level 100, k at level 200, only parsing).
Notation "'do_' m ; k" := (bind m (fun _ => k))
  (at level 10, m at level 100, k at level 200, only parsing).

(** [for x in xs: body(x)] *)
Fixpoint for_each {A} (xs : list A) (body : A -> M unit) : M unit :=
  match xs with
  | [] => ret tt
  | x :: xs' => do_ body x; for_each xs' body
  end.

(** [for i, x in enumerate(xs)] with a local variable carried along *)
Fixpoint for_enumerate {A L} (i : nat) (xs : list A) (body : nat -> A -> L -> M L) (l : L)
  : M L :=
  match xs with
  | [] => ret l
  | x :: xs' => do l' <- body i x l; for_enumerate (S i) xs' body l'
  end.

(* ===================================================================== *)
(** ** ImageAnalyzer.analyze_caption_post  (src/services/image_analysis.py) *)
(* ===================================================================== *)

Section Manager.

Context `{Collaborators}.

(** [result != 0] holds for every string, so the answer is always
    decoded and its first item split; the raw answer is returned. *)
Definition analyze_caption_post (caption timestamp : string) : option string :=
  result ← caption_model caption timestamp;
  resultj ← json_loads result;
  first ← Py.getitem resultj 0;
  names ← Py.split_comma first;
  Some result.

(* =================================================================== *)
(** ** AnimalRescueManager  (src/main.py) *)
(* =================================================================== *)

(** [self.sheet_service.insert_sheet_from_dict(data, worksheet)]: the
    failure is logged inside and never raised. *)
Definition insert (sh : sheet_name) (data : gmap string value) : M unit :=
  fun st =>
    let '(ok, ws') := insert_sheet_from_dict data (get_sheet sh (store st)) in
    let st' := mkState (set_sheet sh ws' (store st)) (oldest_id st) (log st) in
    (Some tt, if ok then st' else add_log LogSheetError st').

Definition armar_datos_a_insertar (new_id : Z) (result : animal_result)
  : gmap string value :=
  list_to_map
    [ ("id", VInt new_id);
      ("nombre", r_Nombre result);
      ("fecha", r_Fecha result);
      ("tipo_animal", r_Tipo_Animal result);
      ("ubicacion", r_Ubicacion result);
      ("edad", r_Edad result);
      ("color_de_pelo", r_Color_de_pelo result);
      ("condicion_de_salud_inicial", r_Condicion_de_Salud_Inicial result);
      ("activo", VStr "TRUE");
      ("fecha_actualizacion", r_Fecha result) ].

(** the items of [evento] are read in the order of the dict display *)
Definition armar_estado_a_insertar (evento id : value) (formated_date : string)
  : option (gmap string value) :=
  e0 ← Py.getitem evento 0;
  e1 ← Py.getitem evento 1;
  e3 ← Py.getitem evento 3;
  e4 ← Py.getitem evento 4;
  e2 ← Py.getitem evento 2;
  Some (list_to_map
          [ ("animal_id", id);
            ("ubicacion_id", e0);
            ("estado_id", e1);
            ("persona_id", e3);
            ("tipo_relacion_id", e4);
            ("fecha", Py.or e2 (VStr formated_date)) ]).

Definition armar_post_a_insertar (post_id_children nuevo_id : value)
    (media_url permalink : option string) (formatted_date : string)
  : gmap string value :=
  list_to_map
    [ ("animal_id", nuevo_id);
      ("fecha", VStr formatted_date);
      ("post_id", post_id_children);
      ("contenido", Py.of_option permalink);
      ("media_url", Py.of_option media_url) ].

(** [a or b] on two results of [dict.get] *)
Definition or_url (a b : option string) : option string :=
  if Py.truthy (Py.of_option a) then a else b.

Definition getmediaurl (post : Post) (i : nat) (media_url : option string)
  : option (option string) :=
  match p_children post with
  | Some data => child ← data !! i;
                 Some (or_url (c_thumbnail_url child) (c_media_url child))
  | None => Some media_url
  end.

Definition getchildrenid (post : Post) (i : nat) (post_id : option string)
  : option (option string) :=
  match p_children post with
  | Some data => child ← data !! i; Some (c_id child)
  | None => Some post_id
  end.

(** [existentes]: the cells of the column [contenido] of the data rows *)
Definition existentes (ws : worksheet) : option (gset string) :=
  records ← Worksheet.get_all_records ws;
  let df_empty := match records with [] => true | _ => false end in
  let has_column := existsb (fun r => bool_decide (is_Some (r !! "contenido"))) records in
  Some (if negb df_empty && has_column
        then list_to_set (omap (fun r => r !! "contenido") records)
        else ∅).

(** [str(p.get('permalink', ''))] *)
Definition permalink_str (p : Post) : string := default "" (p_permalink p).

(** [list.sort(key=...)]: stable, ascending *)
Fixpoint insert_by_key (k : Z) (p : Post) (sorted : list (Z * Post)) : list (Z * Post) :=
  match sorted with
  | [] => [(k, p)]
  | (k', p') :: rest =>
      if k' <? k then (k', p') :: insert_by_key k p rest
      else (k, p) :: sorted
  end.

Definition sort_by_key (keyed : list (Z * Post)) : list Post :=
  snd <$> foldr (fun kp acc => insert_by_key kp.1 kp.2 acc) [] keyed.

(** [None]: a raised exception (the records cannot be read, or a
    timestamp does not parse) *)
Definition filtrarPostNuevos (ws_interaccion : worksheet) (post_list : list Post)
  : option (list Post) :=
  existentes ← existentes ws_interaccion;
  let post_nuevos :=
    filter (fun p => permalink_str p ∉ existentes) post_list in
  keyed ← mapM (fun x => dt ← strptime (p_timestamp x);
                         Some (Calendar.instant dt, x)) post_nuevos;
  Some (sort_by_key keyed).

(** the local variables [media_url] and [image_bytes] of one post *)
Record locals : Type := mkLocals {
  media_url : option string;
  image_bytes : images
}.

(** [image_bytes.append(b)]: only a list has the method *)
Definition append_image (b : option string) (im : images) : option images :=
  match im with
  | ImgList l => Some (ImgList (l ++ [b]))
  | ImgOne _ => None
  end.

(** the loop over [post.get("children").get("data")[:cant_names-1]] *)
Fixpoint download_children (children : list Child) (loc : locals) : option locals :=
  match children with
  | [] => Some loc
  | ch :: rest =>
      let media_url :=
        match c_thumbnail_url ch with
        | Some t => Some t
        | None => c_media_url ch
        end in
      im ← append_image (download_media media_url) (image_bytes loc);
      download_children rest (mkLocals media_url im)
  end.

(** [oldest_id = oldest_id + 1] *)
Definition incr_oldest_id : M Z :=
  fun st => (Some (oldest_id st + 1), mkState (store st) (oldest_id st + 1) (log st)).

(** body of [for i, result in enumerate(results)] *)
Definition insert_result (post : Post) (formatted_date : string)
    (i : nat) (result : animal_result) (media_url : option string)
  : M (option string) :=
  do new_id <- incr_oldest_id;
  do_ insert ANIMAL (armar_datos_a_insertar new_id result);
  do media_url' <- lift (getmediaurl post i media_url);
  do post_id_children <- lift (getchildrenid post i (p_id post));
  do_ insert INTERACCION
        (armar_post_a_insertar (Py.of_option post_id_children) (VInt new_id)
           media_url' (p_permalink post) formatted_date);
  ret media_url'.

(** body of [for evento in data[1]]; [id] is carried from one event to
    the next *)
Definition insert_evento (cant_names : nat) (formatted_date : string)
    (evento id : value) : M value :=
  do st <- get_state;
  let id' := Py.or id (VInt (oldest_id st - Z.of_nat cant_names + 1)) in
  do nuevo_evento <- lift (armar_estado_a_insertar evento id' formatted_date);
  do_ insert EVENTO nuevo_evento;
  ret id'.

(** body of [for i, name in enumerate(names)] *)
Definition process_name (post : Post) (data : value)
    (names_str caption formatted_date : string) (cant_names : nat)
    (name : string) (loc : locals) : M locals :=
  do st <- get_state;
  let id := get_id name (worksheet_animal (store st)) in
  do loc' <-
    match id with
    | None =>
        do loc1 <-
          (if (cant_names =? 1)%nat || negb (bool_decide (is_Some (p_children post)))
           then ret (mkLocals (media_url loc) (ImgOne (download_media (media_url loc))))
           else lift (download_children
                        (take (cant_names - 1) (default [] (p_children post))) loc));
        let results :=
          analyze_animal_image (image_bytes loc1) formatted_date caption names_str in
        do media_url' <-
          for_enumerate 0 results (insert_result post formatted_date) (media_url loc1);
        ret (mkLocals media_url' (image_bytes loc1))
    | Some id_str =>
        do_ insert INTERACCION
              (armar_post_a_insertar (Py.of_option (p_id post)) (VStr id_str)
                 (media_url loc) (p_permalink post) formatted_date);
        ret loc
    end;
  do eventos <- lift (d1 ← Py.getitem data 1; Py.iter d1);
  do_ for_enumerate 0 eventos
        (fun _ evento id => insert_evento cant_names formatted_date evento id)
        (Py.of_option id);
  ret loc'.

(** the body of the [try] of one post.  [strptime] cannot fail here: the
    sort of [filtrarPostNuevos] has parsed the same string. *)
Definition process_post (post : Post) : M unit :=
  let caption := default "" (p_caption post) in
  do timestamp <- lift (strptime (p_timestamp post));
  let formatted_date := Calendar.strftime timestamp in
  let media_url := or_url (p_thumbnail_url post) (p_media_url post) in
  do resp <- lift (analyze_caption_post caption formatted_date);
  (* [resp != 0 or resp != "0"] holds for every answer *)
  do data <- lift (json_loads resp);
  do first <- lift (Py.getitem data 0);
  do names <- lift (Py.split_comma first);
  let names_str := match first with VStr s => s | _ => "" end in
  let cant_names := length names in
  do_ for_enumerate 0 names
        (fun _ name loc =>
           process_name post data names_str caption formatted_date cant_names name loc)
        (mkLocals media_url (ImgList []));
  ret tt.

(** [try: ... except Exception as e: logger.error(...)] around one post
    whose timestamp parses: [post_id] is then bound to the post's id when
    the handler reads it.  The posts of the loop come out of the sort of
    [filtrarPostNuevos], which has parsed the timestamp of each. *)
Definition try_post (post : Post) (st : State) : State :=
  match process_post post st with
  | (Some _, st') => add_log (LogPostOk (p_id post)) st'
  | (None, st') => add_log (LogPostError (p_id post)) st'
  end.

Definition process_posts (posts : list Post) (st : State) : State :=
  fold_left (fun s post => try_post post s) posts st.

(** [posts] is what [get_recent_posts] returned *)
Definition process_instagram_posts (posts : list Post) (s : Store) : State :=
  let st := mkState s (get_oldest_id (worksheet_animal s)) [] in
  match filtrarPostNuevos (worksheet_interaccion s) posts with
  | Some posts' => process_posts posts' st
  | None => add_log LogBatchError st
  end.

End Manager.

(* ===================================================================== *)
(** ** DataCombiner._process_expenses
       (src/src/services/transaction_service.py) *)
(* ===================================================================== *)

(** one row of [df_negativos]; the amount is carried through unchanged and
    is given in cents *)
Record transaction : Type := mkTransaction {
  ID_DE_LA_OPERACION : string;
  FECHA : string;
  MEDIO_DE_PAGO : string;
  DONANTE : string;
  DETALLE_DE_LA_VENTA : string;
  VALOR : Z
}.

Inductive tipo_de_gasto : Type := Veterinaria | Transporte | Alimentos.

(** one row of the returned frame; [e_FECHA] is [None] for [NaT] *)
Record expense : Type := mkExpense {
  e_FECHA : option datetime;
  Nombre_de_Proveedor : string;
  Tipo_de_gasto : tipo_de_gasto;
  MASCOTA : string;
  RESPONSABLE : string;
  DETALLE : string;
  MONTO : Z;
  FORMA_DE_PAGO : string;
  Observacion : string;
  Tiempo_Total : string;
  foto : string
}.

(** [Config.EXPENSE_KEYWORDS] *)
Definition EXPENSE_KEYWORDS : list string :=
  ["VETERINA"; "LINARES"; "MASCOTAS"; "PET"; "POPPI";
   "WALTER EDUARDO PEREZ"; "CABIFY"; "BALANCEADOS"].

Section DataCombiner.

(** [pd.to_datetime(s, format="%d/%m/%Y %H:%M:%S", errors='coerce')];
    [None] is [NaT] *)
Variable to_datetime : string -> option datetime.

(** the escaped keywords joined by [|]: one of them occurs in the name *)
Definition matches_keyword (donante : string) : bool :=
  existsb (fun kw => PyStr.contains kw (PyStr.upper donante)) EXPENSE_KEYWORDS.

(** [mask_cabify]: the pattern [\bCABIFY\b] on the upper-cased name *)
Definition mask_cabify (donante : string) : bool :=
  PyStr.search_word "CABIFY" (PyStr.upper donante).

(** [mask_weekend]: [weekday] is 5 (Saturday) or 6 (Sunday); false for [NaT] *)
Definition mask_weekend (fecha : option datetime) : bool :=
  match fecha with
  | Some dt => (Calendar.weekday dt =? 5) || (Calendar.weekday dt =? 6)
  | None => false
  end.

(** the first condition of [np.select] *)
Definition mask_veterinaria (proveedor : string) : bool :=
  let u := PyStr.upper proveedor in
  PyStr.search_word "WALTER EDUARDO PEREZ" u
  || PyStr.search_word "VETERINAR" u
  || PyStr.search_word "LINARES, MARCELO" u.

Definition select_tipo (proveedor : string) : tipo_de_gasto :=
  if mask_veterinaria proveedor then Veterinaria
  else if mask_cabify proveedor then Transporte
  else Alimentos.

(** the rows left after the keyword filter and the Cabify filter
    [df[~(mask_cabify & ~mask_weekend)]] *)
Definition kept_rows (df_negativos : list transaction) : list transaction :=
  let df := filter (fun t => matches_keyword (DONANTE t) = true) df_negativos in
  filter (fun t => negb (mask_cabify (DONANTE t)
                         && negb (mask_weekend (to_datetime (FECHA t)))) = true) df.

(** the renamed and added columns of one kept row *)
Definition to_expense (t : transaction) : expense :=
  {| e_FECHA := to_datetime (FECHA t);
     Nombre_de_Proveedor := DONANTE t;
     Tipo_de_gasto := select_tipo (DONANTE t);
     MASCOTA := "";
     RESPONSABLE := "LARA GERALDINE";
     DETALLE := DETALLE_DE_LA_VENTA t;
     MONTO := VALOR t;
     FORMA_DE_PAGO := "MERCADOPAGO";
     Observacion := ID_DE_LA_OPERACION t;
     Tiempo_Total := "";
     foto := "" |}.

Definition _process_expenses (df_negativos : list transaction) : list expense :=
  to_expense <$> kept_rows df_negativos.

End DataCombiner.

(* ===================================================================== *)
(** ** Vocabulary of the properties *)
(* ===================================================================== *)

(** the normalisation the lookup applies to both names it compares:
    [name.strip().lower()] *)
Definition normalize_name (name : string) : string :=
  PyStr.lower (PyStr.strip name).

(** a row identifies the animal [name]: its [nombre] cell is the name after
    normalisation and its [id] cell is there and not blank; the result is
    the trimmed [id] cell *)
Definition identified_match (name : string) (name_col id_col : nat) (row : list string)
  : option string :=
  cell ← row !! name_col;
  idc ← row !! id_col;
  if String.eqb (normalize_name cell) (normalize_name name)
     && negb (String.eqb (PyStr.strip idc) "")
  then Some (PyStr.strip idc) else None.

(** the columns [get_id] reads, from the header row *)
Definition lookup_columns (values0 : list string) : option (nat * nat) :=
  let headers := (fun h => PyStr.strip (PyStr.lower h)) <$> values0 in
  name_col ← first_index (String.eqb "nombre") headers;
  id_col ← first_index (String.eqb "id") headers;
  Some (name_col, id_col).

(** The lookup as the specification words it: the trimmed [id] cell of the
    first row whose [nombre] cell is the name, whatever that cell holds. *)
Definition get_id_first_named_row (name : string) (ws : worksheet) : option string :=
  match ws with
  | [] => None
  | values0 :: rows =>
      '(name_col, id_col) ← lookup_columns values0;
      row ← List.find (fun row => match row !! name_col with
                                  | Some cell => String.eqb (normalize_name cell)
                                                            (normalize_name name)
                                  | None => false
                                  end) rows;
      Some (PyStr.strip (nth id_col row ""))
  end.

(** the permalink stands in a cell of a data row under a header [contenido] *)
Definition in_contenido (ws : worksheet) (permalink : string) : bool :=
  existsb (fun row =>
             existsb (fun hc => String.eqb hc.1 "contenido" && String.eqb hc.2 permalink)
                     (zip (hd [] ws) row))
          (tail ws).

(** the cell of [row] under every header called [name] is [text] *)
Definition cell_under (name text : string) (headers row : list string) : Prop :=
  forall k, headers !! k = Some name -> row !! k = Some text.

(** [R] relates the state before a computation to the state after it,
    whether it returned or raised *)
Definition keeps {A} (R : relation State) (m : M A) : Prop :=
  forall st, R st (m st).2.

(** the rows added to the sheet [sh] all satisfy [P], which may depend on
    the header row *)
Definition appends_rows (sh : sheet_name) (P : list string -> list string -> Prop)
  : relation State :=
  fun st st' =>
    forall hdr rows0, get_sheet sh (store st) = hdr :: rows0 ->
      exists rows, get_sheet sh (store st') = hdr :: rows0 ++ rows /\ Forall (P hdr) rows.

(** the sheet [sh] is the same before and after *)
Definition same_sheet (sh : sheet_name) : relation State :=
  fun st st' => get_sheet sh (store st') = get_sheet sh (store st).

(** an event tuple with fewer than five items *)
Definition short_tuple (evento : value) : Prop :=
  exists k, (k < 5)%nat /\ Py.getitem evento k = None.

(** the numeric identifiers present in the [id] column of a sheet *)
Definition present_ids (ws : worksheet) : list Z :=
  match first_index (fun header => String.eqb (PyStr.lower header) "id") (get_headers ws) with
  | Some idx => default [] (id_numbers (tail (Worksheet.col_values ws idx)))
  | None => []
  end.


(** every field of a record can be written to a cell *)
Definition renderable (result : animal_result) : Prop :=
  Forall (fun v => is_Some (Worksheet.cell_text v))
    [ r_Nombre result; r_Fecha result; r_Tipo_Animal result; r_Ubicacion result;
      r_Edad result; r_Color_de_pelo result; r_Condicion_de_Salud_Inicial result ].

(* ===================================================================== *)
(** ** A run on concrete collaborators *)
(* ===================================================================== *)

Module Demo.

(** one well-formed event tuple without a time: [[1,2,"t","p",4]] with
    empty [t] and [p] *)
Definition event : value := VList [VInt 1; VInt 2; VStr ""; VStr ""; VInt 4].

(** the answers of the caption model, named by the caption that gets them *)
Definition loads (s : string) : option value :=
  if String.eqb s "one" then Some (VList [VStr "luna"; VList [event]])
  else if String.eqb s "two" then Some (VList [VStr "luna,max"; VList [event]])
  else if String.eqb s "short" then Some (VList [VStr "luna"; VList [VList [VInt 1; VInt 2]]])
  else if String.eqb s "mixed" then Some (VList [VStr "luna,sol"; VList [event]])
  else if String.eqb s "zero" then Some (VInt 0)
  else None.

Definition parse_timestamp (s : string) : option datetime :=
  if String.eqb s "2025-08-09T19:00:00+0000"
  then Some (mkDatetime 2025 8 9 19 0 0 0) else None.

(** a vision model that returns one record per name *)
Definition vision (_ : images) (date_time _ names : string)
  : list animal_result :=
  (fun n => mkAnimalResult (VStr n) (VStr date_time) (VStr "perro") (VStr "CABA")
              (VStr "negro") (VStr "2 meses") (VStr "sano"))
    <$> PyStr.split ","%char names.

Definition collaborators : Collaborators := {|
  json_loads := loads;
  strptime := parse_timestamp;
  caption_model := fun caption _ => Some caption;
  download_media := fun url => url;
  analyze_animal_image := vision |}.

Definition animal_header : list string :=
  ["id"; "nombre"; "fecha"; "tipo_animal"; "activo"].
Definition evento_header : list string :=
  ["animal_id"; "ubicacion_id"; "estado_id"; "persona_id"; "tipo_relacion_id"; "fecha"].
Definition interaccion_header : list string :=
  ["animal_id"; "fecha"; "post_id"; "contenido"; "media_url"].

(** a store with one animal, identifier 10 *)
Definition store0 : Store :=
  mkStore [animal_header; ["10"; "sol"; "01/08/2025 10:00:00"; "gato"; "TRUE"]]
          [evento_header] [interaccion_header].


Definition children : option (list Child) :=
  Some [mkChild (Some "c1") (Some "c1.jpg") None;
        mkChild (Some "c2") (Some "c2.jpg") None].

Definition post (caption permalink : string) (kids : option (list Child)) : Post :=
  mkPost (Some "17") (Some caption) "2025-08-09T19:00:00+0000" (Some permalink)
         (Some "m.jpg") None kids.

(** [pd.to_datetime] on the two dates of the expenses example *)
Definition to_datetime (s : string) : option datetime :=
  if String.eqb s "09/08/2025 19:00:00" then Some (mkDatetime 2025 8 9 19 0 0 0)
  else if String.eqb s "11/08/2025 08:30:00" then Some (mkDatetime 2025 8 11 8 30 0 0)
  else None.

Definition ride (op fecha : string) : transaction :=
  mkTransaction op fecha "account_money" "Cabify" "viaje" 4500.

End Demo.

(* ===================================================================== *)
(** ** SheetService, the other lookups  (src/services/sheet_service.py) *)
(* ===================================================================== *)

(** [cell_value == id]: a cell is a string and equals a string only *)
Definition cell_equals (cell : string) (id : value) : bool :=
  match id with
  | VStr s => String.eqb cell s
  | _ => false
  end.

(** the row number counted from 1, [-1] when there is none *)
Definition find_row_by_id (ws : worksheet) (id : value) : Z :=
  let headers := get_headers ws in
  match first_index (fun header => String.eqb (PyStr.lower header) "id") headers with
  | None => -1
  | Some idx =>
      let name_values := Worksheet.col_values ws idx in
      match first_index (fun cell_value => cell_equals cell_value id) name_values with
      | Some row_idx => Z.of_nat row_idx + 1
      | None => -1
      end
  end.

(** the loop over [filas] of [buscar_valor_en_fila]; [valor] is
    [str(valor_buscado)] *)
Fixpoint buscar_en_filas (idx_busqueda idx_retorno : nat) (valor : string)
    (filas : list (list string)) : option string :=
  match filas with
  | [] => None
  | fila :: filas' =>
      match fila !! idx_busqueda with
      | Some cell =>
          if String.eqb (PyStr.strip cell) valor
          then fila !! idx_retorno
          else buscar_en_filas idx_busqueda idx_retorno valor filas'
      | None => buscar_en_filas idx_busqueda idx_retorno valor filas'
      end
  end.

(** the index of the first header equal to [columna] without regard to case *)
Definition header_index (columna : string) (headers : list string) : option nat :=
  first_index (fun h => String.eqb (PyStr.lower h) (PyStr.lower columna)) headers.

(** [valor_buscado] is given as its text [str(valor_buscado)] *)
Definition buscar_valor_en_fila (ws : worksheet)
    (columna_busqueda columna_retorno valor_buscado : string) : option string :=
  let headers := Worksheet.row_values_1 ws in
  match header_index columna_busqueda headers, header_index columna_retorno headers with
  | Some idx_busqueda, Some idx_retorno =>
      buscar_en_filas idx_busqueda idx_retorno valor_buscado (tail ws)
  | _, _ => None
  end.

(** [str(id)] of the result of the first search *)
Definition str_of_found (id : option string) : string :=
  match id with
  | Some s => s
  | None => "None"
  end.

(** [get_estado], on the worksheets [Post] and [Datos] *)
Definition get_estado (worksheet_post worksheet_datos : worksheet) (post_id : string)
  : option string :=
  let id := buscar_valor_en_fila worksheet_post "id_post" "id" post_id in
  buscar_valor_en_fila worksheet_datos "id" "Estado Actual" (str_of_found id).

(** [data] of [insert_sheet_from_dict]: a dict, or a list of such data *)
#[warnings="-register-all"]
Inductive sheet_data : Type :=
| DataDict (d : gmap string value)
| DataList (items : list sheet_data).

(** [insert_sheet_from_dict] with its list branch: the items are inserted
    in order; the state of the loop is [success] and the worksheet *)
Fixpoint insert_sheet_from_data (data : sheet_data) (ws : worksheet) : bool * worksheet :=
  match data with
  | DataDict d => insert_sheet_from_dict d ws
  | DataList items =>
      foldl (fun '(success, ws) item =>
               let '(ok, ws') := insert_sheet_from_data item ws in
               (if ok then success else false, ws'))
            (true, ws) items
  end.

(** naive datetimes are compared field by field *)
Definition naive_ltb (a b : datetime) : bool :=
  match year a ?= year b with
  | Lt => true | Gt => false
  | Eq =>
    match month a ?= month b with
    | Lt => true | Gt => false
    | Eq =>
      match day a ?= day b with
      | Lt => true | Gt => false
      | Eq =>
        match hour a ?= hour b with
        | Lt => true | Gt => false
        | Eq =>
          match minute a ?= minute b with
          | Lt => true | Gt => false
          | Eq => second a <? second b
          end
        end
      end
    end
  end.

(** [datetime(2020, 1, 1, 0, 0, 0)] *)
Definition default_date : datetime := mkDatetime 2020 1 1 0 0 0 0.

(** [max(dates)] of a non-empty list: the first of the greatest *)
Definition max_date (d : datetime) (ds : list datetime) : datetime :=
  fold_left (fun m x => if naive_ltb m x then x else m) ds d.

(** [header.lower() in ["fecha", "date"]] *)
Definition is_date_header (header : string) : bool :=
  String.eqb (PyStr.lower header) "fecha" || String.eqb (PyStr.lower header) "date".

Section OldestDate.

(** [datetime.strptime(s, "%d/%m/%Y %H:%M:%S")]; [None] is the ValueError *)
Variable strptime_dmy : string -> option datetime.

(** the list [dates]: blank cells are skipped, cells that do not parse
    are skipped with a warning *)
Definition parsed_dates (date_values : list string) : list datetime :=
  omap (fun date_str =>
          if negb (String.eqb (PyStr.strip date_str) "") then strptime_dmy date_str
          else None) date_values.

Definition get_oldest_date (ws : worksheet) : datetime :=
  let headers := get_headers ws in
  match first_index is_date_header headers with
  | None => default_date
  | Some idx =>
      let date_values := tail (Worksheet.col_values ws idx) in
      match parsed_dates date_values with
      | d :: ds => max_date d ds
      | [] => default_date
      end
  end.

End OldestDate.

(* ===================================================================== *)
(** ** InstagramAPI.get_recent_posts  (src/api/instagram.py) *)
(* ===================================================================== *)

(** one answer of the Graph API in the pagination loop: status 200 with the
    posts of the page, another status, or an exception of the request *)
Inductive response : Type :=
| Ok200 (data : list Post)
| NotOk
| Raised.

(** [relevant_posts.sort(key=...)] on naive times: stable, ascending *)
Fixpoint insert_by_time (k : datetime) (p : Post) (sorted : list (datetime * Post))
  : list (datetime * Post) :=
  match sorted with
  | [] => [(k, p)]
  | (k', p') :: rest =>
      if naive_ltb k' k then (k', p') :: insert_by_time k p rest
      else (k, p) :: sorted
  end.

Section RecentPosts.

Context `{Collaborators}.

(** the posts of one page that are later than [earliest_date], with their
    naive time; [None] when a timestamp does not parse *)
Fixpoint relevant_of_batch (earliest_date : datetime) (posts_batch : list Post)
  : option (list (datetime * Post)) :=
  match posts_batch with
  | [] => Some []
  | post :: rest =>
      post_time ← strptime (p_timestamp post);
      relevant ← relevant_of_batch earliest_date rest;
      Some (if naive_ltb earliest_date post_time then (post_time, post) :: relevant
            else relevant)
  end.

(** the loop [while url]: the pages are the answers in the order they
    come, the last one has no next page *)
Fixpoint relevant_posts (earliest_date : datetime) (pages : list response)
  : option (list (datetime * Post)) :=
  match pages with
  | [] => Some []
  | Raised :: _ => None
  | NotOk :: _ => Some []
  | Ok200 posts_batch :: pages' =>
      relevant ← relevant_of_batch earliest_date posts_batch;
      later ← relevant_posts earliest_date pages';
      Some (relevant ++ later)
  end.

(** [configured]: the access token and the user id are set *)
Definition get_recent_posts (configured : bool) (pages : list response)
    (earliest_date : option datetime) : list Post :=
  if negb configured then []
  else
    let earliest_date := default default_date earliest_date in
    match relevant_posts earliest_date pages with
    | Some relevant =>
        snd <$> foldr (fun kp acc => insert_by_time kp.1 kp.2 acc) [] relevant
    | None => []
    end.

End RecentPosts.

(* ===================================================================== *)
(** ** ImageAnalyzer.analyze_animal_image  (src/services/image_analysis.py) *)
(* ===================================================================== *)

Module ImageAnalyzer.

(** [s.endswith(suffix)] *)
Definition endswith (suffix s : string) : bool :=
  let n := String.length s in
  let m := String.length suffix in
  (m <=? n)%nat && String.eqb (substring (n - m) m s) suffix.

(** [s.replace(old, "")], [old] not empty: the occurrences are found from
    the left and do not overlap; [skip] counts the characters of an
    occurrence still to be dropped *)
Fixpoint remove_from (skip : nat) (old s : string) : string :=
  match s with
  | EmptyString => EmptyString
  | String c s' =>
      match skip with
      | S skip' => remove_from skip' old s'
      | O =>
          if String.prefix old s then remove_from (String.length old - 1) old s'
          else String c (remove_from O old s')
      end
  end.

Definition remove_all (old s : string) : string := remove_from O old s.

(** [s[:-n]] for [n] not above the length *)
Definition drop_last (n : nat) (s : string) : string :=
  substring 0 (String.length s - n) s.

Definition _clean_json_response (response : string) : string :=
  let response :=
    if String.prefix "```json" response
    then PyStr.strip (remove_all "```json" response) else response in
  if endswith "```" response then PyStr.strip (drop_last 3 response) else response.

(** [d.get(key, default)] on the pairs of a JSON object *)
Fixpoint dict_get (d : list (string * value)) (key : string) (default : value) : value :=
  match d with
  | [] => default
  | (k, v) :: d' => if String.eqb k key then v else dict_get d' key default
  end.

(** [base64.b64encode] raises on [None], the result of a failed download *)
Definition encodable (image_bytes : images) : bool :=
  match image_bytes with
  | ImgList l => forallb (fun b => match b with Some _ => true | None => false end) l
  | ImgOne (Some _) => true
  | ImgOne None => false
  end.

Section Analyzer.

Context `{Collaborators}.

(** the content of the first choice of the chat completion, from the names
    appended to the prompt, the images and the caption text; [None]: the
    request raised or gave no content *)
Variable completion : string -> images -> string -> option string.
(** [json.dumps(l, ensure_ascii=False)] of a list *)
Variable json_dumps : list value -> string.
(** [str(d)] of a dict *)
Variable str_of_dict : list (string * value) -> string.

Definition color_string (color_info : value) : string :=
  match color_info with
  | VList l => json_dumps l
  | VNone => "None"
  | VBool true => "True"
  | VBool false => "False"
  | VInt n => PyStr.str_of_Z n
  | VStr s => s
  | VDict d => str_of_dict d
  end.

(** one turn of the loop over [analysis_array]; [None]: the item has no
    method [get] *)
Definition animal_record (date_time : string) (animal_data : value)
  : option animal_result :=
  match animal_data with
  | VDict d =>
      let color_info := dict_get d "color_pelo" (VStr "No determinado") in
      Some {| r_Nombre := dict_get d "Nombre" (VStr "Sin nombre");
              r_Fecha := VStr date_time;
              r_Tipo_Animal := dict_get d "tipo_animal" (VStr "No determinado");
              r_Ubicacion := dict_get d "Ubicacion" (VStr "No determinado");
              r_Color_de_pelo := VStr (color_string color_info);
              r_Edad := dict_get d "Edad" (VStr "No determinado");
              r_Condicion_de_Salud_Inicial :=
                dict_get d "Condición de Salud Inicial" (VStr "No determinado") |}
  | _ => None
  end.

(** the array the records are made from: an object counts as an array of
    one, anything else but a list is refused *)
Definition analysis_array (analysis : value) : option (list value) :=
  match analysis with
  | VDict _ => Some [analysis]
  | VList l => Some l
  | _ => None
  end.

Definition analyze_animal_image (image_bytes : images) (date_time : string)
    (caption : option string) (names : string) : list animal_result :=
  let caption_text := default "" caption in
  if negb (encodable image_bytes) then []
  else
    match completion names image_bytes caption_text with
    | None => []
    | Some content =>
        let result := PyStr.strip content in
        if String.eqb (PyStr.upper result) "IGNORAR" then []
        else
          let cleaned_response := _clean_json_response result in
          match json_loads cleaned_response with
          | None => []
          | Some analysis =>
              match analysis_array analysis with
              | None => []
              | Some array => default [] (mapM (animal_record date_time) array)
              end
          end
    end.

End Analyzer.

End ImageAnalyzer.

(* ===================================================================== *)
(** ** Vocabulary of the further properties *)
(* ===================================================================== *)

(** the instant the sort of [filtrarPostNuevos] gives a post; [None] when
    its timestamp does not parse *)
Definition post_instant `{Collaborators} (p : Post) : option Z :=
  Calendar.instant <$> strptime (p_timestamp p).

(** the order of the keyed posts the sort works on *)
Definition key_le (a b : Z * Post) : Prop := a.1 <= b.1.

(** the post is not yet in the Interaction sheet *)
Definition is_new (ws_interaccion : worksheet) (p : Post) : Prop :=
  in_contenido ws_interaccion (permalink_str p) = false.

Global Instance is_new_dec ws_interaccion p : Decision (is_new ws_interaccion p).
Proof. unfold is_new. apply _. Defined.

(** a log line written for a post, not for a sheet *)
Definition is_post_entry (e : log_entry) : bool :=
  match e with
  | LogPostOk _ | LogPostError _ => true
  | _ => false
  end.

(** the log lines written for posts are the same before and after *)
Definition same_post_entries : relation State :=
  fun st st' =>
    filter (fun e => is_post_entry e = true) (log st')
    = filter (fun e => is_post_entry e = true) (log st).

(** [old] is the beginning of [new]: rows were added, none was changed *)
Definition extends (old new : worksheet) : Prop := exists rows, new = old ++ rows.

(** the store only grew and the counter did not go back *)
Definition grows : relation State :=
  fun st st' =>
    (forall sh, extends (get_sheet sh (store st)) (get_sheet sh (store st')))
    /\ oldest_id st <= oldest_id st'.

(** the dicts of the data in the order they are inserted *)
Fixpoint dicts_of (data : sheet_data) : list (gmap string value) :=
  match data with
  | DataDict d => [d]
  | DataList items => items ≫= dicts_of
  end.

(** the cells a dict gives under the headers; [None] when one of its
    values cannot be written to a cell *)
Definition row_of (headers : list string) (d : gmap string value) : option (list string) :=
  mapM Worksheet.cell_text ((fun header => default (VStr "") (d !! header)) <$> headers).

(** the flag and the sheet after the dicts of [data] were gone through,
    starting from the flag [success] *)
Definition inserted (headers : list string) (ws : worksheet) (data : sheet_data)
    (success : bool) : bool * worksheet :=
  let rows := omap (row_of headers) (dicts_of data) in
  (success && bool_decide (length rows = length (dicts_of data)), ws ++ rows).

(** the order of naive datetimes, written out *)
Definition naive_lt (a b : datetime) : Prop :=
  year a < year b \/ (year a = year b /\
  (month a < month b \/ (month a = month b /\
  (day a < day b \/ (day a = day b /\
  (hour a < hour b \/ (hour a = hour b /\
  (minute a < minute b \/ (minute a = minute b /\ second a < second b))))))))).

(** [a] is not later than [b] *)
Definition naive_le (a b : datetime) : Prop := naive_ltb b a = false.

(** the posts of the pages read: those answered with status 200 before
    the first other answer *)
Fixpoint fetched (pages : list response) : list Post :=
  match pages with
  | Ok200 posts_batch :: pages' => posts_batch ++ fetched pages'
  | _ => []
  end.

(** a request raises before any answer with another status than 200 *)
Fixpoint raised (pages : list response) : bool :=
  match pages with
  | Ok200 _ :: pages' => raised pages'
  | Raised :: _ => true
  | _ => false
  end.

(** the time of the post, its offset dropped; [None] when the timestamp
    does not parse *)
Definition naive_time `{Collaborators} (p : Post) : option datetime :=
  strptime (p_timestamp p).

(** the timestamp parses and the time of the post is later than
    [earliest_date] *)
Definition is_later `{Collaborators} (earliest_date : datetime) (p : Post) : bool :=
  match strptime (p_timestamp p) with
  | Some post_time => naive_ltb earliest_date post_time
  | None => false
  end.

(** a post paired with its time, later than [e] *)
Definition timed `{Collaborators} (e : datetime) (kp : datetime * Post) : Prop :=
  strptime (p_timestamp kp.2) = Some kp.1 /\ naive_ltb e kp.1 = true.

(** the order of the timed posts the sort of [get_recent_posts] works on *)
Definition time_le (a b : datetime * Post) : Prop := naive_le a.1 b.1.

(** a JSON object *)
Definition is_object (v : value) : Prop := exists d, v = VDict d.

(* ===================================================================== *)
(** ** Further concrete data *)
(* ===================================================================== *)

Module Sample.

(** [strptime] on two timestamps, a day apart *)
Definition parse_timestamp (s : string) : option datetime :=
  if String.eqb s "2025-08-09T19:00:00+0000" then Some (mkDatetime 2025 8 9 19 0 0 0)
  else if String.eqb s "2025-08-10T08:00:00+0000" then Some (mkDatetime 2025 8 10 8 0 0 0)
  else None.

Definition collaborators : Collaborators := {|
  json_loads := Demo.loads;
  strptime := parse_timestamp;
  caption_model := fun caption _ => Some caption;
  download_media := fun url => url;
  analyze_animal_image := Demo.vision |}.

(** the collaborators of [Demo] with an image analysis that finds no
    animal: it returns the empty list *)
Definition blind : Collaborators := {|
  json_loads := Demo.loads;
  strptime := Demo.parse_timestamp;
  caption_model := fun caption _ => Some caption;
  download_media := fun url => url;
  analyze_animal_image := fun _ _ _ _ => [] |}.

Definition post_at (timestamp caption permalink : string) : Post :=
  mkPost (Some "18") (Some caption) timestamp (Some permalink) (Some "m.jpg") None None.

Definition saturday : Post := post_at "2025-08-09T19:00:00+0000" "one" "p1".
Definition sunday : Post := post_at "2025-08-10T08:00:00+0000" "one" "p2".
Definition undated : Post := post_at "yesterday" "one" "p3".

(** [strptime] with the format of the sheet, on the date of [Demo.store0] *)
Definition parse_dmy (s : string) : option datetime :=
  if String.eqb s "01/08/2025 10:00:00" then Some (mkDatetime 2025 8 1 10 0 0 0)
  else None.

(** a store whose one animal is [luna] *)
Definition store_luna : Store :=
  mkStore [Demo.animal_header; ["10"; "luna"; "01/08/2025 10:00:00"; "perro"; "TRUE"]]
          [Demo.evento_header] [Demo.interaccion_header].

(** the sheets [Post] and [Datos]; the identifier of [p1] is padded *)
Definition post_sheet : worksheet :=
  [["id_post"; "id"]; ["p1"; " 7 "]; ["p2"; "8"]].
Definition datos_sheet : worksheet :=
  [["id"; "Estado Actual"]; ["7"; "adoptado"]; ["8"; "en transito"]].

(** an entry of a pet shop whose date does not parse *)
Definition pet_shop : transaction :=
  mkTransaction "op9" "ayer" "account_money" "Pet Shop Sur" "alimento" 12000.

End Sample.

(* ===================================================================== *)
(** * Properties *)
(* ===================================================================== *)

(** ** Sanity checks of the string methods *)

Example strip_ex : PyStr.strip "  Luna " = "Luna".
Proof. reflexivity. Qed.
Example split_ex : PyStr.split ","%char "luna,max" = ["luna"; "max"].
Proof. reflexivity. Qed.
Example int_ex : PyStr.int " 12 " = Some 12.
Proof. reflexivity. Qed.
Example str_ex : PyStr.str_of_Z 120 = "120".
Proof. reflexivity. Qed.
Example word_ex :
  PyStr.search_word "CABIFY" "PAGO CABIFY SA" = true /\
  PyStr.search_word "CABIFY" "CABIFYX" = false /\
  PyStr.search_word "CABIFY" "XCABIFY CABIFY" = true.
Proof. repeat split; reflexivity. Qed.

(** ** Digits, [int] and [str] *)

Section PyStrFacts.

Lemma digit_not_space c : PyStr.is_digit c = true -> PyStr.isspace c = false.
Proof. destruct c as [[] [] [] [] [] [] [] []]; vm_compute; congruence. Qed.

Lemma digit_char_parses c d :
  PyStr.is_digit c = true -> is_Some (uint_of_char c (Some d)).
Proof. destruct c as [[] [] [] [] [] [] [] []]; vm_compute; intros; try congruence; eauto. Qed.

Lemma all_digits_string_of_uint d :
  PyStr.all_chars PyStr.is_digit (NilEmpty.string_of_uint d) = true.
Proof. induction d; cbn [NilEmpty.string_of_uint PyStr.all_chars]; rewrite ?IHd; reflexivity. Qed.

Lemma string_of_uint_nonempty d : d <> Decimal.Nil -> NilEmpty.string_of_uint d <> "".
Proof. destruct d; simpl; congruence. Qed.

Lemma isdigit_all s : PyStr.isdigit s = true -> PyStr.all_chars PyStr.is_digit s = true.
Proof. destruct s; [discriminate | auto]. Qed.

Lemma lstrip_all_digits s :
  PyStr.all_chars PyStr.is_digit s = true -> PyStr.lstrip s = s.
Proof.
  destruct s as [|c s]; [reflexivity|]. cbn [PyStr.all_chars PyStr.lstrip].
  intros [Hc _]%andb_true_iff. now rewrite (digit_not_space _ Hc).
Qed.

Lemma rstrip_all_digits s :
  PyStr.all_chars PyStr.is_digit s = true -> PyStr.rstrip s = s.
Proof.
  induction s as [|c s IH]; [reflexivity|]. cbn [PyStr.all_chars PyStr.rstrip].
  intros [Hc Hs]%andb_true_iff. rewrite (IH Hs), (digit_not_space _ Hc).
  now destruct s.
Qed.

Lemma strip_all_digits s :
  PyStr.all_chars PyStr.is_digit s = true -> PyStr.strip s = s.
Proof.
  intros Hs. unfold PyStr.strip. rewrite (lstrip_all_digits _ Hs). now apply rstrip_all_digits.
Qed.

Lemma str_of_Z_isdigit z : 0 <= z -> PyStr.isdigit (PyStr.str_of_Z z) = true.
Proof.
  intros Hz. destruct z as [|p|p]; [reflexivity| |lia].
  unfold PyStr.str_of_Z, PyStr.isdigit; cbn [Z.to_int NilZero.string_of_int].
  pose proof (DecimalPos.Unsigned.to_uint_nonnil p) as Hnil.
  unfold NilZero.string_of_uint.
  destruct (Pos.to_uint p) eqn:E; try congruence;
    rewrite <- E at 1; rewrite <- E;
    (destruct (NilEmpty.string_of_uint (Pos.to_uint p)) eqn:E';
     [apply string_of_uint_nonempty in E'; [easy|congruence]
     | rewrite <- E'; apply all_digits_string_of_uint]).
Qed.

Lemma strip_str_of_Z z : 0 <= z -> PyStr.strip (PyStr.str_of_Z z) = PyStr.str_of_Z z.
Proof. intros Hz. apply strip_all_digits, isdigit_all, str_of_Z_isdigit, Hz. Qed.

Lemma str_of_Z_nonempty z : 0 <= z -> PyStr.str_of_Z z <> "".
Proof.
  intros Hz E. pose proof (str_of_Z_isdigit z Hz) as H. now rewrite E in H.
Qed.

Lemma int_str_of_Z z : 0 <= z -> PyStr.int (PyStr.str_of_Z z) = Some z.
Proof.
  intros Hz. unfold PyStr.int. rewrite (strip_str_of_Z z Hz).
  destruct z as [|p|p]; [reflexivity| |lia].
  unfold PyStr.str_of_Z; cbn [Z.to_int NilZero.string_of_int].
  rewrite NilZero.usu by apply DecimalPos.Unsigned.to_uint_nonnil.
  now rewrite DecimalPos.Unsigned.of_to.
Qed.

End PyStrFacts.

(** ** The name lookup *)

Section GetIdFacts.

Lemma get_id_rows_head_omap name nc ic rows :
  get_id_rows name nc ic rows = head (omap (identified_match name nc ic) rows).
Proof.
  induction rows as [|row rows IH]; [reflexivity|].
  cbn [get_id_rows omap list_omap]. unfold identified_match at 1, normalize_name.
  destruct (row !! nc) as [cell|]; cbn; [|exact IH].
  destruct (String.eqb _ _); cbn.
  - destruct (row !! ic) as [idc|]; cbn; [|exact IH].
    destruct (String.eqb (PyStr.strip idc) ""); cbn; [exact IH | reflexivity].
  - destruct (row !! ic); cbn; exact IH.
Qed.

Lemma identified_match_Some name nc ic row i :
  identified_match name nc ic row = Some i <->
  exists cell idc, row !! nc = Some cell /\ row !! ic = Some idc /\
    normalize_name cell = normalize_name name /\
    PyStr.strip idc <> "" /\ i = PyStr.strip idc.
Proof.
  unfold identified_match. split.
  - destruct (row !! nc) as [cell|]; cbn; [|discriminate].
    destruct (row !! ic) as [idc|]; cbn; [|discriminate].
    destruct (String.eqb_spec (normalize_name cell) (normalize_name name)) as [En|]; cbn;
      [|discriminate].
    destruct (String.eqb_spec (PyStr.strip idc) "") as [|Ei]; cbn; [discriminate|].
    intros [= <-]. exists cell, idc. auto.
  - intros (cell & idc & -> & -> & En & Ei & ->). cbn.
    rewrite En, String.eqb_refl. destruct (String.eqb_spec (PyStr.strip idc) ""); [easy|].
    reflexivity.
Qed.

Lemma head_omap_None {A B} (f : A -> option B) (l : list A) :
  head (omap f l) = None <-> Forall (fun x => f x = None) l.
Proof.
  induction l as [|x l IH]; cbn.
  - split; auto.
  - destruct (f x) eqn:E; cbn.
    + split; [discriminate|]. intros Hall. inversion Hall; congruence.
    + rewrite IH. split; [intros; constructor; auto | intros Hall; now inversion Hall].
Qed.

Lemma head_omap_Some {A B} (f : A -> option B) (l : list A) (b : B) :
  head (omap f l) = Some b <->
  exists before x after, l = before ++ x :: after /\
    Forall (fun y => f y = None) before /\ f x = Some b.
Proof.
  induction l as [|x l IH]; cbn.
  - split; [discriminate|]. intros (before & y & after & E & _). now destruct before.
  - destruct (f x) eqn:E; cbn.
    + split.
      * intros [= ->]. exists [], x, l. auto.
      * intros (before & y & after & El & Hb & Hy).
        destruct before as [|z before]; cbn in El; injection El as -> ->.
        -- congruence.
        -- inversion Hb; congruence.
    + rewrite IH. split.
      * intros (before & y & after & -> & Hb & Hy).
        exists (x :: before), y, after. auto.
      * intros (before & y & after & El & Hb & Hy).
        destruct before as [|z before]; cbn in El; injection El as -> ->.
        -- congruence.
        -- exists before, y, after. inversion Hb; auto.
Qed.

Lemma get_id_columns name values0 rows :
  get_id name (values0 :: rows) =
  match lookup_columns values0 with
  | Some (nc, ic) => get_id_rows name nc ic rows
  | None => None
  end.
Proof.
  unfold get_id, lookup_columns.
  set (headers := (fun h => PyStr.strip (PyStr.lower h)) <$> values0).
  destruct (first_index (String.eqb "nombre") headers) as [nc|]; [|reflexivity].
  destruct (first_index (String.eqb "id") headers) as [ic|]; reflexivity.
Qed.

Lemma get_id_normalized n1 n2 ws :
  normalize_name n1 = normalize_name n2 -> get_id n1 ws = get_id n2 ws.
Proof.
  intros En. destruct ws as [|values0 rows]; [reflexivity|].
  rewrite !get_id_columns. destruct (lookup_columns values0) as [[nc ic]|]; [|reflexivity].
  rewrite !get_id_rows_head_omap. f_equal.
  induction rows as [|row rows IH]; [reflexivity|]. cbn [omap list_omap].
  rewrite IH. unfold identified_match. now rewrite En.
Qed.



Lemma first_index_None {A} (p : A -> bool) (xs : list A) :
  first_index p xs = None <-> Forall (fun x => p x = false) xs.
Proof.
  induction xs as [|x xs IH]; cbn.
  - split; auto.
  - destruct (p x) eqn:E.
    + split; [discriminate|]. intros Hall. inversion Hall; congruence.
    + destruct (first_index p xs); cbn.
      * split; [discriminate|]. intros Hall. inversion Hall as [|? ? _ Hxs].
        apply IH in Hxs. discriminate.
      * split; [|reflexivity]. intros _. constructor; [exact E | now apply IH].
Qed.

Lemma first_index_Some {A} (p : A -> bool) (xs : list A) (i : nat) :
  first_index p xs = Some i ->
  exists x, xs !! i = Some x /\ p x = true /\
    forall j y, (j < i)%nat -> xs !! j = Some y -> p y = false.
Proof.
  revert i. induction xs as [|x xs IH]; intros i; cbn; [discriminate|].
  destruct (p x) eqn:E.
  - intros [= <-]. exists x. repeat split; auto. intros j y Hj. lia.
  - destruct (first_index p xs) as [k|]; cbn; [|discriminate].
    intros [= <-]. destruct (IH k eq_refl) as (y & Hy & Hp & Hbefore).
    exists y. repeat split; auto.
    intros [|j] z Hj Hz; cbn in Hz; [congruence|]. apply (Hbefore j); [lia | exact Hz].
Qed.

Lemma lookup_columns_None values0 :
  (Forall (fun h => PyStr.strip (PyStr.lower h) <> "nombre") values0 \/
   Forall (fun h => PyStr.strip (PyStr.lower h) <> "id") values0) ->
  lookup_columns values0 = None.
Proof.
  assert (Hkey : forall key,
             Forall (fun h => PyStr.strip (PyStr.lower h) <> key) values0 ->
             first_index (String.eqb key)
               ((fun h => PyStr.strip (PyStr.lower h)) <$> values0) = None).
  { intros key Hall. apply first_index_None. apply Forall_fmap.
    eapply Forall_impl; [exact Hall|]. cbn. intros h Hh.
    destruct (String.eqb_spec key (PyStr.strip (PyStr.lower h))); congruence. }
  unfold lookup_columns. intros [Hn|Hi].
  - now rewrite (Hkey _ Hn).
  - rewrite (Hkey _ Hi). now destruct (first_index (String.eqb "nombre") _).
Qed.

End GetIdFacts.

(** C10, as amended.  [get_id] never raises: it returns [None] on an empty
    sheet, on a header row without a [nombre] or an [id] column, and when no
    row both carries the name and has a non-blank [id] cell.  Otherwise it
    returns the trimmed [id] cell of the first row whose [nombre] cell equals
    the queried name after trimming and lower-casing only and whose [id]
    cell is not blank: rows that carry the name with a blank [id] are
    skipped. *)
Theorem get_id_first_identified_row (name : string) (ws : worksheet) :
  (ws = [] -> get_id name ws = None) /\
  (forall values0 rows, ws = values0 :: rows ->
     ((Forall (fun h => PyStr.strip (PyStr.lower h) <> "nombre") values0 \/
       Forall (fun h => PyStr.strip (PyStr.lower h) <> "id") values0) ->
      get_id name ws = None) /\
     (forall name_col id_col, lookup_columns values0 = Some (name_col, id_col) ->
        (get_id name ws = None <->
         Forall (fun row => identified_match name name_col id_col row = None) rows) /\
        (forall i, get_id name ws = Some i <->
           exists before row after cell idc,
             rows = before ++ row :: after /\
             Forall (fun r => identified_match name name_col id_col r = None) before /\
             row !! name_col = Some cell /\ row !! id_col = Some idc /\
             PyStr.lower (PyStr.strip cell) = PyStr.lower (PyStr.strip name) /\
             PyStr.strip idc <> "" /\ i = PyStr.strip idc))).
Proof.
  split; [intros ->; reflexivity|].
  intros values0 rows ->. rewrite get_id_columns. split.
  - intros Hcols. now rewrite (lookup_columns_None _ Hcols).
  - intros nc ic ->. rewrite get_id_rows_head_omap. split.
    + apply head_omap_None.
    + intros i. rewrite head_omap_Some. split.
      * intros (before & row & after & El & Hb & Hrow).
        apply identified_match_Some in Hrow as (cell & idc & ? & ? & ? & ? & ?).
        exists before, row, after, cell, idc. unfold normalize_name in *. tauto.
      * intros (before & row & after & cell & idc & El & Hb & ? & ? & ? & ? & ?).
        exists before, row, after. split; [exact El|]. split; [exact Hb|].
        apply identified_match_Some. exists cell, idc. unfold normalize_name. tauto.
Qed.

Lemma get_id_first_identified_row_witness :
  get_id " LUNA" [["id"; "nombre"]; [""; "luna"]; [" 7 "; "Luna "]] = None <->
  Forall (fun row => identified_match " LUNA" 1 0 row = None)
         [[""; "luna"]; [" 7 "; "Luna "]].
Proof.
  destruct (get_id_first_identified_row " LUNA"
              [["id"; "nombre"]; [""; "luna"]; [" 7 "; "Luna "]]) as [_ Hrows].
  destruct (Hrows _ _ eq_refl) as [_ Hcols].
  destruct (Hcols 1%nat 0%nat eq_refl) as [Hnone _].
  exact Hnone.
Defined.

(** C10, as stated, fails: the first row named [luna] has a blank [id]
    cell, and the lookup returns the [id] of the second one. *)
Lemma get_id_skips_blank_id_row :
  get_id "luna" [["id"; "nombre"]; [""; "luna"]; ["7"; "luna"]] = Some "7" /\
  get_id_first_named_row "luna" [["id"; "nombre"]; [""; "luna"]; ["7"; "luna"]] = Some "" /\
  get_id "luna" [["id"; "nombre"]; [""; "luna"]; ["7"; "luna"]]
  <> get_id_first_named_row "luna" [["id"; "nombre"]; [""; "luna"]; ["7"; "luna"]].
Proof. repeat split; vm_compute; congruence. Qed.

(** the lookup strips neither punctuation nor anything but white space *)
Example get_id_no_punctuation_stripping :
  get_id "luna!" [["id"; "nombre"]; ["7"; "luna"]] = None /\
  get_id " LUNA " [["id"; "nombre"]; ["7"; "luna"]] = Some "7".
Proof. split; reflexivity. Qed.

(** ** Writing a row *)

Section InsertFacts.

(** a call either fails and leaves the sheet, or adds one row that holds,
    under each header, the text of the value the dict has for it *)
Lemma insert_sheet_from_dict_cases (d : gmap string value) (ws : worksheet) :
  insert_sheet_from_dict d ws = (false, ws) \/
  exists row, insert_sheet_from_dict d ws = (true, ws ++ [row]) /\
    forall k h, get_headers ws !! k = Some h ->
      exists c, row !! k = Some c /\
                Worksheet.cell_text (default (VStr "") (d !! h)) = Some c.
Proof.
  unfold insert_sheet_from_dict, Worksheet.append_row.
  destruct (mapM _ _) as [cells|] eqn:E; cbn; [right | now left].
  exists cells. split; [reflexivity|]. intros k h Hk.
  apply mapM_Some_1 in E.
  eapply Forall2_lookup_l in E as (c & Hc & Htext);
    [| rewrite list_lookup_fmap, Hk; reflexivity].
  eauto.
Qed.

Lemma insert_sheet_from_dict_ok (d : gmap string value) (ws : worksheet) :
  (forall h, is_Some (Worksheet.cell_text (default (VStr "") (d !! h)))) ->
  exists row, insert_sheet_from_dict d ws = (true, ws ++ [row]) /\
    forall k h, get_headers ws !! k = Some h ->
      exists c, row !! k = Some c /\
                Worksheet.cell_text (default (VStr "") (d !! h)) = Some c.
Proof.
  intros Hd. destruct (insert_sheet_from_dict_cases d ws) as [Hfail|Hok]; [|exact Hok].
  exfalso. unfold insert_sheet_from_dict, Worksheet.append_row in Hfail.
  destruct (mapM _ _) as [cells|] eqn:E; cbn in Hfail; [congruence|].
  apply mapM_None_1, Exists_exists in E as (v & Hv & Hnone).
  apply list_elem_of_fmap in Hv as (h & -> & _).
  destruct (Hd h) as [c Hc]. congruence.
Qed.

End InsertFacts.

(** ** The monad and the frame of each operation *)

Section ManagerFacts.

Context `{Collaborators}.

(** a loop keeps what its body keeps, as long as the body maintains the
    invariant [I] of the carried local and the state *)
Lemma for_enumerate_keeps (R : relation State) `{!Reflexive R, !Transitive R}
    {A L} (I : L -> State -> Prop) (body : nat -> A -> L -> M L) :
  (forall i x l st, I l st ->
     R st (body i x l st).2 /\
     forall l', (body i x l st).1 = Some l' -> I l' (body i x l st).2) ->
  forall xs i l st, I l st -> R st (for_enumerate i xs body l st).2.
Proof.
  intros Hbody xs. induction xs as [|x xs IH]; intros i l st Hl; cbn.
  - reflexivity.
  - unfold bind. destruct (Hbody i x l st Hl) as [HR HI].
    destruct (body i x l st) as [[l'|] st1]; cbn in *; [|exact HR].
    etransitivity; [exact HR|]. apply IH. now apply HI.
Qed.

Global Instance appends_rows_refl sh P : Reflexive (appends_rows sh P).
Proof. intros st hdr rows0 E. exists []. rewrite app_nil_r. auto. Qed.

Global Instance appends_rows_trans sh P : Transitive (appends_rows sh P).
Proof.
  intros s1 s2 s3 H12 H23 hdr rows0 E. destruct (H12 _ _ E) as (r1 & E2 & P1).
  destruct (H23 _ _ E2) as (r2 & E3 & P2).
  exists (r1 ++ r2). rewrite E3, <- app_assoc. split; [reflexivity|].
  apply Forall_app; auto.
Qed.

Lemma get_set_sheet_ne sh sh' ws s :
  sh' <> sh -> get_sheet sh' (set_sheet sh ws s) = get_sheet sh' s.
Proof. destruct sh, sh'; cbn; congruence. Qed.

Lemma get_set_sheet sh ws s : get_sheet sh (set_sheet sh ws s) = ws.
Proof. now destruct sh. Qed.

(** [insert] returns, and the state after it *)
Lemma insert_run sh d st :
  exists st', insert sh d st = (Some tt, st') /\
    oldest_id st' = oldest_id st /\
    get_sheet sh (store st') = (insert_sheet_from_dict d (get_sheet sh (store st))).2 /\
    (forall sh', sh' <> sh -> get_sheet sh' (store st') = get_sheet sh' (store st)).
Proof.
  unfold insert. destruct (insert_sheet_from_dict d _) as [[|] ws'] eqn:E; cbn;
    eexists; (split; [reflexivity|]); cbn;
    repeat split; auto using get_set_sheet, get_set_sheet_ne.
Qed.

End ManagerFacts.

(** ** The rows the manager builds *)

Section RowFacts.

Context `{Collaborators}.


Lemma armar_estado_None evento id date :
  armar_estado_a_insertar evento id date = None <-> short_tuple evento.
Proof.
  unfold armar_estado_a_insertar, short_tuple. split.
  - destruct (Py.getitem evento 0) eqn:E0; cbn; [|exists 0%nat; split; [lia|auto]].
    destruct (Py.getitem evento 1) eqn:E1; cbn; [|exists 1%nat; split; [lia|auto]].
    destruct (Py.getitem evento 3) eqn:E3; cbn; [|exists 3%nat; split; [lia|auto]].
    destruct (Py.getitem evento 4) eqn:E4; cbn; [|exists 4%nat; split; [lia|auto]].
    destruct (Py.getitem evento 2) eqn:E2; cbn; [|exists 2%nat; split; [lia|auto]].
    discriminate.
  - intros (k & Hk & Hnone).
    destruct k as [|[|[|[|[|k]]]]]; try lia; rewrite ?Hnone; cbn; try reflexivity;
      repeat (match goal with
              | |- context [Py.getitem evento ?n] =>
                  destruct (Py.getitem evento n); cbn; try reflexivity; try discriminate
              end).
Qed.

(** a JSON list with fewer than five items is a short tuple *)
Lemma short_list items : (length items < 5)%nat -> short_tuple (VList items).
Proof.
  intros Hlen. exists (length items). split; [exact Hlen|]. cbn.
  apply lookup_ge_None. lia.
Qed.

Lemma armar_post_renderable post_id i media permalink date h :
  is_Some (Worksheet.cell_text
             (default (VStr "")
                (armar_post_a_insertar (Py.of_option post_id) i media permalink date !! h)))
  \/ Worksheet.cell_text i = None.
Proof.
  destruct (Worksheet.cell_text i) as [ti|] eqn:Ei; [left | now right].
  destruct (armar_post_a_insertar _ _ _ _ _ !! h) as [v|] eqn:E; cbn; [|eauto].
  apply elem_of_list_to_map_2 in E.
  repeat (apply elem_of_cons in E as [E|E]; [injection E as -> ->|]);
    try (now apply elem_of_nil in E); eauto;
    match goal with |- is_Some (Worksheet.cell_text (Py.of_option ?o)) => destruct o; cbn; eauto end.
Qed.

Lemma armar_datos_renderable new_id result h :
  renderable result ->
  is_Some (Worksheet.cell_text
             (default (VStr "") (armar_datos_a_insertar new_id result !! h))).
Proof.
  intros Hr. unfold renderable in Hr.
  repeat (apply Forall_cons in Hr as [? Hr]).
  destruct (armar_datos_a_insertar _ _ !! h) as [v|] eqn:E; cbn; [|eauto].
  apply elem_of_list_to_map_2 in E.
  repeat (apply elem_of_cons in E as [E|E]; [injection E as -> ->|]);
    try (now apply elem_of_nil in E); cbn; eauto.
Qed.

End RowFacts.

(** ** The loops of one post *)

Section LoopFacts.

Context `{Collaborators}.




Local Arguments insert : simpl never.
Local Arguments armar_datos_a_insertar : simpl never.
Local Arguments armar_post_a_insertar : simpl never.
Local Arguments armar_estado_a_insertar : simpl never.

Global Instance same_sheet_refl sh : Reflexive (same_sheet sh).
Proof. intros st. reflexivity. Qed.

Global Instance same_sheet_trans sh : Transitive (same_sheet sh).
Proof. intros s1 s2 s3 H12 H23. unfold same_sheet in *. congruence. Qed.

Lemma insert_same_sheet sh sh' d : sh' <> sh -> keeps (same_sheet sh') (insert sh d).
Proof.
  intros Hne st. destruct (insert_run sh d st) as (st' & -> & _ & _ & Hother).
  now apply Hother.
Qed.

(** one creation: the counter moves by one whatever happens next, the
    Animal sheet gets the row of the new identifier, the Event sheet is
    left alone *)
Lemma insert_result_run post date i result mu st :
  oldest_id (insert_result post date i result mu st).2 = oldest_id st + 1 /\
  same_sheet EVENTO st (insert_result post date i result mu st).2 /\
  worksheet_animal (store (insert_result post date i result mu st).2)
  = (insert_sheet_from_dict (armar_datos_a_insertar (oldest_id st + 1) result)
       (worksheet_animal (store st))).2.
Proof.
  unfold insert_result, bind, incr_oldest_id, lift. cbn.
  set (st0 := mkState (store st) (oldest_id st + 1) (log st)).
  destruct (insert_run ANIMAL (armar_datos_a_insertar (oldest_id st + 1) result) st0)
    as (st1 & -> & Ho1 & Ha1 & Hother1).
  assert (He1 : same_sheet EVENTO st st1) by (apply (Hother1 EVENTO); discriminate).
  assert (Hraise : oldest_id st1 = oldest_id st + 1 /\ same_sheet EVENTO st st1 /\
            worksheet_animal (store st1)
            = (insert_sheet_from_dict (armar_datos_a_insertar (oldest_id st + 1) result)
                 (worksheet_animal (store st))).2).
  { repeat split; [rewrite Ho1; reflexivity | exact He1 | exact Ha1]. }
  destruct (getmediaurl post i mu) as [mu'|]; cbn; [|exact Hraise].
  destruct (getchildrenid post i (p_id post)) as [cid|]; cbn; [|exact Hraise].
  match goal with |- context [insert INTERACCION ?d st1] =>
    destruct (insert_run INTERACCION d st1) as (st2 & -> & Ho2 & _ & Hother2) end.
  cbn. repeat split.
  - rewrite Ho2, Ho1. reflexivity.
  - unfold same_sheet in *. rewrite (Hother2 EVENTO) by discriminate. exact He1.
  - change (get_sheet ANIMAL (store st2) = (insert_sheet_from_dict
             (armar_datos_a_insertar (oldest_id st + 1) result)
             (get_sheet ANIMAL (store st0))).2).
    rewrite (Hother2 ANIMAL) by discriminate. exact Ha1.
Qed.




Lemma event_loop_counter cant date eventos i id st :
  oldest_id (for_enumerate i eventos
               (fun _ evento id => insert_evento cant date evento id) id st).2
  = oldest_id st.
Proof.
  revert i id st. induction eventos as [|ev evs IH]; intros i id st; cbn; [reflexivity|].
  unfold bind. unfold insert_evento at 1 2. unfold bind, get_state, lift. cbn.
  destruct (armar_estado_a_insertar _ _ _) as [d|]; cbn; [|reflexivity].
  destruct (insert_run EVENTO d st) as (st' & -> & Ho & _). cbn.
  rewrite IH. exact Ho.
Qed.

End LoopFacts.

(** ** One name of a post *)

Section NameFacts.

Context `{Collaborators}.

Local Arguments insert : simpl never.
Local Arguments armar_datos_a_insertar : simpl never.
Local Arguments armar_post_a_insertar : simpl never.
Local Arguments armar_estado_a_insertar : simpl never.
Local Arguments insert_evento : simpl never.
Local Arguments insert_result : simpl never.
Local Arguments get_id : simpl never.






Lemma insert_evento_same_sheet sh cant date evento id :
  sh <> EVENTO -> keeps (same_sheet sh) (insert_evento cant date evento id).
Proof.
  intros Hne st. unfold insert_evento, bind, get_state, lift. cbn.
  destruct (armar_estado_a_insertar _ _ _) as [d|]; cbn; [|reflexivity].
  pose proof (insert_same_sheet EVENTO sh d Hne st) as Hs.
  destruct (insert EVENTO d st) as [[[]|] st']; exact Hs.
Qed.

Lemma event_loop_same_sheet sh cant date eventos i id st :
  sh <> EVENTO ->
  same_sheet sh st
    (for_enumerate i eventos (fun _ evento id => insert_evento cant date evento id) id st).2.
Proof.
  intros Hne.
  apply (for_enumerate_keeps (same_sheet sh) (fun _ _ => True)); [|exact I].
  intros j ev l s _. split; [|auto]. now apply insert_evento_same_sheet.
Qed.

(** a name that has an identifier: one Interaction row that carries it, no
    Animal row, the counter as it was *)
Lemma process_name_existing post data names_str caption date cant name loc st i :
  get_id name (worksheet_animal (store st)) = Some i ->
  worksheet_animal (store (process_name post data names_str caption date cant name loc st).2)
  = worksheet_animal (store st) /\
  oldest_id (process_name post data names_str caption date cant name loc st).2
  = oldest_id st /\
  exists row,
    worksheet_interaccion
      (store (process_name post data names_str caption date cant name loc st).2)
    = worksheet_interaccion (store st) ++ [row] /\
    cell_under "animal_id" i (get_headers (worksheet_interaccion (store st))) row.
Proof.
  intros Hid.
  destruct (process_name post data names_str caption date cant name loc st)
    as [r st'] eqn:E. cbn [fst snd].
  unfold process_name in E. unfold bind at 1, get_state in E. rewrite Hid in E.
  unfold bind at 1 in E. unfold bind at 1 in E.
  set (d := armar_post_a_insertar (Py.of_option (p_id post)) (VStr i) (media_url loc)
              (p_permalink post) date) in *.
  destruct (insert_run INTERACCION d st) as (st1 & E1 & Ho1 & Hi1 & Hother1).
  rewrite E1 in E. unfold ret at 1 in E.
  assert (Hrow : exists row,
             worksheet_interaccion (store st1) = worksheet_interaccion (store st) ++ [row] /\
             cell_under "animal_id" i (get_headers (worksheet_interaccion (store st))) row).
  { destruct (insert_sheet_from_dict_ok d (worksheet_interaccion (store st)))
      as (row & Erow & Hcells).
    - intros h. destruct (armar_post_renderable (p_id post) (VStr i) (media_url loc)
                            (p_permalink post) date h) as [Hs|Hn]; [exact Hs|discriminate].
    - exists row. split.
      + change (get_sheet INTERACCION (store st1) = worksheet_interaccion (store st) ++ [row]).
        rewrite Hi1. cbn [get_sheet]. now rewrite Erow.
      + intros k Hk. destruct (Hcells _ _ Hk) as (c & Hc & Htext).
        change (d !! "animal_id") with (Some (VStr i)) in Htext. cbn in Htext. congruence. }
  assert (Ha1 : worksheet_animal (store st1) = worksheet_animal (store st))
    by (apply (Hother1 ANIMAL); discriminate).
  unfold bind at 1, lift at 1 in E.
  destruct (Py.getitem data 1 ≫= Py.iter) as [eventos|].
  2:{ injection E as <- <-. auto. }
  unfold bind at 1 in E.
  pose proof (event_loop_same_sheet ANIMAL cant date eventos 0 (Py.of_option (Some i)) st1
                ltac:(discriminate)) as HA.
  pose proof (event_loop_same_sheet INTERACCION cant date eventos 0 (Py.of_option (Some i)) st1
                ltac:(discriminate)) as HI.
  pose proof (event_loop_counter cant date eventos 0 (Py.of_option (Some i)) st1) as HC.
  unfold same_sheet in HA, HI. cbn [get_sheet] in HA, HI.
  destruct (for_enumerate 0 eventos _ (Py.of_option (Some i)) st1) as [[id'|] st2];
    cbn [fst snd] in *; unfold ret in E; injection E as <- <-;
    rewrite HA, HI, HC; auto.
Qed.

(** a created Animal row is found by the next lookup of its name *)
Lemma created_row_is_found n1 n2 values0 rows name_col id_col new_id result n :
  lookup_columns values0 = Some (name_col, id_col) ->
  values0 !! name_col = Some "nombre" ->
  values0 !! id_col = Some "id" ->
  r_Nombre result = VStr n ->
  normalize_name n = normalize_name n1 ->
  normalize_name n1 = normalize_name n2 ->
  renderable result ->
  0 <= new_id ->
  get_id n1 (values0 :: rows) = None ->
  get_id n2 (insert_sheet_from_dict (armar_datos_a_insertar new_id result)
               (values0 :: rows)).2
  = Some (PyStr.str_of_Z new_id).
Proof.
  intros Hcols Hnc Hic Hn Hnn H12 Hr Hid Hnone.
  destruct (insert_sheet_from_dict_ok (armar_datos_a_insertar new_id result) (values0 :: rows))
    as (row & -> & Hcells).
  { intros h. now apply armar_datos_renderable. }
  cbn [snd app]. rewrite get_id_columns, Hcols, get_id_rows_head_omap.
  rewrite get_id_columns, Hcols, get_id_rows_head_omap in Hnone.
  rewrite omap_app.
  assert (Hnil : omap (identified_match n2 name_col id_col) rows = []).
  { destruct (omap (identified_match n1 name_col id_col) rows) eqn:E; [|discriminate].
    rewrite <- E. clear -H12. induction rows as [|r rs IH]; [reflexivity|].
    cbn [omap list_omap]. rewrite IH. unfold identified_match. now rewrite H12. }
  rewrite Hnil. cbn [app omap list_omap].
  destruct (Hcells _ _ Hnc) as (cn & Hcn & Htn).
  destruct (Hcells _ _ Hic) as (ci & Hci & Hti).
  change (armar_datos_a_insertar new_id result !! "nombre") with (Some (r_Nombre result)) in Htn.
  change (armar_datos_a_insertar new_id result !! "id") with (Some (VInt new_id)) in Hti.
  rewrite Hn in Htn. cbn in Htn, Hti. injection Htn as <-. injection Hti as <-.
  assert (Hm : identified_match n2 name_col id_col row = Some (PyStr.str_of_Z new_id)).
  { apply identified_match_Some. exists n, (PyStr.str_of_Z new_id).
    rewrite (strip_str_of_Z _ Hid). repeat split; auto; [congruence|].
    now apply str_of_Z_nonempty. }
  now rewrite Hm.
Qed.

End NameFacts.

(** ** Name merge and event fallback *)

(** What the lookup guarantees.  Two names that are equal after the
    normalisation of the lookup (white space trimmed, lower case) resolve to
    the same identifier.  Once the Animal sheet identifies the name, the
    iteration of that name adds one Interaction row that carries the
    identifier and leaves the Animal sheet and the counter as they were.
    And a row created for a name under the headers [id] and [nombre] is
    what the next lookup of that name returns. *)
Lemma name_lookup_merges `{Collaborators} (n1 n2 : string) (ws : worksheet) :
  normalize_name n1 = normalize_name n2 ->
  get_id n1 ws = get_id n2 ws /\
  (forall i post data names_str caption date cant loc st,
     worksheet_animal (store st) = ws ->
     get_id n1 ws = Some i ->
     worksheet_animal
       (store (process_name post data names_str caption date cant n2 loc st).2) = ws /\
     oldest_id (process_name post data names_str caption date cant n2 loc st).2
     = oldest_id st /\
     exists row,
       worksheet_interaccion
         (store (process_name post data names_str caption date cant n2 loc st).2)
       = worksheet_interaccion (store st) ++ [row] /\
       cell_under "animal_id" i (get_headers (worksheet_interaccion (store st))) row) /\
  (forall values0 rows name_col id_col new_id result n,
     ws = values0 :: rows ->
     lookup_columns values0 = Some (name_col, id_col) ->
     values0 !! name_col = Some "nombre" ->
     values0 !! id_col = Some "id" ->
     r_Nombre result = VStr n ->
     normalize_name n = normalize_name n1 ->
     renderable result ->
     0 <= new_id ->
     get_id n1 ws = None ->
     get_id n2 (insert_sheet_from_dict (armar_datos_a_insertar new_id result) ws).2
     = Some (PyStr.str_of_Z new_id)).
Proof.
  intros Hn. split; [now apply get_id_normalized|]. split.
  - intros i post data names_str caption date cant loc st Hws Hid.
    rewrite (get_id_normalized _ _ _ Hn), <- Hws in Hid.
    destruct (process_name_existing post data names_str caption date cant n2 loc st i Hid)
      as (Ha & Ho & Hrow).
    rewrite Ha, Ho. auto.
  - intros values0 rows nc ic new_id result n -> Hcols Hnc Hic Hr Hnn Hrend Hid Hnone.
    eapply created_row_is_found; eauto.
Qed.

Example name_lookup_merges_example :
  get_id "Luna " [["id"; "nombre"]; ["7"; "luna"]]
  = get_id " luna" [["id"; "nombre"]; ["7"; "luna"]].
Proof.
  exact (proj1 (@name_lookup_merges Demo.collaborators "Luna " " luna"
                  [["id"; "nombre"]; ["7"; "luna"]] eq_refl)).
Qed.

(** C2: the code breaks it.  The store holds the animal [sol] with
    identifier 10.  A post names [luna], which is new, and [sol].  In the
    iteration of [luna] an Animal row is written for every record the image
    analysis returns for the names of the post, [sol] included: the sheet
    ends with two rows named [sol], 10 and 12, although the lookup of [sol]
    still answers 10. *)
Theorem existing_animal_duplicated_in_mixed_batch :
  get_id "sol" (worksheet_animal Demo.store0) = Some "10" /\
  worksheet_animal
    (store (@process_instagram_posts Demo.collaborators
              [Demo.post "mixed" "p1" Demo.children] Demo.store0))
  = [Demo.animal_header;
     ["10"; "sol"; "01/08/2025 10:00:00"; "gato"; "TRUE"];
     ["11"; "luna"; "09/08/2025 19:00:00"; "perro"; "TRUE"];
     ["12"; "sol"; "09/08/2025 19:00:00"; "perro"; "TRUE"]] /\
  get_id "sol"
    (worksheet_animal
       (store (@process_instagram_posts Demo.collaborators
                 [Demo.post "mixed" "p1" Demo.children] Demo.store0)))
  = Some "10".
Proof. repeat split; vm_compute; reflexivity. Qed.




(** ** The counter of identifiers *)

Section CounterFacts.

Lemma int_nonneg s z : PyStr.int s = Some z -> 0 <= z.
Proof.
  unfold PyStr.int. destruct (NilZero.uint_of_string _); [|discriminate].
  intros [= <-]. lia.
Qed.

Lemma id_numbers_nonneg vals ids : id_numbers vals = Some ids -> Forall (fun n => 0 <= n) ids.
Proof.
  unfold id_numbers. intros E%mapM_Some_1.
  induction E as [|v n vs ns Hv _ IH]; constructor; [|exact IH].
  now apply int_nonneg in Hv.
Qed.

Lemma list_max_Z_ge n ns : n <= list_max_Z n ns /\ Forall (fun m => m <= list_max_Z n ns) ns.
Proof.
  unfold list_max_Z. revert n. induction ns as [|m ms IH]; intros n; cbn.
  - split; [lia | constructor].
  - destruct (IH (Z.max n m)) as [H1 H2]. split; [lia|]. constructor; [lia | exact H2].
Qed.


Lemma get_oldest_id_present ws :
  get_oldest_id ws =
  match present_ids ws with
  | n :: ns => list_max_Z n ns
  | [] => 1
  end.
Proof.
  unfold get_oldest_id, present_ids.
  destruct (first_index _ _) as [idx|]; [|reflexivity].
  destruct (id_numbers _) as [[|n ns]|]; reflexivity.
Qed.

Lemma get_oldest_id_nonneg ws : 0 <= get_oldest_id ws.
Proof.
  rewrite get_oldest_id_present. unfold present_ids.
  destruct (first_index _ _) as [idx|]; [|cbn; lia].
  destruct (id_numbers _) as [ids|] eqn:E; cbn; [|lia].
  apply id_numbers_nonneg in E. destruct ids as [|n ns]; [lia|].
  inversion E; subst. pose proof (list_max_Z_ge n ns) as [? _]. lia.
Qed.

End CounterFacts.




(** ** The date of an event *)





(** ** Malformed answers of the caption model *)

Section MalformedFacts.

Context `{Collaborators}.

Local Arguments insert : simpl never.
Local Arguments armar_datos_a_insertar : simpl never.
Local Arguments armar_post_a_insertar : simpl never.
Local Arguments armar_estado_a_insertar : simpl never.
Local Arguments insert_result : simpl never.
Local Arguments get_id : simpl never.

Lemma split_nonempty sep s : PyStr.split sep s <> [].
Proof.
  destruct s as [|c s]; cbn; [discriminate|].
  destruct (Ascii.eqb c sep); [discriminate|]. now destruct (PyStr.split sep s).
Qed.

Lemma bind_raises_l {A B} (m : M A) (k : A -> M B) st :
  (m st).1 = None -> (bind m k st).1 = None.
Proof. unfold bind. destruct (m st) as [[a|] st']; [discriminate | reflexivity]. Qed.

Lemma bind_raises_r {A B} (m : M A) (k : A -> M B) st :
  (forall a st', (k a st').1 = None) -> (bind m k st).1 = None.
Proof. intros Hk. unfold bind. destruct (m st) as [[a|] st']; [apply Hk | reflexivity]. Qed.

(** the loop over the events raises when it meets a short tuple *)
Lemma event_loop_raises cant date eventos :
  Exists short_tuple eventos ->
  forall i id st,
    (for_enumerate i eventos (fun _ evento id => insert_evento cant date evento id) id st).1
    = None.
Proof.
  induction 1 as [ev evs Hshort|ev evs _ IH]; intros i id st; cbn [for_enumerate].
  - apply bind_raises_l. unfold insert_evento, bind, get_state, lift. cbn [fst snd].
    apply (armar_estado_None _ (Py.or id (VInt (oldest_id st - Z.of_nat cant + 1))) date)
      in Hshort.
    now rewrite Hshort.
  - apply bind_raises_r. intros a st'. apply IH.
Qed.

Lemma process_name_raises post data names_str caption date cant name loc st eventos :
  Py.getitem data 1 ≫= Py.iter = Some eventos ->
  Exists short_tuple eventos ->
  (process_name post data names_str caption date cant name loc st).1 = None.
Proof.
  intros Hev Hshort. unfold process_name.
  apply bind_raises_r. intros st0 st1. apply bind_raises_r. intros loc' st2.
  unfold bind at 1, lift at 1.
  change (Py.getitem data 1 ≫= (fun d1 => Py.iter d1)) with (Py.getitem data 1 ≫= Py.iter).
  rewrite Hev. cbn [fst snd].
  apply bind_raises_l. now apply event_loop_raises.
Qed.

(** an answer that is not JSON, or whose first item is not a string, makes
    [analyze_caption_post] raise *)
Lemma analyze_caption_post_malformed caption date resp :
  caption_model caption date = Some resp ->
  json_loads resp = None \/
  (exists data, json_loads resp = Some data /\
                forall s, Py.getitem data 0 <> Some (VStr s)) ->
  analyze_caption_post caption date = None.
Proof.
  intros Hresp Hbad. unfold analyze_caption_post. rewrite Hresp. cbn.
  destruct Hbad as [->|(data & -> & Hfirst)]; [reflexivity|]. cbn.
  destruct (Py.getitem data 0) as [[| | |s| |]|] eqn:E; try reflexivity.
  now destruct (Hfirst s).
Qed.

Lemma process_post_no_answer post st :
  (forall dt, strptime (p_timestamp post) = Some dt ->
     analyze_caption_post (default "" (p_caption post)) (Calendar.strftime dt) = None) ->
  process_post post st = (None, st).
Proof.
  intros Hbad. unfold process_post, bind, lift.
  destruct (strptime (p_timestamp post)) as [dt|]; [|reflexivity].
  now rewrite (Hbad dt eq_refl).
Qed.

Lemma analyze_caption_post_Some caption date r :
  analyze_caption_post caption date = Some r -> caption_model caption date = Some r.
Proof.
  unfold analyze_caption_post. destruct (caption_model caption date) as [resp|]; cbn;
    [|discriminate].
  destruct (json_loads resp) as [data|]; cbn; [|discriminate].
  destruct (Py.getitem data 0) as [first|]; cbn; [|discriminate].
  destruct (Py.split_comma first); cbn; [|discriminate]. congruence.
Qed.

Lemma process_post_short_tuple post st dt resp data eventos :
  strptime (p_timestamp post) = Some dt ->
  caption_model (default "" (p_caption post)) (Calendar.strftime dt) = Some resp ->
  json_loads resp = Some data ->
  Py.getitem data 1 ≫= Py.iter = Some eventos ->
  Exists short_tuple eventos ->
  (process_post post st).1 = None.
Proof.
  intros Hdt Hresp Hdata Hev Hshort. unfold process_post.
  unfold bind at 1, lift at 1. rewrite Hdt.
  unfold bind at 1, lift at 1.
  destruct (analyze_caption_post _ _) as [r|] eqn:Er; [|reflexivity].
  apply analyze_caption_post_Some in Er. assert (r = resp) as -> by congruence.
  unfold bind at 1, lift at 1. rewrite Hdata.
  unfold bind at 1, lift at 1.
  destruct (Py.getitem data 0) as [first|]; [|reflexivity].
  unfold bind at 1, lift at 1.
  destruct (Py.split_comma first) as [names|] eqn:Enames; [|reflexivity].
  apply bind_raises_l.
  destruct names as [|n ns].
  { destruct first; try discriminate. injection Enames as E. now apply split_nonempty in E. }
  cbn [for_enumerate]. apply bind_raises_l.
  eapply process_name_raises; eauto.
Qed.

Lemma try_post_raised post st :
  (process_post post st).1 = None ->
  try_post post st = add_log (LogPostError (p_id post)) (process_post post st).2.
Proof.
  unfold try_post. destruct (process_post post st) as [[[]|] st']; [discriminate|reflexivity].
Qed.

End MalformedFacts.

(** C4, as amended.  When the answer of the caption model is not JSON, or
    its first item (the names) is not a string, the post writes no row: the
    state is the one before with the error logged.  The batch goes on with
    the next post after every post, whatever its outcome.  An event tuple
    with fewer than five items raises as well when it is reached: the error
    is logged and the batch goes on, in the state reached when it was
    raised, so the rows written before stay. *)
Theorem malformed_extraction_is_logged_and_skipped `{Collaborators}
    (post : Post) (rest : list Post) (st : State) (dt : datetime) (resp : string) :
  strptime (p_timestamp post) = Some dt ->
  caption_model (default "" (p_caption post)) (Calendar.strftime dt) = Some resp ->
  ((json_loads resp = None \/
    (exists data, json_loads resp = Some data /\
                  forall s, Py.getitem data 0 <> Some (VStr s))) ->
   try_post post st = add_log (LogPostError (p_id post)) st /\
   process_posts (post :: rest) st
   = process_posts rest (add_log (LogPostError (p_id post)) st)) /\
  process_posts (post :: rest) st = process_posts rest (try_post post st) /\
  (forall data eventos,
     json_loads resp = Some data ->
     Py.getitem data 1 ≫= Py.iter = Some eventos ->
     Exists short_tuple eventos ->
     try_post post st = add_log (LogPostError (p_id post)) (process_post post st).2).
Proof.
  intros Hdt Hresp. split; [|split].
  - intros Hbad.
    assert (E : try_post post st = add_log (LogPostError (p_id post)) st).
    { unfold try_post. rewrite process_post_no_answer; [reflexivity|].
      intros dt' Hdt'. assert (dt' = dt) as -> by congruence.
      eapply analyze_caption_post_malformed; eauto. }
    split; [exact E|]. cbn [process_posts fold_left]. unfold process_posts. cbn. now rewrite E.
  - reflexivity.
  - intros data eventos Hdata Hev Hshort. apply try_post_raised.
    eapply process_post_short_tuple; eauto.
Qed.

Lemma malformed_extraction_is_logged_and_skipped_witness :
  @try_post Demo.collaborators (Demo.post "zero" "p1" None) (mkState Demo.store0 10 [])
  = add_log (LogPostError (Some "17")) (mkState Demo.store0 10 []) /\
  @process_posts Demo.collaborators
    [Demo.post "zero" "p1" None; Demo.post "one" "p2" None] (mkState Demo.store0 10 [])
  = @process_posts Demo.collaborators [Demo.post "one" "p2" None]
      (add_log (LogPostError (Some "17")) (mkState Demo.store0 10 [])).
Proof.
  refine (proj1 (@malformed_extraction_is_logged_and_skipped Demo.collaborators
            (Demo.post "zero" "p1" None) [Demo.post "one" "p2" None]
            (mkState Demo.store0 10 []) (mkDatetime 2025 8 9 19 0 0 0) "zero"
            eq_refl eq_refl) _).
  right. exists (VInt 0). split; [reflexivity|]. intros s. discriminate.
Defined.

(** C4, as stated, fails for a wrong arity: the answer names [luna] and
    carries an event tuple of two items; the Animal row and the Interaction
    row of [luna] are written before the tuple is reached, and the error is
    logged. *)
Lemma short_tuple_leaves_rows :
  Demo.loads "short" = Some (VList [VStr "luna"; VList [VList [VInt 1; VInt 2]]]) /\
  short_tuple (VList [VInt 1; VInt 2]) /\
  store (@process_instagram_posts Demo.collaborators
           [Demo.post "short" "p1" None] Demo.store0)
  = mkStore
      [Demo.animal_header;
       ["10"; "sol"; "01/08/2025 10:00:00"; "gato"; "TRUE"];
       ["11"; "luna"; "09/08/2025 19:00:00"; "perro"; "TRUE"]]
      [Demo.evento_header]
      [Demo.interaccion_header; ["11"; "09/08/2025 19:00:00"; "17"; "p1"; "m.jpg"]] /\
  log (@process_instagram_posts Demo.collaborators
         [Demo.post "short" "p1" None] Demo.store0)
  = [LogPostError (Some "17")] /\
  store (@process_instagram_posts Demo.collaborators
           [Demo.post "short" "p1" None] Demo.store0)
  <> Demo.store0.
Proof.
  split; [reflexivity|]. split; [apply short_list; cbn; lia|].
  repeat split; try (vm_compute; reflexivity). vm_compute. discriminate.
Qed.

(** ** Posts already in the Interaction sheet *)

Section DedupFacts.

Context `{Collaborators}.

Lemma NoDup_fst_zip {A B} (l : list A) (k : list B) : NoDup l -> NoDup (zip l k).*1.
Proof.
  intros Hl. revert k. induction Hl as [|x l Hx Hl IH]; intros [|y k]; cbn;
    try constructor; [|apply IH].
  intros Hin. apply Hx. apply list_elem_of_fmap in Hin as ([a b] & -> & Hab).
  now apply elem_of_zip_l in Hab.
Qed.

Lemma in_contenido_spec ws v :
  in_contenido ws v = true <->
  exists row, row ∈ tail ws /\ ("contenido", v) ∈ zip (hd [] ws) row.
Proof.
  unfold in_contenido. rewrite existsb_exists. split.
  - intros (row & Hrow & Hex). apply existsb_exists in Hex as ([h c] & Hhc & Heq).
    apply andb_true_iff in Heq as [Eh Ec]. cbn in Eh, Ec.
    apply String.eqb_eq in Eh, Ec. subst.
    exists row. split; now apply list_elem_of_In.
  - intros (row & Hrow & Hhc). exists row. split; [now apply list_elem_of_In|].
    apply existsb_exists. exists ("contenido", v). split; [now apply list_elem_of_In|].
    cbn. now rewrite !String.eqb_refl.
Qed.

(** what [existentes] holds is what stands under [contenido] *)
Lemma existentes_spec ws ex v :
  existentes ws = Some ex -> (v ∈ ex <-> in_contenido ws v = true).
Proof.
  unfold existentes, Worksheet.get_all_records. rewrite in_contenido_spec.
  destruct ws as [|keys rows]; cbn.
  - intros [= <-]. split; [set_solver|]. intros (row & Hrow & _). now apply elem_of_nil in Hrow.
  - destruct (decide (NoDup keys)) as [Hnd|]; cbn; [|discriminate].
    set (records := (fun row => list_to_map (zip keys row)) <$> rows).
    intros [= <-].
    assert (Hrec : (exists r : gmap string string, r ∈ records /\ r !! "contenido" = Some v) <->
                   exists row, row ∈ rows /\ ("contenido", v) ∈ zip keys row).
    { split.
      - intros (r & Hr & Hv). apply list_elem_of_fmap in Hr as (row & -> & Hrow).
        exists row. split; [exact Hrow|]. now apply elem_of_list_to_map_2 in Hv.
      - intros (row & Hrow & Hv). exists (list_to_map (zip keys row)). split.
        + apply list_elem_of_fmap. eauto.
        + apply elem_of_list_to_map_1; [now apply NoDup_fst_zip | exact Hv]. }
    rewrite <- Hrec. clear Hrec.
    destruct (negb _ && existsb _ records) eqn:Econd.
    + rewrite elem_of_list_to_set, list_elem_of_omap. reflexivity.
    + split; [set_solver|]. intros (r & Hr & Hv). exfalso.
      apply andb_false_iff in Econd as [Hempty|Hcol].
      * destruct records; [now apply elem_of_nil in Hr | discriminate].
      * assert (existsb (fun r0 : gmap string string =>
                           bool_decide (is_Some (r0 !! "contenido"))) records = true);
          [|congruence].
        apply existsb_exists. exists r. split; [now apply list_elem_of_In|].
        apply bool_decide_eq_true. eauto.
Qed.

Lemma filtrarPostNuevos_known ws posts :
  filtrarPostNuevos ws posts
  = filtrarPostNuevos ws
      (filter (fun p => in_contenido ws (permalink_str p) = false) posts).
Proof.
  unfold filtrarPostNuevos. destruct (existentes ws) as [ex|] eqn:Eex; cbn; [|reflexivity].
  rewrite list_filter_filter. f_equal. f_equal. apply list_filter_iff.
  intros p. rewrite (existentes_spec _ _ (permalink_str p) Eex).
  destruct (in_contenido ws (permalink_str p)); split; try tauto; try congruence;
    try (intros [? ?]; congruence).
Qed.

Lemma filtrarPostNuevos_all_known ws posts :
  Forall (fun p => in_contenido ws (permalink_str p) = true) posts ->
  filtrarPostNuevos ws posts = None \/ filtrarPostNuevos ws posts = Some [].
Proof.
  intros Hall. rewrite filtrarPostNuevos_known.
  assert (filter (fun p => in_contenido ws (permalink_str p) = false) posts = []) as ->.
  { induction Hall as [|p ps Hp _ IH]; [reflexivity|].
    rewrite filter_cons_False by congruence. exact IH. }
  unfold filtrarPostNuevos. destruct (existentes ws); cbn; auto.
Qed.

Lemma known_posts_no_mutation posts s :
  Forall (fun p => in_contenido (worksheet_interaccion s) (permalink_str p) = true) posts ->
  store (process_instagram_posts posts s) = s.
Proof.
  intros Hall. unfold process_instagram_posts.
  destruct (filtrarPostNuevos_all_known _ _ Hall) as [-> | ->]; reflexivity.
Qed.

End DedupFacts.

(** C1, as amended.  A batch whose posts all have their permalink in a
    cell of the column [contenido] of the Interaction sheet leaves the store
    as it is: no Interaction row, no Animal row, no Event row.  In any
    batch the posts already present are dropped before anything is
    processed.  A second run on the store the first run left changes
    nothing provided the permalinks of the posts stand under [contenido] in
    that store, which the first run does not always bring about. *)
Theorem known_posts_are_not_reprocessed `{Collaborators} (posts : list Post) (s : Store) :
  (Forall (fun p => in_contenido (worksheet_interaccion s) (permalink_str p) = true) posts ->
   store (process_instagram_posts posts s) = s) /\
  process_instagram_posts posts s
  = process_instagram_posts
      (filter (fun p => in_contenido (worksheet_interaccion s) (permalink_str p) = false) posts)
      s /\
  (Forall (fun p => in_contenido
                      (worksheet_interaccion (store (process_instagram_posts posts s)))
                      (permalink_str p) = true) posts ->
   store (process_instagram_posts posts (store (process_instagram_posts posts s)))
   = store (process_instagram_posts posts s)).
Proof.
  split; [apply known_posts_no_mutation|]. split.
  - unfold process_instagram_posts. now rewrite <- filtrarPostNuevos_known.
  - apply known_posts_no_mutation.
Qed.

Lemma known_posts_are_not_reprocessed_witness :
  store (@process_instagram_posts Demo.collaborators [Demo.post "one" "p1" None]
           (store (@process_instagram_posts Demo.collaborators
                     [Demo.post "one" "p1" None] Demo.store0)))
  = store (@process_instagram_posts Demo.collaborators
             [Demo.post "one" "p1" None] Demo.store0).
Proof.
  refine (proj2 (proj2 (@known_posts_are_not_reprocessed Demo.collaborators
            [Demo.post "one" "p1" None] Demo.store0)) _).
  constructor; [vm_compute; reflexivity | constructor].
Defined.

(** C1, as stated, fails for a post the first run leaves no Interaction row
    of: the post names the unknown [luna], the image analysis returns no
    record, so no Animal row and no Interaction row are written, but the
    event of the post is, under the fallback identifier, and the post is
    logged as processed.  Its permalink is not in the sheet, so the second
    run processes it again and writes the Event row a second time. *)
Lemma rerun_writes_event_again :
  @process_instagram_posts Sample.blind [Demo.post "one" "p1" None] Demo.store0
  = mkState
      (mkStore (worksheet_animal Demo.store0)
         [Demo.evento_header; ["10"; "1"; "2"; ""; "4"; "09/08/2025 19:00:00"]]
         [Demo.interaccion_header])
      10 [LogPostOk (Some "17")] /\
  store (@process_instagram_posts Sample.blind [Demo.post "one" "p1" None]
           (store (@process_instagram_posts Sample.blind
                     [Demo.post "one" "p1" None] Demo.store0)))
  = mkStore (worksheet_animal Demo.store0)
      [Demo.evento_header; ["10"; "1"; "2"; ""; "4"; "09/08/2025 19:00:00"];
       ["10"; "1"; "2"; ""; "4"; "09/08/2025 19:00:00"]]
      [Demo.interaccion_header] /\
  store (@process_instagram_posts Sample.blind [Demo.post "one" "p1" None]
           (store (@process_instagram_posts Sample.blind
                     [Demo.post "one" "p1" None] Demo.store0)))
  <> store (@process_instagram_posts Sample.blind
              [Demo.post "one" "p1" None] Demo.store0).
Proof.
  split; [vm_compute; reflexivity|]. split; [vm_compute; reflexivity|].
  vm_compute. discriminate.
Qed.

(** ** The Cabify rides of the expenses *)

Section ExpensesFacts.

Variable to_datetime : string -> option datetime.

Lemma search_word_contains w s prev :
  PyStr.search_word_from prev w s = true -> PyStr.contains w s = true.
Proof.
  revert prev. induction s as [|c s IH]; intros prev; cbn.
  - rewrite orb_false_r. intros Hs. apply andb_true_iff in Hs as [Hs _].
    apply andb_true_iff in Hs as [_ ->]. reflexivity.
  - intros [Hs|Hs]%orb_true_iff.
    + apply andb_true_iff in Hs as [Hs _]. apply andb_true_iff in Hs as [_ ->]. reflexivity.
    + rewrite (IH _ Hs). apply orb_true_r.
Qed.

Lemma cabify_matches_keyword donante :
  mask_cabify donante = true -> matches_keyword donante = true.
Proof.
  unfold mask_cabify, PyStr.search_word, matches_keyword. intros Hs%search_word_contains.
  apply existsb_exists. exists "CABIFY". split; [|exact Hs].
  unfold EXPENSE_KEYWORDS. cbn. tauto.
Qed.

Lemma weekday_range dt : 0 <= Calendar.weekday dt <= 6.
Proof. unfold Calendar.weekday. pose proof (Z.mod_pos_bound
  (Calendar.days_from_civil (year dt) (month dt) (day dt) + 3) 7). lia. Qed.

Lemma kept_rows_spec df t :
  t ∈ kept_rows to_datetime df <->
  t ∈ df /\ matches_keyword (DONANTE t) = true /\
  (mask_cabify (DONANTE t) = true -> mask_weekend (to_datetime (FECHA t)) = true).
Proof.
  unfold kept_rows. rewrite !list_elem_of_filter.
  destruct (mask_cabify (DONANTE t)), (mask_weekend (to_datetime (FECHA t))); cbn;
    intuition congruence.
Qed.

Lemma mask_weekend_spec fecha :
  mask_weekend fecha = true <->
  exists dt, fecha = Some dt /\ (Calendar.weekday dt = 5 \/ Calendar.weekday dt = 6).
Proof.
  unfold mask_weekend. destruct fecha as [dt|].
  - rewrite orb_true_iff, !Z.eqb_eq. split; [eauto|]. now intros (? & [= <-] & ?).
  - split; [discriminate|]. now intros (? & [=] & _).
Qed.

End ExpensesFacts.

(** C9.  No expense record whose provider matches the Cabify pattern has a
    date from Monday to Friday: such a record, if produced, is dated on a
    Saturday or a Sunday.  A Cabify entry of the input dated from Monday to
    Friday is not among the rows kept, and one dated on a Saturday or a
    Sunday is kept and gives an expense record. *)
Theorem cabify_kept_only_on_weekends
    (to_datetime : string -> option datetime) (df_negativos : list transaction) :
  _process_expenses to_datetime df_negativos
  = to_expense to_datetime <$> kept_rows to_datetime df_negativos /\
  (forall e, e ∈ _process_expenses to_datetime df_negativos ->
     mask_cabify (Nombre_de_Proveedor e) = true ->
     exists dt, e_FECHA e = Some dt /\
                (Calendar.weekday dt = 5 \/ Calendar.weekday dt = 6)) /\
  (forall t dt, t ∈ df_negativos ->
     mask_cabify (DONANTE t) = true ->
     to_datetime (FECHA t) = Some dt ->
     (0 <= Calendar.weekday dt <= 4 -> t ∉ kept_rows to_datetime df_negativos) /\
     (Calendar.weekday dt = 5 \/ Calendar.weekday dt = 6 ->
      t ∈ kept_rows to_datetime df_negativos /\
      to_expense to_datetime t ∈ _process_expenses to_datetime df_negativos)) /\
  (forall dt, 0 <= Calendar.weekday dt <= 4 \/
              Calendar.weekday dt = 5 \/ Calendar.weekday dt = 6).
Proof.
  split; [reflexivity|]. split; [|split; [|intros dt; pose proof (weekday_range dt); lia]].
  - intros e He Hcab. unfold _process_expenses in He.
    apply list_elem_of_fmap in He as (t & -> & Ht). cbn in *.
    apply kept_rows_spec in Ht as (_ & _ & Hw). now apply mask_weekend_spec, Hw.
  - intros t dt Ht Hcab Hdt. split.
    + intros Hweek Hkept. apply kept_rows_spec in Hkept as (_ & _ & Hw).
      apply Hw, mask_weekend_spec in Hcab as (dt' & E & Hd).
      assert (dt' = dt) as -> by congruence. lia.
    + intros Hweekend.
      assert (Hk : t ∈ kept_rows to_datetime df_negativos).
      { apply kept_rows_spec. split; [exact Ht|]. split; [now apply cabify_matches_keyword|].
        intros _. apply mask_weekend_spec. eauto. }
      split; [exact Hk|]. unfold _process_expenses. apply list_elem_of_fmap. eauto.
Qed.

Lemma cabify_kept_only_on_weekends_witness :
  (0 <= Calendar.weekday (mkDatetime 2025 8 11 8 30 0 0) <= 4 ->
   Demo.ride "op2" "11/08/2025 08:30:00"
   ∉ kept_rows Demo.to_datetime
       [Demo.ride "op1" "09/08/2025 19:00:00"; Demo.ride "op2" "11/08/2025 08:30:00"]) /\
  (Calendar.weekday (mkDatetime 2025 8 11 8 30 0 0) = 5 \/
   Calendar.weekday (mkDatetime 2025 8 11 8 30 0 0) = 6 ->
   Demo.ride "op2" "11/08/2025 08:30:00"
   ∈ kept_rows Demo.to_datetime
       [Demo.ride "op1" "09/08/2025 19:00:00"; Demo.ride "op2" "11/08/2025 08:30:00"] /\
   to_expense Demo.to_datetime (Demo.ride "op2" "11/08/2025 08:30:00")
   ∈ _process_expenses Demo.to_datetime
       [Demo.ride "op1" "09/08/2025 19:00:00"; Demo.ride "op2" "11/08/2025 08:30:00"]).
Proof.
  refine (proj1 (proj2 (proj2 (cabify_kept_only_on_weekends Demo.to_datetime
            [Demo.ride "op1" "09/08/2025 19:00:00"; Demo.ride "op2" "11/08/2025 08:30:00"])))
          (Demo.ride "op2" "11/08/2025 08:30:00") (mkDatetime 2025 8 11 8 30 0 0) _ _ _).
  - apply list_elem_of_In. cbn. tauto.
  - reflexivity.
  - reflexivity.
Defined.

(** the Saturday ride stays, the Monday ride goes *)
Example expenses_weekend_example :
  _process_expenses Demo.to_datetime
    [Demo.ride "op1" "09/08/2025 19:00:00"; Demo.ride "op2" "11/08/2025 08:30:00"]
  = [to_expense Demo.to_datetime (Demo.ride "op1" "09/08/2025 19:00:00")] /\
  Tipo_de_gasto (to_expense Demo.to_datetime (Demo.ride "op1" "09/08/2025 19:00:00"))
  = Transporte /\
  Calendar.weekday (mkDatetime 2025 8 9 19 0 0 0) = 5 /\
  Calendar.weekday (mkDatetime 2025 8 11 8 30 0 0) = 0.
Proof. repeat split; vm_compute; reflexivity. Qed.

(* ===================================================================== *)
(** * Further properties of the embedded code *)
(* ===================================================================== *)

(** ** The order of the new posts *)

Section SortFacts.

Context `{Collaborators}.

Lemma insert_by_key_perm k p l : insert_by_key k p l ≡ₚ (k, p) :: l.
Proof.
  induction l as [|[k' p'] l IH]; cbn; [reflexivity|].
  destruct (k' <? k); [|reflexivity].
  rewrite IH. apply Permutation_swap.
Qed.

Lemma insert_by_key_hd k p l a :
  key_le a (k, p) -> HdRel key_le a l -> HdRel key_le a (insert_by_key k p l).
Proof.
  intros Ha Hl. destruct l as [|[k' p'] l]; cbn; [now constructor|].
  destruct (k' <? k); constructor; [now inversion Hl | exact Ha].
Qed.

Lemma insert_by_key_sorted k p l :
  Sorted key_le l -> Sorted key_le (insert_by_key k p l).
Proof.
  induction 1 as [|[k' p'] l Hs IH Hhd]; cbn; [repeat constructor|].
  destruct (k' <? k) eqn:E.
  - constructor; [exact IH|]. apply insert_by_key_hd; [|exact Hhd].
    unfold key_le. cbn. apply Z.ltb_lt in E. lia.
  - constructor; [now constructor|]. constructor. unfold key_le. cbn.
    apply Z.ltb_ge in E. lia.
Qed.

Lemma insert_by_key_front k p l :
  HdRel key_le (k, p) l -> insert_by_key k p l = (k, p) :: l.
Proof.
  destruct l as [|[k' p'] l]; cbn; [reflexivity|].
  intros Hhd. inversion Hhd as [|? ? Hle]; subst. unfold key_le in Hle. cbn in Hle.
  destruct (k' <? k) eqn:E; [|reflexivity]. apply Z.ltb_lt in E. lia.
Qed.

Lemma sorted_keyed keyed :
  let sorted := foldr (fun kp acc => insert_by_key kp.1 kp.2 acc) [] keyed in
  sorted ≡ₚ keyed /\ Sorted key_le sorted /\ (Sorted key_le keyed -> sorted = keyed).
Proof.
  induction keyed as [|[k p] keyed (IHp & IHs & IHid)]; cbn.
  - repeat split; constructor.
  - split; [|split].
    + rewrite insert_by_key_perm. now constructor.
    + now apply insert_by_key_sorted.
    + intros Hs. inversion Hs as [|? ? Hs' Hhd]; subst.
      rewrite (IHid Hs'). now apply insert_by_key_front.
Qed.

Lemma keyed_posts posts keyed :
  mapM (fun x => dt ← strptime (p_timestamp x); Some (Calendar.instant dt, x)) posts
  = Some keyed ->
  snd <$> keyed = posts /\ mapM post_instant posts = Some (fst <$> keyed).
Proof.
  intros E%mapM_Some_1. induction E as [|p [k q] ps kqs Hp _ [IH1 IH2]]; [split; reflexivity|].
  assert (Hkp : post_instant p = Some k /\ q = p).
  { revert Hp. unfold post_instant.
    destruct (strptime (p_timestamp p)) as [dt|]; cbn; [|discriminate].
    now intros [= <- <-]. }
  destruct Hkp as [Hk ->]. cbn. split; [now rewrite IH1|].
  rewrite Hk. cbn. now rewrite IH2.
Qed.

Lemma sorted_fst keyed : Sorted key_le keyed <-> Sorted Z.le (fst <$> keyed).
Proof.
  induction keyed as [|a l IH]; cbn; [split; constructor|]. split.
  - intros Hs. inversion Hs as [|? ? Hs' Hhd]; subst. constructor; [now apply IH|].
    destruct l; cbn; constructor. now inversion Hhd.
  - intros Hs. inversion Hs as [|? ? Hs' Hhd]; subst. constructor; [now apply IH|].
    destruct l; cbn in *; constructor. now inversion Hhd.
Qed.

End SortFacts.

(** X1.  When [filtrarPostNuevos] returns, its result is a rearrangement of
    the posts of the input that are not yet in the Interaction sheet, every
    one of them has a timestamp that parses, and the instants are in
    ascending order; posts that come in ascending order are returned as
    they came. *)
Theorem filtrarPostNuevos_sorts_new_posts `{Collaborators}
    (ws : worksheet) (posts out : list Post) :
  filtrarPostNuevos ws posts = Some out ->
  out ≡ₚ filter (is_new ws) posts /\
  (exists keys, mapM post_instant out = Some keys /\ Sorted Z.le keys) /\
  (forall keys, mapM post_instant (filter (is_new ws) posts) = Some keys ->
                Sorted Z.le keys -> out = filter (is_new ws) posts).
Proof.
  rewrite filtrarPostNuevos_known. unfold filtrarPostNuevos.
  destruct (existentes ws) as [ex|] eqn:Eex; cbn; [|discriminate].
  rewrite list_filter_filter.
  assert (Hf : filter (fun p => (permalink_str p ∉ ex) /\
                                in_contenido ws (permalink_str p) = false) posts
               = filter (is_new ws) posts).
  { apply list_filter_iff. intros p. unfold is_new.
    rewrite (existentes_spec _ _ (permalink_str p) Eex).
    destruct (in_contenido ws (permalink_str p)); split; try tauto; try congruence;
      try (intros [? ?]; congruence). intros _. split; [congruence | reflexivity]. }
  rewrite Hf. clear Hf.
  destruct (mapM _ (filter (is_new ws) posts)) as [keyed|] eqn:Ek; cbn; [|discriminate].
  intros [= <-]. unfold sort_by_key.
  destruct (sorted_keyed keyed) as (Hperm & Hsorted & Hid). cbn in *.
  destruct (keyed_posts _ _ Ek) as [Hsnd Hkeys].
  set (sorted := foldr (fun kp acc => insert_by_key kp.1 kp.2 acc) [] keyed) in *.
  split; [|split].
  - rewrite <- Hsnd. now apply fmap_Permutation.
  - exists (fst <$> sorted). split; [|now apply sorted_fst].
    apply mapM_Some_2. apply Forall2_fmap_r, Forall2_fmap_l, Forall_Forall2_diag.
    assert (Hall : Forall (fun kp : Z * Post => post_instant kp.2 = Some kp.1) keyed).
    { apply mapM_Some_1 in Ek. clear -Ek.
      induction Ek as [|p [k q] ps kqs Hp _ IH]; constructor; [|exact IH].
      revert Hp. destruct (strptime (p_timestamp p)) as [dt|] eqn:Edt; cbn;
        [|discriminate].
      intros [= <- <-]. unfold post_instant. now rewrite Edt. }
    rewrite <- Hperm in Hall. exact Hall.
  - intros keys Hk Hs. rewrite Hkeys in Hk. injection Hk as <-.
    rewrite (Hid (proj2 (sorted_fst keyed) Hs)). exact Hsnd.
Qed.

(** ** What one post can do to the state *)

Section FrameFacts.

Context `{Collaborators}.

Section AnyRelation.

Variable R : relation State.
Context {Rrefl : Reflexive R} {Rtrans : Transitive R}.

Lemma keeps_ret {A} (a : A) : keeps R (ret a).
Proof. intros st. cbn. reflexivity. Qed.

Lemma keeps_lift {A} (o : option A) : keeps R (lift o).
Proof. intros st. cbn. reflexivity. Qed.

Lemma keeps_get_state : keeps R get_state.
Proof. intros st. cbn. reflexivity. Qed.

Lemma keeps_bind {A B} (m : M A) (k : A -> M B) :
  keeps R m -> (forall a, keeps R (k a)) -> keeps R (bind m k).
Proof.
  intros Hm Hk st. unfold bind. specialize (Hm st).
  destruct (m st) as [[a|] st1]; cbn in *; [|exact Hm].
  etransitivity; [exact Hm | apply Hk].
Qed.

Lemma keeps_for_enumerate {A L} (body : nat -> A -> L -> M L) :
  (forall i x l, keeps R (body i x l)) ->
  forall xs i l, keeps R (for_enumerate i xs body l).
Proof.
  intros Hbody xs i l st.
  apply (for_enumerate_keeps R (fun _ _ => True)); [|exact I].
  intros j x l' s _. split; [apply Hbody | auto].
Qed.

(** A post acts on the state through [insert] and through the counter
    only: a relation both keep is kept by the whole post. *)
Lemma process_post_keeps :
  (forall sh d, keeps R (insert sh d)) ->
  keeps R incr_oldest_id ->
  forall post, keeps R (process_post post).
Proof.
  intros Hins Hincr post.
  assert (Hresult : forall date i r mu, keeps R (insert_result post date i r mu)).
  { intros date i r mu. unfold insert_result.
    apply keeps_bind; [exact Hincr|intros new_id].
    apply keeps_bind; [apply Hins|intros _].
    apply keeps_bind; [now apply keeps_lift|intros mu'].
    apply keeps_bind; [now apply keeps_lift|intros cid].
    apply keeps_bind; [apply Hins|intros _]. now apply keeps_ret. }
  assert (Hevento : forall cant date ev id, keeps R (insert_evento cant date ev id)).
  { intros cant date ev id. unfold insert_evento.
    apply keeps_bind; [now apply keeps_get_state|intros st0].
    apply keeps_bind; [now apply keeps_lift|intros d].
    apply keeps_bind; [apply Hins|intros _]. now apply keeps_ret. }
  assert (Hname : forall data ns c d cant name loc,
             keeps R (process_name post data ns c d cant name loc)).
  { intros data ns c d cant name loc. unfold process_name.
    apply keeps_bind; [now apply keeps_get_state|intros st0].
    apply keeps_bind.
    - destruct (get_id name _).
      + apply keeps_bind; [apply Hins|intros _]. now apply keeps_ret.
      + apply keeps_bind.
        * destruct (_ || _); [now apply keeps_ret | now apply keeps_lift].
        * intros loc1. apply keeps_bind; [now apply keeps_for_enumerate|intros mu'].
          now apply keeps_ret.
    - intros loc'. apply keeps_bind; [now apply keeps_lift|intros eventos].
      apply keeps_bind; [|intros _; now apply keeps_ret].
      apply keeps_for_enumerate. intros i x l. apply Hevento. }
  unfold process_post.
  apply keeps_bind; [now apply keeps_lift|intros dt].
  apply keeps_bind; [now apply keeps_lift|intros resp].
  apply keeps_bind; [now apply keeps_lift|intros data].
  apply keeps_bind; [now apply keeps_lift|intros first].
  apply keeps_bind; [now apply keeps_lift|intros names].
  apply keeps_bind; [|intros _; now apply keeps_ret].
  apply keeps_for_enumerate. intros i x l. apply Hname.
Qed.

Lemma try_post_keeps :
  (forall sh d, keeps R (insert sh d)) ->
  keeps R incr_oldest_id ->
  (forall e st, is_post_entry e = true -> R st (add_log e st)) ->
  forall post st, R st (try_post post st).
Proof.
  intros Hins Hincr Hlog post st. unfold try_post.
  pose proof (process_post_keeps Hins Hincr post st) as Hp.
  destruct (process_post post st) as [[[]|] st']; cbn in Hp;
    (etransitivity; [exact Hp | now apply Hlog]).
Qed.

Lemma process_posts_keeps :
  (forall post st, R st (try_post post st)) ->
  forall posts st, R st (process_posts posts st).
Proof.
  intros Htry posts. induction posts as [|p ps IH]; intros st; [reflexivity|].
  change (R st (process_posts ps (try_post p st))).
  etransitivity; [apply Htry | apply IH].
Qed.

End AnyRelation.

Global Instance extends_refl : Reflexive extends.
Proof. intros ws. exists []. now rewrite app_nil_r. Qed.

Global Instance extends_trans : Transitive extends.
Proof. intros a b c [r1 ->] [r2 ->]. exists (r1 ++ r2). now rewrite app_assoc. Qed.

Global Instance grows_refl : Reflexive grows.
Proof. intros st. split; [intros; reflexivity | lia]. Qed.

Global Instance grows_trans : Transitive grows.
Proof.
  intros a b c [Hab Oab] [Hbc Obc]. split; [|lia].
  intros sh. etransitivity; [apply Hab | apply Hbc].
Qed.

Lemma insert_grows sh d : keeps grows (insert sh d).
Proof.
  intros st. destruct (insert_run sh d st) as (st' & -> & Ho & Hsh & Hother). cbn.
  split; [|lia]. intros sh'.
  assert (Hdec : sh' = sh \/ sh' <> sh) by (destruct sh, sh'; auto; right; discriminate).
  destruct Hdec as [->|Hne].
  - rewrite Hsh.
    destruct (insert_sheet_from_dict_cases d (get_sheet sh (store st)))
      as [->|(row & -> & _)]; cbn; [reflexivity | now exists [row]].
  - rewrite (Hother _ Hne). reflexivity.
Qed.

Lemma incr_grows : keeps grows incr_oldest_id.
Proof. intros st. cbn. split; [intros; reflexivity | cbn; lia]. Qed.

Lemma add_log_grows e st : grows st (add_log e st).
Proof. split; [intros; reflexivity | cbn; lia]. Qed.

Lemma process_posts_grows posts st : grows st (process_posts posts st).
Proof.
  apply (process_posts_keeps grows). intros post s.
  apply (try_post_keeps grows); auto using insert_grows, incr_grows, add_log_grows.
Qed.

End FrameFacts.

Section RunFacts.

Context `{Collaborators}.

Global Instance same_post_entries_refl : Reflexive same_post_entries.
Proof. intros st. reflexivity. Qed.

Global Instance same_post_entries_trans : Transitive same_post_entries.
Proof. intros a b c Hab Hbc. unfold same_post_entries in *. congruence. Qed.

Lemma insert_same_post_entries sh d : keeps same_post_entries (insert sh d).
Proof.
  intros st. unfold insert, same_post_entries.
  destruct (insert_sheet_from_dict d _) as [[|] ws']; cbn; [reflexivity|].
  now rewrite filter_app, filter_cons_False, filter_nil, app_nil_r by discriminate.
Qed.

Lemma process_post_same_post_entries post : keeps same_post_entries (process_post post).
Proof.
  apply (process_post_keeps same_post_entries); [apply insert_same_post_entries|].
  intros st. reflexivity.
Qed.

Lemma get_id_extends name ws ws' i :
  extends ws ws' -> get_id name ws = Some i -> get_id name ws' = Some i.
Proof.
  intros [rows ->]. destruct ws as [|values0 rows0]; [discriminate|].
  cbn [app]. rewrite !get_id_columns.
  destruct (lookup_columns values0) as [[nc ic]|]; [|discriminate].
  rewrite !get_id_rows_head_omap, omap_app.
  destruct (omap (identified_match name nc ic) rows0); [discriminate | auto].
Qed.

Lemma run_grows posts s :
  grows (mkState s (get_oldest_id (worksheet_animal s)) []) (process_instagram_posts posts s).
Proof.
  unfold process_instagram_posts. destruct (filtrarPostNuevos _ posts) as [posts'|].
  - apply process_posts_grows.
  - apply add_log_grows.
Qed.

End RunFacts.

(** X2.  When a post that is not yet in the Interaction sheet has a
    timestamp that does not parse, the whole batch is given up before any
    post is processed: the store is as it was and the only log line is the
    failure of the batch. *)
Theorem unparsed_timestamp_aborts_batch `{Collaborators}
    (posts : list Post) (s : Store) (p : Post) :
  p ∈ posts ->
  is_new (worksheet_interaccion s) p ->
  strptime (p_timestamp p) = None ->
  process_instagram_posts posts s
  = add_log LogBatchError (mkState s (get_oldest_id (worksheet_animal s)) []).
Proof.
  intros Hin Hnew Hts. unfold process_instagram_posts.
  assert (filtrarPostNuevos (worksheet_interaccion s) posts = None) as ->; [|reflexivity].
  rewrite filtrarPostNuevos_known. unfold filtrarPostNuevos.
  destruct (existentes _) as [ex|] eqn:Eex; cbn; [|reflexivity].
  rewrite list_filter_filter.
  match goal with |- mapM ?f ?l ≫= _ = None => assert (mapM f l = None) as -> end;
    [|reflexivity].
  apply mapM_None_2, Exists_exists. exists p. split; [|now rewrite Hts].
  apply list_elem_of_filter. split; [|exact Hin]. split; [|exact Hnew].
  rewrite (existentes_spec _ _ (permalink_str p) Eex). unfold is_new in Hnew. congruence.
Qed.

(** X3.  [insert_sheet_from_dict] either fails and leaves the sheet as it
    was, and then some header has a value no cell can take, or adds one row
    at the end with one cell per header: the text of the value the dict has
    for that header, the empty string for a header the dict has not; keys
    of the dict that are no header are dropped.  The header row is the same
    after the call. *)
Theorem insert_sheet_from_dict_row (data : gmap string value) (ws : worksheet) :
  get_headers (insert_sheet_from_dict data ws).2 = get_headers ws /\
  ((insert_sheet_from_dict data ws).1 = false ->
   (insert_sheet_from_dict data ws).2 = ws /\
   exists header v, header ∈ get_headers ws /\ data !! header = Some v /\
                    Worksheet.cell_text v = None) /\
  ((insert_sheet_from_dict data ws).1 = true ->
   exists row,
     (insert_sheet_from_dict data ws).2 = ws ++ [row] /\
     length row = length (get_headers ws) /\
     forall k header, get_headers ws !! k = Some header ->
       row !! k = match data !! header with
                  | Some v => Worksheet.cell_text v
                  | None => Some ""
                  end).
Proof.
  unfold insert_sheet_from_dict, Worksheet.append_row.
  destruct (mapM _ _) as [cells|] eqn:E; cbn.
  - split; [|split; [discriminate|]].
    + destruct ws as [|hdr rows]; [|reflexivity]. cbn in *. now injection E as <-.
    + intros _. exists cells. split; [reflexivity|].
      apply mapM_Some_1 in E. split.
      * apply Forall2_length in E. now rewrite length_fmap in E.
      * intros k header Hk.
        eapply Forall2_lookup_l in E as (c & Hc & Htext);
          [|rewrite list_lookup_fmap, Hk; reflexivity].
        rewrite Hc. destruct (data !! header); cbn in Htext; congruence.
  - split; [reflexivity|]. split; [|discriminate]. intros _. split; [reflexivity|].
    apply mapM_None_1, Exists_exists in E as (v & Hv & Hnone).
    apply list_elem_of_fmap in Hv as (header & -> & Hin).
    destruct (data !! header) as [v|] eqn:Ed; cbn in Hnone; [|discriminate]. eauto.
Qed.

(** X4.  A run only adds rows at the end of the three sheets: every sheet
    of the store before the run is the beginning of the sheet after it, no
    row is changed or removed, and the counter does not go below the value
    it started with. *)
Theorem run_only_appends `{Collaborators} (posts : list Post) (s : Store) :
  (forall sh, extends (get_sheet sh s)
                (get_sheet sh (store (process_instagram_posts posts s)))) /\
  get_oldest_id (worksheet_animal s) <= oldest_id (process_instagram_posts posts s).
Proof.
  exact (run_grows posts s).
Qed.

(** X5.  Every post of the loop whose timestamp parses, as the timestamps
    of the posts that come out of [filtrarPostNuevos] do, leaves exactly
    one log line of its own, with its identifier, in the order of the
    posts: the line of success or the line of the error.  No such post is
    left without a line and none stops the loop. *)
Theorem one_log_line_per_post `{Collaborators} (posts : list Post) (st : State) :
  Forall (fun p => is_Some (strptime (p_timestamp p))) posts ->
  exists entries,
    filter (fun e => is_post_entry e = true) (log (process_posts posts st))
    = filter (fun e => is_post_entry e = true) (log st) ++ entries /\
    Forall2 (fun p e => e = LogPostOk (p_id p) \/ e = LogPostError (p_id p)) posts entries.
Proof.
  intros Hparse. revert st.
  induction Hparse as [|p ps _ _ IH]; intros st.
  - exists []. split; [now rewrite app_nil_r | constructor].
  - change (process_posts (p :: ps) st) with (process_posts ps (try_post p st)).
    destruct (IH (try_post p st)) as (entries & Hlog & Hall).
    assert (Hp : exists e,
               (e = LogPostOk (p_id p) \/ e = LogPostError (p_id p)) /\
               filter (fun e => is_post_entry e = true) (log (try_post p st))
               = filter (fun e => is_post_entry e = true) (log st) ++ [e]).
    { unfold try_post. pose proof (process_post_same_post_entries p st) as Hs.
      unfold same_post_entries in Hs.
      destruct (process_post p st) as [[[]|] st']; cbn in *; eexists;
        (split; [|rewrite filter_app, Hs; reflexivity]); auto. }
    destruct Hp as (e & He & Hpe). exists (e :: entries). split.
    + rewrite Hlog, Hpe, <- app_assoc. reflexivity.
    + now constructor.
Qed.

(** X6.  A run never changes the identifier a name resolves to: when the
    lookup of a name answers an identifier on the Animal sheet before the
    run, it answers the same identifier after it, whatever the posts were. *)
Theorem identifier_survives_run `{Collaborators}
    (posts : list Post) (s : Store) (name i : string) :
  get_id name (worksheet_animal s) = Some i ->
  get_id name (worksheet_animal (store (process_instagram_posts posts s))) = Some i.
Proof.
  intros Hid. eapply get_id_extends; [|exact Hid].
  apply (proj1 (run_grows posts s) ANIMAL).
Qed.

(** ** Names that have an identifier, and children that are missing *)

Section LinkFacts.

Context `{Collaborators}.

Local Arguments insert : simpl never.
Local Arguments armar_datos_a_insertar : simpl never.
Local Arguments armar_post_a_insertar : simpl never.
Local Arguments armar_estado_a_insertar : simpl never.
Local Arguments insert_evento : simpl never.
Local Arguments insert_result : simpl never.
Local Arguments get_id : simpl never.

(** the Interaction row of a name that has an identifier holds the
    permalink of the post under [contenido] *)
Lemma process_name_existing_permalink post data names_str caption date cant name loc st i :
  get_id name (worksheet_animal (store st)) = Some i ->
  exists row,
    worksheet_interaccion
      (store (process_name post data names_str caption date cant name loc st).2)
    = worksheet_interaccion (store st) ++ [row] /\
    cell_under "contenido" (permalink_str post)
      (get_headers (worksheet_interaccion (store st))) row.
Proof.
  intros Hid.
  destruct (process_name post data names_str caption date cant name loc st)
    as [r st'] eqn:E. cbn [fst snd].
  unfold process_name in E. unfold bind at 1, get_state in E. rewrite Hid in E.
  unfold bind at 1 in E. unfold bind at 1 in E.
  set (d := armar_post_a_insertar (Py.of_option (p_id post)) (VStr i) (media_url loc)
              (p_permalink post) date) in *.
  destruct (insert_run INTERACCION d st) as (st1 & E1 & Ho1 & Hi1 & Hother1).
  rewrite E1 in E. unfold ret at 1 in E.
  assert (Hrow : exists row,
             worksheet_interaccion (store st1) = worksheet_interaccion (store st) ++ [row] /\
             cell_under "contenido" (permalink_str post)
               (get_headers (worksheet_interaccion (store st))) row).
  { destruct (insert_sheet_from_dict_ok d (worksheet_interaccion (store st)))
      as (row & Erow & Hcells).
    - intros h. destruct (armar_post_renderable (p_id post) (VStr i) (media_url loc)
                            (p_permalink post) date h) as [Hs|Hn]; [exact Hs|discriminate].
    - exists row. split.
      + change (get_sheet INTERACCION (store st1) = worksheet_interaccion (store st) ++ [row]).
        rewrite Hi1. cbn [get_sheet]. now rewrite Erow.
      + intros k Hk. destruct (Hcells _ _ Hk) as (c & Hc & Htext).
        change (d !! "contenido") with (Some (Py.of_option (p_permalink post))) in Htext.
        rewrite Hc. f_equal. unfold permalink_str.
        destruct (p_permalink post); cbn in *; congruence. }
  unfold bind at 1, lift at 1 in E.
  destruct (Py.getitem data 1 ≫= Py.iter) as [eventos|].
  2:{ injection E as <- <-. auto. }
  unfold bind at 1 in E.
  pose proof (event_loop_same_sheet INTERACCION cant date eventos 0 (Py.of_option (Some i)) st1
                ltac:(discriminate)) as HI.
  unfold same_sheet in HI. cbn [get_sheet] in HI.
  destruct (for_enumerate 0 eventos _ (Py.of_option (Some i)) st1) as [[id'|] st2];
    cbn [fst snd] in *; unfold ret in E; injection E as <- <-; rewrite HI; auto.
Qed.

Lemma appended_row_in_contenido ws row v :
  "contenido" ∈ get_headers ws ->
  cell_under "contenido" v (get_headers ws) row ->
  in_contenido (ws ++ [row]) v = true.
Proof.
  intros Hin Hcell. destruct ws as [|hdr rows]; [now apply elem_of_nil in Hin|].
  cbn in Hin, Hcell. apply in_contenido_spec. cbn [app hd tail].
  exists row. split; [apply elem_of_app; right; now apply list_elem_of_singleton|].
  apply list_elem_of_lookup in Hin as [k Hk].
  apply list_elem_of_lookup. exists k.
  apply lookup_zip_with_Some. exists "contenido", v. auto.
Qed.

(** the loop over the names, when every name has an identifier *)
Lemma names_loop_identified post data names_str caption date cant names :
  forall i loc st,
    Forall (fun n => is_Some (get_id n (worksheet_animal (store st)))) names ->
    worksheet_animal
      (store (for_enumerate i names
                (fun _ name loc =>
                   process_name post data names_str caption date cant name loc)
                loc st).2)
    = worksheet_animal (store st) /\
    oldest_id (for_enumerate i names
                 (fun _ name loc =>
                    process_name post data names_str caption date cant name loc)
                 loc st).2
    = oldest_id st.
Proof.
  induction names as [|n ns IH]; intros i loc st Hall; cbn [for_enumerate]; [auto|].
  apply Forall_cons in Hall as [[id Hid] Hns]. unfold bind.
  destruct (process_name_existing post data names_str caption date cant n loc st id Hid)
    as (Ha & Ho & _).
  destruct (process_name post data names_str caption date cant n loc st) as [[loc'|] st1];
    cbn [fst snd] in *; [|auto].
  destruct (IH (S i) loc' st1) as [Ha' Ho']; [now rewrite Ha|].
  rewrite Ha', Ho'. auto.
Qed.

End LinkFacts.

(** X7.  After a name that has an identifier is processed, the permalink of
    the post stands under [contenido] in the Interaction sheet, provided the
    sheet has that header; a later run that is given the post again leaves
    the store as it is. *)
Theorem linked_post_is_known_afterwards `{Collaborators}
    post data names_str caption date cant name loc st i :
  get_id name (worksheet_animal (store st)) = Some i ->
  "contenido" ∈ get_headers (worksheet_interaccion (store st)) ->
  in_contenido
    (worksheet_interaccion
       (store (process_name post data names_str caption date cant name loc st).2))
    (permalink_str post) = true /\
  store (process_instagram_posts [post]
           (store (process_name post data names_str caption date cant name loc st).2))
  = store (process_name post data names_str caption date cant name loc st).2.
Proof.
  intros Hid Hhdr.
  destruct (process_name_existing_permalink post data names_str caption date cant name
              loc st i Hid) as (row & Erow & Hcell).
  assert (Hknown : in_contenido
            (worksheet_interaccion
               (store (process_name post data names_str caption date cant name loc st).2))
            (permalink_str post) = true).
  { rewrite Erow. now apply appended_row_in_contenido. }
  split; [exact Hknown|]. apply known_posts_no_mutation. now repeat constructor.
Qed.

(** X8.  When the post has children, the record number [i] of the image
    analysis takes its media and its identifier from the child number [i].
    If there is no such child, the Animal row is written, the counter
    moves, and then the post raises: the animal is left without Interaction
    row.  If there is one, the creation returns. *)
Theorem record_without_child_raises
    (post : Post) (date : string) (i : nat) (result : animal_result)
    (mu : option string) (st : State) (data : list Child) :
  p_children post = Some data ->
  ((length data <= i)%nat ->
   (insert_result post date i result mu st).1 = None /\
   oldest_id (insert_result post date i result mu st).2 = oldest_id st + 1 /\
   worksheet_animal (store (insert_result post date i result mu st).2)
   = (insert_sheet_from_dict (armar_datos_a_insertar (oldest_id st + 1) result)
        (worksheet_animal (store st))).2 /\
   worksheet_interaccion (store (insert_result post date i result mu st).2)
   = worksheet_interaccion (store st)) /\
  ((i < length data)%nat -> is_Some (insert_result post date i result mu st).1).
Proof.
  intros Hch.
  pose proof (insert_result_run post date i result mu st) as (Ho & _ & Ha).
  unfold insert_result, bind, incr_oldest_id, lift in *. cbn [fst snd] in *.
  set (st0 := mkState (store st) (oldest_id st + 1) (log st)) in *.
  destruct (insert_run ANIMAL (armar_datos_a_insertar (oldest_id st + 1) result) st0)
    as (st1 & E1 & _ & _ & Hother1).
  rewrite E1 in *. unfold getmediaurl, getchildrenid in *. rewrite Hch in *. split.
  - intros Hlen. rewrite (lookup_ge_None_2 data i Hlen) in *. cbn in *.
    repeat split; auto. apply (Hother1 INTERACCION). discriminate.
  - intros Hlt. destruct (lookup_lt_is_Some_2 data i Hlt) as [child ->]. cbn.
    match goal with |- context [insert INTERACCION ?d st1] =>
      destruct (insert_run INTERACCION d st1) as (st2 & -> & _) end.
    cbn. eauto.
Qed.

(** X9.  When the answer of the caption model is well formed and every
    name of it has an identifier on the Animal sheet, the post creates no
    Animal row and does not move the counter, whether its events can be
    written or not. *)
Theorem post_of_known_animals_creates_none `{Collaborators}
    (post : Post) (st : State) (dt : datetime) (resp : string) (data : value)
    (names_str : string) :
  strptime (p_timestamp post) = Some dt ->
  caption_model (default "" (p_caption post)) (Calendar.strftime dt) = Some resp ->
  json_loads resp = Some data ->
  Py.getitem data 0 = Some (VStr names_str) ->
  Forall (fun n => is_Some (get_id n (worksheet_animal (store st))))
         (PyStr.split ","%char names_str) ->
  worksheet_animal (store (try_post post st)) = worksheet_animal (store st) /\
  oldest_id (try_post post st) = oldest_id st.
Proof.
  intros Hdt Hresp Hdata Hfirst Hall.
  assert (Hp : worksheet_animal (store (process_post post st).2) = worksheet_animal (store st)
               /\ oldest_id (process_post post st).2 = oldest_id st).
  { destruct (process_post post st) as [r0 st'] eqn:E. cbn [fst snd].
    unfold process_post in E. unfold bind at 1, lift at 1 in E. rewrite Hdt in E.
    unfold bind at 1, lift at 1 in E.
    destruct (analyze_caption_post _ _) as [r|] eqn:Er; [|injection E as <- <-; auto].
    apply analyze_caption_post_Some in Er. assert (r = resp) as -> by congruence.
    unfold bind at 1, lift at 1 in E. rewrite Hdata in E.
    unfold bind at 1, lift at 1 in E. rewrite Hfirst in E.
    unfold bind at 1, lift at 1 in E. cbn [Py.split_comma] in E.
    unfold bind at 1 in E.
    pose proof (names_loop_identified post data names_str (default "" (p_caption post))
                  (Calendar.strftime dt) (length (PyStr.split ","%char names_str))
                  (PyStr.split ","%char names_str) 0
                  (mkLocals (or_url (p_thumbnail_url post) (p_media_url post)) (ImgList []))
                  st Hall) as Hloop.
    destruct (for_enumerate 0 _ _ _ st) as [[loc|] st'']; cbn [fst snd] in Hloop;
      unfold ret in E; injection E as <- <-; exact Hloop. }
  unfold try_post. destruct (process_post post st) as [[[]|] st']; exact Hp.
Qed.

(** ** The other lookups of the sheet service *)

Section LookupFacts.

Lemma lstrip_head_nonspace c s : PyStr.isspace c = false -> PyStr.lstrip (String c s) = String c s.
Proof. intros Hc. cbn. now rewrite Hc. Qed.

Lemma lstrip_cases s :
  PyStr.lstrip s = "" \/ exists c t, PyStr.lstrip s = String c t /\ PyStr.isspace c = false.
Proof.
  induction s as [|c s IH]; cbn; [now left|].
  destruct (PyStr.isspace c) eqn:E; [exact IH|]. right. eauto.
Qed.

Lemma rstrip_head c s :
  PyStr.isspace c = false -> exists t, PyStr.rstrip (String c s) = String c t.
Proof.
  intros Hc. cbn. rewrite Hc. destruct (PyStr.rstrip s); eauto.
Qed.

Lemma rstrip_idem s : PyStr.rstrip (PyStr.rstrip s) = PyStr.rstrip s.
Proof.
  induction s as [|c s IH]; cbn; [reflexivity|].
  destruct (PyStr.rstrip s) as [|c' r] eqn:E.
  - destruct (PyStr.isspace c) eqn:Ec; cbn; [reflexivity|]. now rewrite Ec.
  - change (PyStr.rstrip (String c (String c' r)))
      with (match PyStr.rstrip (String c' r) with
            | "" => if PyStr.isspace c then "" else String c ""
            | r0 => String c r0
            end).
    rewrite IH. reflexivity.
Qed.

Lemma strip_idem s : PyStr.strip (PyStr.strip s) = PyStr.strip s.
Proof.
  unfold PyStr.strip.
  destruct (lstrip_cases s) as [->|(c & t & -> & Hc)]; [reflexivity|].
  destruct (rstrip_head c t Hc) as [r Hr].
  rewrite Hr, (lstrip_head_nonspace c r Hc), <- Hr. apply rstrip_idem.
Qed.

Lemma buscar_en_filas_Some ib ir valor filas v :
  buscar_en_filas ib ir valor filas = Some v ->
  exists (k : nat) fila cell,
    filas !! k = Some fila /\ fila !! ib = Some cell /\ PyStr.strip cell = valor /\
    fila !! ir = Some v /\
    forall j fila' cell', (j < k)%nat -> filas !! j = Some fila' ->
      fila' !! ib = Some cell' -> PyStr.strip cell' <> valor.
Proof.
  induction filas as [|fila filas IH]; cbn; [discriminate|].
  destruct (fila !! ib) as [cell|] eqn:Ecell.
  - destruct (String.eqb (PyStr.strip cell) valor) eqn:E.
    + apply String.eqb_eq in E. intros Hv. exists 0%nat, fila, cell.
      repeat split; auto. intros j ? ? Hj. lia.
    + apply String.eqb_neq in E. intros Hv.
      destruct (IH Hv) as (k & f & c & Hk & Hc & Hs & Hr & Hbefore).
      exists (S k), f, c. repeat split; auto.
      intros [|j] f' c' Hj Hf' Hc'; cbn in Hf'.
      * congruence.
      * apply (Hbefore j f' c'); [lia|assumption..].
  - intros Hv. destruct (IH Hv) as (k & f & c & Hk & Hc & Hs & Hr & Hbefore).
    exists (S k), f, c. repeat split; auto.
    intros [|j] f' c' Hj Hf' Hc'; cbn in Hf'.
    * congruence.
    * apply (Hbefore j f' c'); [lia|assumption..].
Qed.

Lemma untrimmed_not_found ws cb cr valor :
  PyStr.strip valor <> valor -> buscar_valor_en_fila ws cb cr valor = None.
Proof.
  intros Hne.
  destruct (buscar_valor_en_fila ws cb cr valor) as [v|] eqn:E; [|reflexivity].
  unfold buscar_valor_en_fila in E.
  destruct (header_index cb _) as [ib|]; [|discriminate].
  destruct (header_index cr _) as [ir|]; [|discriminate].
  apply buscar_en_filas_Some in E as (k & fila & cell & _ & _ & Hs & _).
  exfalso. apply Hne. rewrite <- Hs. apply strip_idem.
Qed.

End LookupFacts.

(** X10.  [find_row_by_id] answers -1 for every identifier that is not a
    string, whatever the sheet holds (the cells are strings).  For a string
    it answers the number, counted from 1 and with the header row counted,
    of the first row whose cell in the first column headed [id] (any case)
    is that very string, and -1 exactly when no row has it. *)
Theorem find_row_by_id_first_equal_cell (ws : worksheet) (id : value) :
  ((forall s, id <> VStr s) -> find_row_by_id ws id = -1) /\
  (find_row_by_id ws id = -1 \/
   exists (id_col : nat) (s : string) (r : nat),
     find_row_by_id ws id = Z.of_nat r + 1 /\ id = VStr s /\
     first_index (fun header => String.eqb (PyStr.lower header) "id") (get_headers ws)
       = Some id_col /\
     Worksheet.col_values ws id_col !! r = Some s /\
     (forall j, (j < r)%nat -> Worksheet.col_values ws id_col !! j <> Some s)) /\
  (forall id_col s,
     first_index (fun header => String.eqb (PyStr.lower header) "id") (get_headers ws)
       = Some id_col ->
     s ∈ Worksheet.col_values ws id_col ->
     1 <= find_row_by_id ws (VStr s) <= Z.of_nat (length ws)).
Proof.
  unfold find_row_by_id. split; [|split].
  - intros Hid. destruct (first_index _ (get_headers ws)) as [idc|]; [|reflexivity].
    destruct (first_index _ (Worksheet.col_values ws idc)) as [r|] eqn:E; [|reflexivity].
    apply first_index_Some in E as (c & _ & Hc & _).
    destruct id; cbn in Hc; try discriminate. now destruct (Hid s).
  - destruct (first_index _ (get_headers ws)) as [idc|] eqn:Eh; [|now left].
    destruct (first_index _ (Worksheet.col_values ws idc)) as [r|] eqn:E; [|now left].
    right. apply first_index_Some in E as (c & Hr & Hc & Hbefore).
    destruct id as [| | |s| |]; cbn in Hc; try discriminate.
    apply String.eqb_eq in Hc as ->.
    exists idc, s, r. repeat split; auto.
    intros j Hj Hjs. specialize (Hbefore j s Hj Hjs). cbn in Hbefore.
    now rewrite String.eqb_refl in Hbefore.
  - intros id_col s Hcol Hin. rewrite Hcol.
    destruct (first_index _ (Worksheet.col_values ws id_col)) as [r|] eqn:E.
    + apply first_index_Some in E as (c & Hr & _).
      apply lookup_lt_Some in Hr. unfold Worksheet.col_values in Hr.
      rewrite length_fmap in Hr. lia.
    + apply first_index_None in E. rewrite Forall_forall in E.
      specialize (E s Hin). cbn in E. now rewrite String.eqb_refl in E.
Qed.

(** X11.  When [buscar_valor_en_fila] returns a value, both columns exist
    (their names compared without regard to case) and the value is the
    cell, as it stands, of the return column in the first data row whose
    search cell, trimmed, is the text looked for; no earlier data row has
    such a search cell. *)
Theorem buscar_valor_en_fila_first_match
    (ws : worksheet) (columna_busqueda columna_retorno valor_buscado v : string) :
  buscar_valor_en_fila ws columna_busqueda columna_retorno valor_buscado = Some v ->
  exists (idx_busqueda idx_retorno k : nat) (fila : list string) (cell : string),
    header_index columna_busqueda (Worksheet.row_values_1 ws) = Some idx_busqueda /\
    header_index columna_retorno (Worksheet.row_values_1 ws) = Some idx_retorno /\
    tail ws !! k = Some fila /\
    fila !! idx_busqueda = Some cell /\ PyStr.strip cell = valor_buscado /\
    fila !! idx_retorno = Some v /\
    forall j fila' cell', (j < k)%nat -> tail ws !! j = Some fila' ->
      fila' !! idx_busqueda = Some cell' -> PyStr.strip cell' <> valor_buscado.
Proof.
  unfold buscar_valor_en_fila.
  destruct (header_index columna_busqueda _) as [ib|]; [|discriminate].
  destruct (header_index columna_retorno _) as [ir|]; [|discriminate].
  intros Hv. apply buscar_en_filas_Some in Hv as (k & fila & cell & ?).
  exists ib, ir, k, fila, cell. intuition.
Qed.

(** X12.  A text with white space at either end is never found by
    [buscar_valor_en_fila]: the cells are trimmed before the comparison,
    the text looked for is not. *)
Theorem buscar_valor_en_fila_untrimmed
    (ws : worksheet) (columna_busqueda columna_retorno valor_buscado : string) :
  PyStr.strip valor_buscado <> valor_buscado ->
  buscar_valor_en_fila ws columna_busqueda columna_retorno valor_buscado = None.
Proof. apply untrimmed_not_found. Qed.

(** X13.  [get_estado] looks the state up under the identifier as the
    Post sheet holds it: when that cell has white space at either end no
    state is found, whatever the Datos sheet holds. *)
Theorem get_estado_untrimmed_identifier
    (worksheet_post worksheet_datos : worksheet) (post_id id : string) :
  buscar_valor_en_fila worksheet_post "id_post" "id" post_id = Some id ->
  PyStr.strip id <> id ->
  get_estado worksheet_post worksheet_datos post_id = None.
Proof.
  intros Hid Hne. unfold get_estado. rewrite Hid. cbn [str_of_found].
  now apply untrimmed_not_found.
Qed.

(** ** Lists of records *)

Section ListInsertFacts.

Lemma sheet_data_induction (P : sheet_data -> Prop) :
  (forall d, P (DataDict d)) ->
  (forall items, Forall P items -> P (DataList items)) ->
  forall data, P data.
Proof.
  intros Hd Hl. fix IH 1. intros [d|items]; [apply Hd|].
  apply Hl. induction items as [|item items IHitems]; constructor; [apply IH | exact IHitems].
Qed.

Lemma headers_after_rows ws rows :
  Forall (fun row => length row = length (get_headers ws)) rows ->
  get_headers (ws ++ rows) = get_headers ws.
Proof.
  destruct ws as [|h ws]; cbn; [|reflexivity].
  intros Hrows. destruct rows as [|row rows]; cbn; [reflexivity|].
  inversion Hrows as [|? ? Hlen _]. cbn in Hlen. now destruct row.
Qed.

Lemma row_of_length headers d row : row_of headers d = Some row -> length row = length headers.
Proof.
  unfold row_of. intros E. apply length_mapM in E. rewrite length_fmap in E. congruence.
Qed.

Lemma insert_sheet_from_dict_row_of d ws :
  insert_sheet_from_dict d ws
  = match row_of (get_headers ws) d with
    | Some row => (true, ws ++ [row])
    | None => (false, ws)
    end.
Proof.
  unfold insert_sheet_from_dict, Worksheet.append_row, row_of.
  now destruct (mapM _ _).
Qed.

Lemma omap_rows_length headers ds :
  Forall (fun row => length row = length headers) (omap (row_of headers) ds).
Proof.
  induction ds as [|d ds IH]; cbn; [constructor|].
  destruct (row_of headers d) eqn:E; cbn; [|exact IH].
  constructor; [now apply row_of_length in E | exact IH].
Qed.

Lemma omap_length_le {A B} (f : A -> option B) l : (length (omap f l) <= length l)%nat.
Proof. induction l as [|x l IH]; cbn; [lia|]. destruct (f x); cbn; lia. Qed.

Lemma dicts_of_cons item items :
  dicts_of (DataList (item :: items)) = dicts_of item ++ dicts_of (DataList items).
Proof. reflexivity. Qed.

Lemma insert_sheet_from_data_rows data : forall ws0 rows0,
  Forall (fun row => length row = length (get_headers ws0)) rows0 ->
  insert_sheet_from_data data (ws0 ++ rows0)
  = inserted (get_headers ws0) (ws0 ++ rows0) data true.
Proof.
  induction data as [d|items IH] using sheet_data_induction; intros ws0 rows0 Hrows0.
  - cbn [insert_sheet_from_data]. rewrite insert_sheet_from_dict_row_of.
    rewrite (headers_after_rows _ _ Hrows0). unfold inserted. cbn.
    destruct (row_of (get_headers ws0) d); cbn; [reflexivity|].
    now rewrite app_nil_r.
  - cbn [insert_sheet_from_data].
    enough (forall success rows0,
      Forall (fun row => length row = length (get_headers ws0)) rows0 ->
      foldl (fun '(success, ws) item =>
               let '(ok, ws') := insert_sheet_from_data item ws in
               (if ok then success else false, ws')) (success, ws0 ++ rows0) items
      = inserted (get_headers ws0) (ws0 ++ rows0) (DataList items) success) as Hloop
      by now apply Hloop.
    clear rows0 Hrows0.
    induction IH as [|item items Hitem _ IHitems]; intros success rows0 Hrows0.
    + unfold inserted. cbn. rewrite app_nil_r.
      now destruct success.
    + cbn [foldl]. rewrite (Hitem ws0 rows0 Hrows0). unfold inserted at 1.
      rewrite <- app_assoc. rewrite IHitems.
      * unfold inserted. rewrite (dicts_of_cons item items).
        set (rows1 := omap _ (dicts_of item)).
        rewrite omap_app, !length_app. fold rows1.
        set (rows2 := omap _ (dicts_of (DataList items))).
        pose proof (omap_length_le (row_of (get_headers ws0)) (dicts_of item)).
        pose proof (omap_length_le (row_of (get_headers ws0)) (dicts_of (DataList items))).
        fold rows1 in H. fold rows2 in H0.
        rewrite <- !app_assoc. f_equal.
        set (n1 := length (dicts_of item)) in *.
        set (n2 := length (dicts_of (DataList items))) in *.
        clearbody rows1 rows2 n1 n2.
        destruct success; cbn; repeat case_bool_decide; try reflexivity; lia.
      * apply Forall_app. split; [exact Hrows0 | apply omap_rows_length].
Qed.

End ListInsertFacts.

(** X14.  [insert_sheet_from_dict] on a list, nested or not, goes through
    every dict of it in order: the rows added are those of the dicts whose
    values can all be written to a cell, a dict that fails is skipped and
    does not stop the ones after it, and the flag returned tells whether
    none was skipped. *)
Theorem insert_sheet_from_data_every_item (data : sheet_data) (ws : worksheet) :
  let rows := omap (row_of (get_headers ws)) (dicts_of data) in
  insert_sheet_from_data data ws
  = (bool_decide (length rows = length (dicts_of data)), ws ++ rows).
Proof.
  cbn zeta. pose proof (insert_sheet_from_data_rows data ws []) as E.
  rewrite app_nil_r in E. apply E. constructor.
Qed.

(** ** The dates of the sheet and the posts fetched *)

Section DateFacts.

Lemma naive_ltb_spec a b : naive_ltb a b = true <-> naive_lt a b.
Proof.
  unfold naive_ltb, naive_lt.
  repeat (match goal with
          | |- context [?x ?= ?y] => destruct (Z.compare_spec x y)
          end; [| split; [intros _; lia | reflexivity] | split; [discriminate | lia] ]).
  rewrite Z.ltb_lt. lia.
Qed.

Lemma naive_ltb_false a b : naive_ltb a b = false <-> ~ naive_lt a b.
Proof.
  rewrite <- naive_ltb_spec. destruct (naive_ltb a b); split; auto; try discriminate.
  intros Hn. now destruct Hn.
Qed.

Lemma naive_le_refl a : naive_le a a.
Proof. apply naive_ltb_false. unfold naive_lt. lia. Qed.

Lemma naive_lt_le a b : naive_ltb a b = true -> naive_le a b.
Proof.
  unfold naive_le. rewrite naive_ltb_spec, naive_ltb_false. unfold naive_lt.
  destruct a, b; cbn. lia.
Qed.

Lemma naive_le_trans a b c : naive_le a b -> naive_le b c -> naive_le a c.
Proof.
  unfold naive_le. rewrite !naive_ltb_false. unfold naive_lt.
  destruct a, b, c; cbn. lia.
Qed.

Lemma naive_le_lt_trans a b c : naive_le a b -> naive_ltb b c = true -> naive_ltb a c = true.
Proof.
  unfold naive_le. rewrite !naive_ltb_spec, naive_ltb_false. unfold naive_lt.
  destruct a, b, c; cbn. lia.
Qed.

Lemma max_date_spec d ds :
  max_date d ds ∈ d :: ds /\ forall x, x ∈ d :: ds -> naive_le x (max_date d ds).
Proof.
  revert d. induction ds as [|y ds IH]; intros d; cbn.
  - split; [left|]. intros x Hx. apply list_elem_of_singleton in Hx as ->.
    apply naive_le_refl.
  - destruct (IH (if naive_ltb d y then y else d)) as [Hin Hge].
    fold (max_date (if naive_ltb d y then y else d) ds) in *.
    split.
    + apply elem_of_cons in Hin as [Hin|Hin]; [|now do 2 right].
      rewrite Hin. destruct (naive_ltb d y); [right; left | left].
    + intros x Hx.
      assert (naive_le x (if naive_ltb d y then y else d) \/ x ∈ ds) as [Hle|Hin'].
      { apply elem_of_cons in Hx as [->|Hx].
        - left. destruct (naive_ltb d y) eqn:E; [now apply naive_lt_le | apply naive_le_refl].
        - apply elem_of_cons in Hx as [->|Hx]; [|now right].
          left. destruct (naive_ltb d y) eqn:E; [apply naive_le_refl | exact E]. }
      * eapply naive_le_trans; [exact Hle|]. apply Hge. left.
      * apply Hge. now right.
Qed.

Lemma parsed_dates_spec f cells d :
  d ∈ parsed_dates f cells <->
  exists cell, cell ∈ cells /\ PyStr.strip cell <> "" /\ f cell = Some d.
Proof.
  unfold parsed_dates. rewrite list_elem_of_omap. split.
  - intros (cell & Hin & Hd). exists cell. split; [exact Hin|].
    destruct (String.eqb (PyStr.strip cell) "") eqn:E; cbn in Hd; [discriminate|].
    apply String.eqb_neq in E. auto.
  - intros (cell & Hin & Hs & Hd). exists cell. split; [exact Hin|].
    apply String.eqb_neq in Hs. now rewrite Hs.
Qed.

End DateFacts.

(** X15.  [get_oldest_date] returns the newest date of the date column,
    not the oldest: its result is either the default 2020-01-01 00:00:00,
    when there is no column headed [fecha] or [date] (any case) or no data
    cell of it parses, or the date of such a cell, and then no cell of the
    column parses to a later date.  Blank cells and cells that do not
    parse are passed over. *)
Theorem get_oldest_date_is_newest
    (strptime_dmy : string -> option datetime) (ws : worksheet) :
  let result := get_oldest_date strptime_dmy ws in
  let recorded d :=
    exists idx cell,
      first_index is_date_header (get_headers ws) = Some idx /\
      cell ∈ tail (Worksheet.col_values ws idx) /\
      PyStr.strip cell <> "" /\ strptime_dmy cell = Some d in
  (recorded result /\ (forall d, recorded d -> naive_ltb result d = false)) \/
  (result = default_date /\ forall d, ~ recorded d).
Proof.
  cbn zeta. unfold get_oldest_date.
  destruct (first_index is_date_header (get_headers ws)) as [idx|] eqn:Eh.
  - destruct (parsed_dates strptime_dmy (tail (Worksheet.col_values ws idx)))
      as [|d ds] eqn:Ed.
    + right. split; [reflexivity|]. intros d (idx' & cell & [= <-] & Hin & Hs & Hd).
      assert (d ∈ parsed_dates strptime_dmy (tail (Worksheet.col_values ws idx))) as Hp
        by (apply parsed_dates_spec; eauto).
      rewrite Ed in Hp. inversion Hp.
    + left. destruct (max_date_spec d ds) as [Hin Hge]. rewrite <- Ed in Hin. split.
      * apply parsed_dates_spec in Hin as (cell & ? & ? & ?). exists idx, cell. auto.
      * intros x (idx' & cell & [= <-] & Hc & Hs & Hd). apply Hge. rewrite <- Ed.
        apply parsed_dates_spec. eauto.
  - right. split; [reflexivity|]. intros d (idx & cell & Hidx & _). discriminate.
Qed.

Section RecentFacts.

Context `{Collaborators}.

Lemma relevant_of_batch_Some e batch rel :
  relevant_of_batch e batch = Some rel ->
  Forall (fun p => is_Some (strptime (p_timestamp p))) batch /\
  Forall (timed e) rel /\
  snd <$> rel = filter (fun p => is_later e p = true) batch.
Proof.
  revert rel. induction batch as [|p batch IH]; cbn; intros rel.
  - intros [= <-]. repeat split; constructor.
  - destruct (strptime (p_timestamp p)) as [t|] eqn:Et; cbn; [|discriminate].
    destruct (relevant_of_batch e batch) as [rel'|]; cbn; [|discriminate].
    destruct (IH rel' eq_refl) as (Hp & Ht & Hf). intros [= <-].
    split; [constructor; eauto|].
    assert (is_later e p = naive_ltb e t) as El by (unfold is_later; now rewrite Et).
    destruct (decide (is_later e p = true)) as [Hl|Hl]; rewrite El in Hl.
    + rewrite Hl. split.
      * constructor; [split; cbn; auto | exact Ht].
      * cbn. now rewrite Hf.
    + apply not_true_is_false in Hl. rewrite Hl. auto.
Qed.

Lemma relevant_of_batch_None e batch :
  relevant_of_batch e batch = None <->
  exists p, p ∈ batch /\ strptime (p_timestamp p) = None.
Proof.
  induction batch as [|p batch IH]; cbn.
  - split; [discriminate|]. intros (p & Hp & _). inversion Hp.
  - destruct (strptime (p_timestamp p)) as [t|] eqn:Et; cbn.
    + destruct (relevant_of_batch e batch) as [rel'|]; cbn.
      * split; [discriminate|]. intros (q & Hq & Hn).
        apply elem_of_cons in Hq as [->|Hq]; [congruence|].
        assert (Some rel' = None) as E by (apply IH; eauto). discriminate.
      * split; [|reflexivity]. intros _.
        destruct (proj1 IH eq_refl) as (q & Hq & Hn). exists q. split; [now right|exact Hn].
    + split; [|reflexivity]. intros _. exists p. split; [left|exact Et].
Qed.

Lemma relevant_posts_Some e pages rel :
  relevant_posts e pages = Some rel ->
  raised pages = false /\
  Forall (fun p => is_Some (strptime (p_timestamp p))) (fetched pages) /\
  Forall (timed e) rel /\
  snd <$> rel = filter (fun p => is_later e p = true) (fetched pages).
Proof.
  revert rel. induction pages as [|[batch| |] pages IH]; intros rel; cbn [relevant_posts].
  - intros [= <-]. repeat split; constructor.
  - destruct (relevant_of_batch e batch) as [r1|] eqn:E1; cbn [mbind option_bind]; [|discriminate].
    destruct (relevant_posts e pages) as [r2|]; cbn [mbind option_bind]; [|discriminate].
    intros [= <-]. apply relevant_of_batch_Some in E1 as (Hp1 & Ht1 & Hf1).
    destruct (IH r2 eq_refl) as (Hr & Hp2 & Ht2 & Hf2).
    cbn [fetched raised]. repeat split; [exact Hr | | |].
    + apply Forall_app; auto.
    + apply Forall_app; auto.
    + now rewrite fmap_app, filter_app, Hf1, Hf2.
  - intros [= <-]. repeat split; constructor.
  - discriminate.
Qed.

Lemma relevant_posts_None e pages :
  relevant_posts e pages = None <->
  raised pages = true \/ exists p, p ∈ fetched pages /\ strptime (p_timestamp p) = None.
Proof.
  induction pages as [|[batch| |] pages IH]; cbn [relevant_posts fetched raised].
  - split; [discriminate|]. intros [|(p & Hp & _)]; [discriminate|inversion Hp].
  - destruct (relevant_of_batch e batch) as [r1|] eqn:E1; cbn [mbind option_bind].
    + assert (forall p, p ∈ batch -> strptime (p_timestamp p) <> None) as Hb.
      { intros p Hp Hn.
        assert (relevant_of_batch e batch = None) as E
          by (apply relevant_of_batch_None; eauto). congruence. }
      destruct (relevant_posts e pages) as [r2|]; cbn [mbind option_bind].
      * split; [discriminate|]. intros [Hr|(p & Hp & Hn)].
        -- assert (Some r2 = None) as E by (apply IH; auto). discriminate.
        -- apply elem_of_app in Hp as [Hp|Hp]; [now destruct (Hb p Hp)|].
           assert (Some r2 = None) as E by (apply IH; eauto). discriminate.
      * split; [|reflexivity]. intros _.
        destruct (proj1 IH eq_refl) as [Hr|(p & Hp & Hn)]; [now left|].
        right. exists p. split; [apply elem_of_app; now right | exact Hn].
    + split; [|reflexivity]. intros _. right.
      apply relevant_of_batch_None in E1 as (p & Hp & Hn).
      exists p. split; [apply elem_of_app; now left | exact Hn].
  - split; [discriminate|]. intros [|(p & Hp & _)]; [discriminate|inversion Hp].
  - split; [|reflexivity]. intros _. now left.
Qed.

Lemma relevant_posts_stop e pre rest :
  relevant_posts e (pre ++ NotOk :: rest) = relevant_posts e pre.
Proof.
  induction pre as [|[batch| |] pre IH]; cbn [app relevant_posts]; try reflexivity.
  now rewrite IH.
Qed.

Lemma insert_by_time_perm k p sorted : insert_by_time k p sorted ≡ₚ (k, p) :: sorted.
Proof.
  induction sorted as [|[k' p'] sorted IH]; cbn; [reflexivity|].
  destruct (naive_ltb k' k); [|reflexivity].
  rewrite IH. apply Permutation_swap.
Qed.

Lemma insert_by_time_hd k p sorted a :
  time_le a (k, p) -> HdRel time_le a sorted -> HdRel time_le a (insert_by_time k p sorted).
Proof.
  intros Hk Hs. destruct sorted as [|[k' p'] sorted]; cbn; [now constructor|].
  destruct (naive_ltb k' k); constructor; [|exact Hk]. now inversion Hs.
Qed.

Lemma insert_by_time_sorted k p sorted :
  Sorted time_le sorted -> Sorted time_le (insert_by_time k p sorted).
Proof.
  induction sorted as [|[k' p'] sorted IH]; cbn; intros Hs.
  - repeat constructor.
  - inversion Hs as [|? ? Hs' Hhd]; subst.
    destruct (naive_ltb k' k) eqn:E.
    + constructor; [now apply IH|]. apply insert_by_time_hd; [|exact Hhd].
      now apply naive_lt_le.
    + constructor; [exact Hs|]. constructor. exact E.
Qed.

Lemma sort_by_time_spec rel :
  let sorted := foldr (fun kp acc => insert_by_time kp.1 kp.2 acc) [] rel in
  sorted ≡ₚ rel /\ Sorted time_le sorted.
Proof.
  induction rel as [|[k p] rel [IHp IHs]]; cbn; [split; [reflexivity|constructor]|].
  split; [now rewrite insert_by_time_perm, IHp | now apply insert_by_time_sorted].
Qed.

Lemma sorted_times (l : list (datetime * Post)) :
  Sorted time_le l -> Sorted naive_le (fst <$> l).
Proof.
  induction 1 as [|a l Hs IH Hhd]; cbn; constructor; [exact IH|].
  destruct Hhd; cbn; constructor. assumption.
Qed.

Lemma timed_times e (l : list (datetime * Post)) :
  Forall (timed e) l -> mapM naive_time (snd <$> l) = Some (fst <$> l).
Proof.
  intros Hl. apply mapM_Some. induction Hl as [|[k p] l [Hk _] _ IH]; cbn; constructor; auto.
Qed.

End RecentFacts.

(** X16.  Every post [get_recent_posts] returns comes from a page
    answered with status 200 before the first other answer, its time (the
    offset dropped) is later than the earliest date, 2020-01-01 when none
    is given, and the posts are in the order of their times, the oldest
    first. *)
Theorem get_recent_posts_later_and_sorted `{Collaborators}
    (configured : bool) (pages : list response) (earliest_date : option datetime) :
  let out := get_recent_posts configured pages earliest_date in
  Forall (fun p => p ∈ fetched pages /\
                   is_later (default default_date earliest_date) p = true) out /\
  exists times, mapM naive_time out = Some times /\ Sorted naive_le times.
Proof.
  cbn zeta. unfold get_recent_posts.
  destruct configured; cbn [negb]; [|split; [constructor | exists []; split; [reflexivity|constructor]]].
  set (e := default default_date earliest_date).
  destruct (relevant_posts e pages) as [rel|] eqn:E;
    [|split; [constructor | exists []; split; [reflexivity|constructor]]].
  apply relevant_posts_Some in E as (_ & _ & Ht & Hf).
  destruct (sort_by_time_spec rel) as [Hperm Hsorted].
  set (sorted := foldr _ [] rel) in *.
  assert (Forall (timed e) sorted) as Hts by now rewrite Hperm.
  split.
  - apply Forall_forall. intros p Hp.
    assert (p ∈ snd <$> rel) as Hp' by now rewrite <- Hperm.
    rewrite Hf in Hp'. apply list_elem_of_filter in Hp' as [Hl Hin]. auto.
  - exists (fst <$> sorted). split; [now apply (timed_times e) | now apply sorted_times].
Qed.

(** X17.  When the credentials are set, no request raises and every
    timestamp of the pages read parses, [get_recent_posts] returns, up to
    the order, exactly the posts of those pages that are later than the
    earliest date: none of them is lost and none is returned twice. *)
Theorem get_recent_posts_complete `{Collaborators}
    (pages : list response) (earliest_date : option datetime) :
  raised pages = false ->
  Forall (fun p => is_Some (strptime (p_timestamp p))) (fetched pages) ->
  get_recent_posts true pages earliest_date
  ≡ₚ filter (fun p => is_later (default default_date earliest_date) p = true)
            (fetched pages).
Proof.
  intros Hr Hp. unfold get_recent_posts. cbn [negb].
  set (e := default default_date earliest_date).
  destruct (relevant_posts e pages) as [rel|] eqn:E.
  - apply relevant_posts_Some in E as (_ & _ & _ & Hf).
    destruct (sort_by_time_spec rel) as [Hperm _]. cbn zeta in Hperm.
    now rewrite Hperm, Hf.
  - exfalso. apply relevant_posts_None in E as [E|(p & Hin & Hn)]; [congruence|].
    rewrite Forall_forall in Hp. destruct (Hp p Hin) as [t Ht]. congruence.
Qed.

(** X18.  One failure empties the whole answer of [get_recent_posts]: when
    a request raises before any answer with another status than 200, or
    one post of the pages read has a timestamp that does not parse, be it
    a post the date filter would have dropped, no post at all is
    returned. *)
Theorem get_recent_posts_failure_returns_nothing `{Collaborators}
    (configured : bool) (pages : list response) (earliest_date : option datetime) :
  raised pages = true \/
  (exists p, p ∈ fetched pages /\ strptime (p_timestamp p) = None) ->
  get_recent_posts configured pages earliest_date = [].
Proof.
  intros Hfail. unfold get_recent_posts. destruct configured; cbn [negb]; [|reflexivity].
  apply (relevant_posts_None (default default_date earliest_date)) in Hfail.
  now rewrite Hfail.
Qed.

(** X19.  An answer with another status than 200 ends the reading: the
    pages after it are not looked at, and the posts collected before it
    are returned as if it had been the end. *)
Theorem get_recent_posts_stops_at_error_status `{Collaborators}
    (configured : bool) (before after : list response)
    (earliest_date : option datetime) :
  get_recent_posts configured (before ++ NotOk :: after) earliest_date
  = get_recent_posts configured before earliest_date.
Proof. unfold get_recent_posts. now rewrite relevant_posts_stop. Qed.

(** X20.  [get_oldest_date] and [get_recent_posts] together, as
    [process_instagram_posts] chains them: every post fetched is later
    than every date recorded in the date column of the worksheet. *)
Theorem fetched_posts_are_later_than_recorded `{Collaborators}
    (strptime_dmy : string -> option datetime) (ws : worksheet)
    (configured : bool) (pages : list response)
    (p : Post) (idx : nat) (cell : string) (d : datetime) :
  p ∈ get_recent_posts configured pages (Some (get_oldest_date strptime_dmy ws)) ->
  first_index is_date_header (get_headers ws) = Some idx ->
  cell ∈ tail (Worksheet.col_values ws idx) ->
  PyStr.strip cell <> "" ->
  strptime_dmy cell = Some d ->
  exists post_time,
    strptime (p_timestamp p) = Some post_time /\ naive_ltb d post_time = true.
Proof.
  intros Hp Hidx Hcell Hs Hd.
  assert (is_later (get_oldest_date strptime_dmy ws) p = true) as Hl.
  { unfold get_recent_posts in Hp. destruct configured; cbn [negb] in Hp; [|inversion Hp].
    cbn [default] in Hp. cbv [id] in Hp.
    destruct (relevant_posts _ pages) as [rel|] eqn:E; [|inversion Hp].
    apply relevant_posts_Some in E as (_ & _ & _ & Hf).
    destruct (sort_by_time_spec rel) as [Hperm _]. cbn zeta in Hperm.
    rewrite Hperm, Hf in Hp. now apply list_elem_of_filter in Hp as [Hl _]. }
  unfold is_later in Hl. destruct (strptime (p_timestamp p)) as [t|]; [|discriminate].
  exists t. split; [reflexivity|].
  eapply naive_le_lt_trans; [|exact Hl].
  unfold get_oldest_date. rewrite Hidx.
  assert (d ∈ parsed_dates strptime_dmy (tail (Worksheet.col_values ws idx))) as Hin
    by (apply parsed_dates_spec; eauto).
  destruct (parsed_dates _ _) as [|d0 ds]; [inversion Hin|].
  now apply max_date_spec.
Qed.

(** ** The records of the image analysis, and the expenses again *)

Section AnalyzerFacts.

Context `{Collaborators}.
Variable completion : string -> images -> string -> option string.
Variable json_dumps : list value -> string.
Variable str_of_dict : list (string * value) -> string.

Lemma animal_record_Some date_time item r :
  ImageAnalyzer.animal_record json_dumps str_of_dict date_time item = Some r ->
  (exists d, item = VDict d /\
     r_Nombre r = ImageAnalyzer.dict_get d "Nombre" (VStr "Sin nombre")) /\
  r_Fecha r = VStr date_time /\ exists s, r_Color_de_pelo r = VStr s.
Proof.
  destruct item; cbn; try discriminate. intros [= <-]. cbn.
  split; [eexists; split; reflexivity|]. split; [reflexivity|]. eexists; reflexivity.
Qed.

Lemma animal_records_spec date_time array :
  (Forall is_object array ->
   exists records,
     mapM (ImageAnalyzer.animal_record json_dumps str_of_dict date_time) array
     = Some records) /\
  (~ Forall is_object array ->
   mapM (ImageAnalyzer.animal_record json_dumps str_of_dict date_time) array = None).
Proof.
  split.
  - intros Hall.
    destruct (mapM _ array) as [records|] eqn:E; [eauto|].
    apply mapM_None_1, Exists_exists in E as (item & Hin & Hnone).
    rewrite Forall_forall in Hall. destruct (Hall item Hin) as [d ->]. discriminate.
  - intros Hnot.
    destruct (mapM _ array) as [records|] eqn:E; [|reflexivity].
    exfalso. apply Hnot. apply mapM_Some_1 in E.
    apply Forall_forall. intros item Hin.
    apply list_elem_of_lookup in Hin as [k Hk].
    destruct (Forall2_lookup_l _ _ _ _ _ E Hk) as (r & _ & Hr).
    apply animal_record_Some in Hr as ((d & -> & _) & _). now exists d.
Qed.

End AnalyzerFacts.

(** X21.  The records of [analyze_animal_image] all carry the date given
    as [Fecha] and a text as [Color de pelo].  When the model's answer
    parses to an array, there is one record per item, in order, with the
    item's [Nombre] or [Sin nombre], provided every item is an object; one
    item that is no object discards the records of all the others.  An
    image whose download failed gives no record at all. *)
Theorem analyze_animal_image_all_or_nothing `{Collaborators}
    (completion : string -> images -> string -> option string)
    (json_dumps : list value -> string)
    (str_of_dict : list (string * value) -> string)
    (image_bytes : images) (date_time : string) (caption : option string)
    (names : string) :
  let records :=
    ImageAnalyzer.analyze_animal_image completion json_dumps str_of_dict
      image_bytes date_time caption names in
  Forall (fun r => r_Fecha r = VStr date_time /\ exists s, r_Color_de_pelo r = VStr s)
         records /\
  (ImageAnalyzer.encodable image_bytes = false -> records = []) /\
  (forall content array,
     ImageAnalyzer.encodable image_bytes = true ->
     completion names image_bytes (default "" caption) = Some content ->
     PyStr.upper (PyStr.strip content) <> "IGNORAR" ->
     json_loads (ImageAnalyzer._clean_json_response (PyStr.strip content))
     = Some (VList array) ->
     (Forall is_object array ->
      Forall2 (fun item r =>
                 exists d, item = VDict d /\
                   r_Nombre r = ImageAnalyzer.dict_get d "Nombre" (VStr "Sin nombre"))
              array records) /\
     (~ Forall is_object array -> records = [])).
Proof.
  cbn zeta. unfold ImageAnalyzer.analyze_animal_image. split; [|split].
  - destruct (ImageAnalyzer.encodable image_bytes); cbn [negb]; [|constructor].
    destruct (completion _ _ _) as [content|]; [|constructor].
    destruct (String.eqb _ "IGNORAR"); [constructor|].
    destruct (json_loads _) as [analysis|]; [|constructor].
    destruct (ImageAnalyzer.analysis_array analysis) as [array|]; [|constructor].
    destruct (mapM _ array) as [records|] eqn:E; cbn [default]; [|constructor].
    cbv [id]. apply mapM_Some_1 in E. apply Forall_forall. intros r Hr.
    apply list_elem_of_lookup in Hr as [k Hk].
    eapply Forall2_lookup_r in E as (item & _ & Hitem); [|exact Hk].
    now apply animal_record_Some in Hitem as (_ & ? & ?).
  - intros ->. reflexivity.
  - intros content array Henc Hcontent Hupper Hjson.
    rewrite Henc. cbn [negb]. rewrite Hcontent.
    apply String.eqb_neq in Hupper. rewrite Hupper, Hjson.
    cbn [ImageAnalyzer.analysis_array]. split.
    + intros Hall.
      destruct (proj1 (animal_records_spec json_dumps str_of_dict date_time array) Hall)
        as [records E].
      rewrite E. cbn [default]. cbv [id]. apply mapM_Some_1 in E.
      eapply Forall2_impl; [exact E|]. intros item r Hr.
      now apply animal_record_Some in Hr as (? & _).
    + intros Hnot.
      now rewrite (proj2 (animal_records_spec json_dumps str_of_dict date_time array) Hnot).
Qed.

(** X22.  An entry whose date does not parse has no weekday: if its
    provider matches the Cabify pattern it is dropped, as a ride from
    Monday to Friday is; any other entry that matches a keyword is kept and
    gives an expense record without a date. *)
Theorem expense_without_date
    (to_datetime : string -> option datetime) (df_negativos : list transaction)
    (t : transaction) :
  t ∈ df_negativos ->
  matches_keyword (DONANTE t) = true ->
  to_datetime (FECHA t) = None ->
  (mask_cabify (DONANTE t) = true -> t ∉ kept_rows to_datetime df_negativos) /\
  (mask_cabify (DONANTE t) = false ->
   to_expense to_datetime t ∈ _process_expenses to_datetime df_negativos /\
   e_FECHA (to_expense to_datetime t) = None).
Proof.
  intros Hin Hk Hd. split.
  - intros Hc Hkept. apply kept_rows_spec in Hkept as (_ & _ & Hw).
    specialize (Hw Hc). rewrite Hd in Hw. discriminate.
  - intros Hc. split; [|exact Hd].
    unfold _process_expenses. apply list_elem_of_fmap. exists t. split; [reflexivity|].
    apply kept_rows_spec. repeat split; auto. congruence.
Qed.

(** X23.  The expense records are made from a selection of the input rows
    in the order of the input: no row gives two records and none is moved.
    Every record has a provider that matches a keyword, and a record typed
    [Transporte] is dated on a Saturday or a Sunday. *)
Theorem expenses_are_an_ordered_selection
    (to_datetime : string -> option datetime) (df_negativos : list transaction) :
  (exists rows, sublist rows df_negativos /\
     _process_expenses to_datetime df_negativos = to_expense to_datetime <$> rows) /\
  Forall (fun e =>
            matches_keyword (Nombre_de_Proveedor e) = true /\
            (Tipo_de_gasto e = Transporte ->
             exists dt, e_FECHA e = Some dt /\
                        (Calendar.weekday dt = 5 \/ Calendar.weekday dt = 6)))
         (_process_expenses to_datetime df_negativos).
Proof.
  split.
  - exists (kept_rows to_datetime df_negativos). split; [|reflexivity].
    unfold kept_rows. etransitivity; apply sublist_filter.
  - apply Forall_forall. intros e He. unfold _process_expenses in He.
    apply list_elem_of_fmap in He as (t & -> & Ht).
    apply kept_rows_spec in Ht as (_ & Hk & Hw). cbn. split; [exact Hk|].
    unfold select_tipo. destruct (mask_veterinaria (DONANTE t)); [discriminate|].
    destruct (mask_cabify (DONANTE t)); [|discriminate].
    intros _. now apply mask_weekend_spec, Hw.
Qed.

(** ** The further properties on concrete data *)

Lemma filtrarPostNuevos_sorts_new_posts_witness :
  [Sample.saturday; Sample.sunday]
  ≡ₚ filter (is_new [Demo.interaccion_header]) [Sample.sunday; Sample.saturday] /\
  (exists keys,
     mapM (@post_instant Sample.collaborators) [Sample.saturday; Sample.sunday] = Some keys /\
     Sorted Z.le keys) /\
  (forall keys,
     mapM (@post_instant Sample.collaborators)
          (filter (is_new [Demo.interaccion_header]) [Sample.sunday; Sample.saturday])
     = Some keys ->
     Sorted Z.le keys ->
     [Sample.saturday; Sample.sunday]
     = filter (is_new [Demo.interaccion_header]) [Sample.sunday; Sample.saturday]).
Proof.
  apply (@filtrarPostNuevos_sorts_new_posts Sample.collaborators
           [Demo.interaccion_header] [Sample.sunday; Sample.saturday]
           [Sample.saturday; Sample.sunday]).
  vm_compute. reflexivity.
Defined.

Lemma unparsed_timestamp_aborts_batch_witness :
  @process_instagram_posts Sample.collaborators
    [Sample.saturday; Sample.undated] Demo.store0
  = add_log LogBatchError
      (mkState Demo.store0 (get_oldest_id (worksheet_animal Demo.store0)) []).
Proof.
  apply (@unparsed_timestamp_aborts_batch Sample.collaborators
           [Sample.saturday; Sample.undated] Demo.store0 Sample.undated).
  - right. left.
  - vm_compute. reflexivity.
  - reflexivity.
Defined.

Lemma identifier_survives_run_witness :
  get_id "sol"
    (worksheet_animal
       (store (@process_instagram_posts Demo.collaborators
                 [Demo.post "one" "p1" None] Demo.store0)))
  = Some "10".
Proof.
  apply (@identifier_survives_run Demo.collaborators
           [Demo.post "one" "p1" None] Demo.store0 "sol" "10").
  reflexivity.
Defined.

Lemma linked_post_is_known_afterwards_witness :
  let st' :=
    (@process_name Demo.collaborators (Demo.post "mixed" "p1" None)
       (VList [VStr "luna,sol"; VList [Demo.event]]) "luna,sol" "mixed"
       "09/08/2025 19:00:00" 2 "sol" (mkLocals (Some "m.jpg") (ImgList []))
       (mkState Demo.store0 10 [])).2 in
  in_contenido (worksheet_interaccion (store st'))
    (permalink_str (Demo.post "mixed" "p1" None)) = true /\
  store (@process_instagram_posts Demo.collaborators
           [Demo.post "mixed" "p1" None] (store st'))
  = store st'.
Proof.
  apply (@linked_post_is_known_afterwards Demo.collaborators
           (Demo.post "mixed" "p1" None)
           (VList [VStr "luna,sol"; VList [Demo.event]]) "luna,sol" "mixed"
           "09/08/2025 19:00:00" 2%nat "sol" (mkLocals (Some "m.jpg") (ImgList []))
           (mkState Demo.store0 10 []) "10").
  - reflexivity.
  - do 3 right. left.
Defined.

Lemma record_without_child_raises_witness :
  (insert_result (Demo.post "two" "p1" Demo.children) "09/08/2025 19:00:00" 2
     (mkAnimalResult (VStr "luna") (VStr "09/08/2025 19:00:00") (VStr "perro")
        (VStr "CABA") (VStr "negro") (VStr "2 meses") (VStr "sano"))
     (Some "m.jpg") (mkState Demo.store0 10 [])).1 = None.
Proof.
  refine (proj1 (proj1 (record_without_child_raises
            (Demo.post "two" "p1" Demo.children) "09/08/2025 19:00:00" 2%nat
            (mkAnimalResult (VStr "luna") (VStr "09/08/2025 19:00:00") (VStr "perro")
               (VStr "CABA") (VStr "negro") (VStr "2 meses") (VStr "sano"))
            (Some "m.jpg") (mkState Demo.store0 10 [])
            [mkChild (Some "c1") (Some "c1.jpg") None;
             mkChild (Some "c2") (Some "c2.jpg") None] eq_refl) _)).
  cbn. lia.
Defined.

Lemma post_of_known_animals_creates_none_witness :
  worksheet_animal
    (store (@try_post Demo.collaborators (Demo.post "one" "p1" None)
              (mkState Sample.store_luna 10 [])))
  = worksheet_animal Sample.store_luna /\
  oldest_id (@try_post Demo.collaborators (Demo.post "one" "p1" None)
               (mkState Sample.store_luna 10 [])) = 10.
Proof.
  apply (@post_of_known_animals_creates_none Demo.collaborators
           (Demo.post "one" "p1" None) (mkState Sample.store_luna 10 [])
           (mkDatetime 2025 8 9 19 0 0 0) "one"
           (VList [VStr "luna"; VList [Demo.event]]) "luna");
    try reflexivity.
  constructor; [|constructor]. exists "10". reflexivity.
Defined.

Lemma buscar_valor_en_fila_first_match_witness :
  exists (idx_busqueda idx_retorno k : nat) (fila : list string) (cell : string),
    header_index "ID" (Worksheet.row_values_1 Sample.datos_sheet) = Some idx_busqueda /\
    header_index "estado actual" (Worksheet.row_values_1 Sample.datos_sheet)
    = Some idx_retorno /\
    tail Sample.datos_sheet !! k = Some fila /\
    fila !! idx_busqueda = Some cell /\ PyStr.strip cell = "8" /\
    fila !! idx_retorno = Some "en transito" /\
    forall j fila' cell', (j < k)%nat -> tail Sample.datos_sheet !! j = Some fila' ->
      fila' !! idx_busqueda = Some cell' -> PyStr.strip cell' <> "8".
Proof.
  apply (buscar_valor_en_fila_first_match Sample.datos_sheet "ID" "estado actual" "8"
           "en transito").
  reflexivity.
Defined.

Lemma buscar_valor_en_fila_untrimmed_witness :
  buscar_valor_en_fila Sample.datos_sheet "id" "Estado Actual" " 7 " = None.
Proof.
  apply (buscar_valor_en_fila_untrimmed Sample.datos_sheet "id" "Estado Actual" " 7 ").
  vm_compute. discriminate.
Defined.

Lemma get_estado_untrimmed_identifier_witness :
  get_estado Sample.post_sheet Sample.datos_sheet "p1" = None.
Proof.
  apply (get_estado_untrimmed_identifier Sample.post_sheet Sample.datos_sheet "p1" " 7 ").
  - reflexivity.
  - vm_compute. discriminate.
Defined.

Lemma get_recent_posts_complete_witness :
  @get_recent_posts Sample.collaborators true
    [Ok200 [Sample.sunday]; Ok200 [Sample.saturday]] None
  ≡ₚ filter (fun p => @is_later Sample.collaborators (default default_date None) p = true)
       (fetched [Ok200 [Sample.sunday]; Ok200 [Sample.saturday]]).
Proof.
  apply (@get_recent_posts_complete Sample.collaborators
           [Ok200 [Sample.sunday]; Ok200 [Sample.saturday]] None).
  - reflexivity.
  - repeat constructor; eexists; reflexivity.
Defined.

Lemma get_recent_posts_failure_returns_nothing_witness :
  @get_recent_posts Sample.collaborators true
    [Ok200 [Sample.sunday; Sample.undated]; Ok200 [Sample.saturday]] None = [].
Proof.
  apply (@get_recent_posts_failure_returns_nothing Sample.collaborators true
           [Ok200 [Sample.sunday; Sample.undated]; Ok200 [Sample.saturday]] None).
  right. exists Sample.undated. split; [|reflexivity].
  cbn [fetched app]. right. left.
Defined.

Lemma fetched_posts_are_later_than_recorded_witness :
  exists post_time,
    Sample.parse_timestamp (p_timestamp Sample.saturday) = Some post_time /\
    naive_ltb (mkDatetime 2025 8 1 10 0 0 0) post_time = true.
Proof.
  apply (@fetched_posts_are_later_than_recorded Sample.collaborators Sample.parse_dmy
           (worksheet_animal Demo.store0) true [Ok200 [Sample.saturday]]
           Sample.saturday 2%nat "01/08/2025 10:00:00" (mkDatetime 2025 8 1 10 0 0 0)).
  - change (Sample.saturday ∈ [Sample.saturday]). left.
  - reflexivity.
  - cbn. left.
  - vm_compute. discriminate.
  - reflexivity.
Defined.

Lemma expense_without_date_witness :
  to_expense Demo.to_datetime Sample.pet_shop
    ∈ _process_expenses Demo.to_datetime [Demo.ride "op1" "ayer"; Sample.pet_shop] /\
  e_FECHA (to_expense Demo.to_datetime Sample.pet_shop) = None.
Proof.
  refine (proj2 (expense_without_date Demo.to_datetime
            [Demo.ride "op1" "ayer"; Sample.pet_shop] Sample.pet_shop _ _ _) _).
  - right. left.
  - vm_compute. reflexivity.
  - reflexivity.
  - vm_compute. reflexivity.
Defined.

Lemma one_log_line_per_post_witness :
  exists entries,
    filter (fun e => is_post_entry e = true)
      (log (@process_posts Demo.collaborators
              [Demo.post "zero" "p1" None; Demo.post "one" "p2" None]
              (mkState Demo.store0 10 [])))
    = filter (fun e => is_post_entry e = true) (log (mkState Demo.store0 10 [])) ++ entries /\
    Forall2 (fun p e => e = LogPostOk (p_id p) \/ e = LogPostError (p_id p))
      [Demo.post "zero" "p1" None; Demo.post "one" "p2" None] entries.
Proof.
  apply (@one_log_line_per_post Demo.collaborators
           [Demo.post "zero" "p1" None; Demo.post "one" "p2" None]
           (mkState Demo.store0 10 [])).
  repeat constructor; eexists; reflexivity.
Defined.
